(** * CFO Copilot: intent classification and metric pipeline

    A shallow embedding of [agent/agent.py] and [agent/tools.py].

    - Text is [string]; the model covers ASCII text (bytes above 127
      are left alone by [lower]): the Unicode rules of [str.lower], of
      [re.IGNORECASE] and of the classes [\d] and [\s] for other
      characters are not modelled, and the facts on month extraction
      are stated for ASCII text ([Str.is_ascii]).  Month names are the
      English ones of the C locale.
    - Amounts are exact rationals ([Q]), the "decimal number" of the data
      model; a null cell (NaN / None in a pandas column) is [None].
    - A table is the list of its rows, in row order.  The pandas calls
      are written out as list functions, each named after its call.
    - A call that raises in Python returns [Raise e].
    - The first part computes on values.  [Module Obj] writes the same
      functions on a store of frame objects, to say which objects a call
      creates and which it updates in place; the two are proved to
      agree. *)

From Stdlib Require Import String Ascii List Bool Arith ZArith QArith Lia.
From Stdlib Require Import Sorted.
Import ListNotations.
Local Close Scope Q_scope.
Local Open Scope string_scope.

(** ** Strings *)

Module Str.

(** [c.lower()] on one ASCII character. *)
Definition lower_char (c : ascii) : ascii :=
  let n := nat_of_ascii c in
  if andb (65 <=? n)%nat (n <=? 90)%nat then ascii_of_nat (n + 32) else c.

(** [s.lower()]. *)
Fixpoint lower (s : string) : string :=
  match s with
  | EmptyString => EmptyString
  | String c s' => String (lower_char c) (lower s')
  end.

(** [sub in s]: [sub] occurs in [s] at some offset. *)
Fixpoint contains (sub s : string) : bool :=
  match s with
  | EmptyString => prefix sub EmptyString
  | String _ s' => prefix sub s || contains sub s'
  end.

(** [s.startswith(p)]. *)
Definition startswith (s p : string) : bool := prefix p s.

(** [sep.join(parts)]. *)
Definition join (sep : string) (parts : list string) : string :=
  String.concat sep parts.

(** Every character is below 128. *)
Fixpoint is_ascii (s : string) : bool :=
  match s with
  | EmptyString => true
  | String c s' => (nat_of_ascii c <? 128)%nat && is_ascii s'
  end.

End Str.

(** ** Intent classifier ([agent.py], [classify_intent]) *)

Definition classify_intent (question : string) : string :=
  let q := Str.lower question in
  if Str.contains "revenue" q && Str.contains "budget" q then
    "revenue_vs_budget"
  else if Str.contains "gross margin" q then
    "gross_margin_trend"
  else if Str.contains "opex" q then
    "opex_breakdown"
  else if Str.contains "ebitda" q && negb (Str.contains "budget" q) then
    "ebitda_trend"
  else if Str.contains "ebitda" q && Str.contains "budget" q then
    "ebitda_vs_budget"
  else if Str.contains "cash runway" q then
    "cash_runway"
  else
    "unknown".

(** The seven intent tags of the data model. *)
Definition intent_tags : list string :=
  [ "revenue_vs_budget"; "gross_margin_trend"; "opex_breakdown";
    "ebitda_trend"; "ebitda_vs_budget"; "cash_runway"; "unknown" ].

(** The ordered rule table of the design, read from its words: a list of
    (predicate on the lowercased question, intent), evaluated top to
    bottom, first match wins, [unknown] when none matches. *)
Definition intent_rules : list ((string -> bool) * string) :=
  [ (fun q => Str.contains "revenue" q && Str.contains "budget" q,
     "revenue_vs_budget");
    (fun q => Str.contains "gross margin" q, "gross_margin_trend");
    (fun q => Str.contains "opex" q, "opex_breakdown");
    (fun q => Str.contains "ebitda" q && negb (Str.contains "budget" q),
     "ebitda_trend");
    (fun q => Str.contains "ebitda" q && Str.contains "budget" q,
     "ebitda_vs_budget");
    (fun q => Str.contains "cash runway" q, "cash_runway") ].

Fixpoint first_match (rules : list ((string -> bool) * string))
    (q : string) : string :=
  match rules with
  | [] => "unknown"
  | (p, tag) :: rest => if p q then tag else first_match rest q
  end.

(** ** Month extraction ([agent.py], [run_agent] lines 60-65 and
    [parse_month_year]) *)

Module Month.

(** The alternation of the regular expression, in its order; it is also
    the list of [%B] names of [strptime]. *)
Definition names : list string :=
  [ "January"; "February"; "March"; "April"; "May"; "June"; "July";
    "August"; "September"; "October"; "November"; "December" ].

(** [\d] on ASCII: the digits 0 to 9. *)
Definition is_digit (c : ascii) : bool :=
  let n := nat_of_ascii c in andb (48 <=? n)%nat (n <=? 57)%nat.

(** [\s] on ASCII: space, tab to return (9-13) and the separators 28-31. *)
Definition is_space (c : ascii) : bool :=
  let n := nat_of_ascii c in
  orb (n =? 32)%nat
    (orb (andb (9 <=? n)%nat (n <=? 13)%nat)
         (andb (28 <=? n)%nat (n <=? 31)%nat)).

(** [p] matches at the start of [s] ignoring the case of ASCII letters;
    gives what follows. *)
Fixpoint strip_prefix_ci (p s : string) : option string :=
  match p, s with
  | EmptyString, _ => Some s
  | String a p', String b s' =>
      if Ascii.eqb (Str.lower_char a) (Str.lower_char b)
      then strip_prefix_ci p' s' else None
  | String _ _, EmptyString => None
  end.

(** [" \d{4}"] at the start of [s]. *)
Definition year_tail (s : string) : bool :=
  match s with
  | String sp (String d1 (String d2 (String d3 (String d4 _)))) =>
      Ascii.eqb sp " " && is_digit d1 && is_digit d2 && is_digit d3
      && is_digit d4
  | _ => false
  end.

(** The pattern matched at the start of [s]: the alternatives are tried
    in order; the result is the matched text, [group(0)]. *)
Fixpoint match_here (alts : list string) (s : string) : option string :=
  match alts with
  | [] => None
  | name :: rest =>
      match strip_prefix_ci name s with
      | Some tl =>
          if year_tail tl
          then Some (substring 0 (String.length name + 5) s)
          else match_here rest s
      | None => match_here rest s
      end
  end.

(** [re.search(pattern, s, re.IGNORECASE)]: the leftmost match. *)
Fixpoint search (s : string) : option string :=
  match match_here names s with
  | Some m => Some m
  | None =>
      match s with
      | EmptyString => None
      | String _ s' => search s'
      end
  end.

Definition digit_val (c : ascii) : nat := nat_of_ascii c - 48.

Definition digit_char (n : nat) : ascii := ascii_of_nat (48 + n).

Definition pad2 (n : nat) : string :=
  String (digit_char (n / 10 mod 10)) (String (digit_char (n mod 10)) "").

Definition pad4 (n : nat) : string :=
  String (digit_char (n / 1000 mod 10))
    (String (digit_char (n / 100 mod 10)) (pad2 n)).

(** [%Y] of [strftime] as the C library of Linux (glibc) writes it: the
    year in decimal, not padded, so a year below 1000 has fewer than
    four digits.  A [datetime] year is from 1 to 9999. *)
Definition year_text (n : nat) : string :=
  if (n <? 10)%nat then String (digit_char n) ""
  else if (n <? 100)%nat then pad2 n
  else if (n <? 1000)%nat then String (digit_char (n / 100 mod 10)) (pad2 n)
  else pad4 n.

(** [\s+] then [\d\d\d\d] then the end of the text: the year. *)
Fixpoint spaces_year (seen_space : bool) (s : string) : option nat :=
  match s with
  | String c s' =>
      if is_space c then spaces_year true s'
      else if seen_space then
        match s with
        | String d1 (String d2 (String d3 (String d4 EmptyString))) =>
            if is_digit d1 && is_digit d2 && is_digit d3 && is_digit d4
            then Some (digit_val d1 * 1000 + digit_val d2 * 100
                       + digit_val d3 * 10 + digit_val d4)
            else None
        | _ => None
        end
      else None
  | EmptyString => None
  end.

(** [strptime(text, "%B %Y")]: month number and year, when the whole
    text is a month name, white space and four digits. *)
Fixpoint strptime_BY (alts : list string) (idx : nat) (text : string)
    : option (nat * nat) :=
  match alts with
  | [] => None
  | name :: rest =>
      match strip_prefix_ci name text with
      | Some tl =>
          match spaces_year false tl with
          | Some y => Some (idx, y)
          | None => strptime_BY rest (S idx) text
          end
      | None => strptime_BY rest (S idx) text
      end
  end.

End Month.

(** [parse_month_year]: a [ValueError] of [strptime] (no match, or year 0,
    which [datetime] refuses) is caught and gives [None].  [strftime]
    writes the year as [Month.year_text] and the month with two digits. *)
Definition parse_month_year (text : string) : option string :=
  match Month.strptime_BY Month.names 1 text with
  | Some (m, y) =>
      if (y =? 0)%nat then None
      else Some (Month.year_text y ++ "-" ++ Month.pad2 m)
  | None => None
  end.

(** [month_match] and [month] of [run_agent]. *)
Definition extract_month (question : string) : option string :=
  match Month.search question with
  | Some tok => parse_month_year tok
  | None => None
  end.

(** Four decimal digits. *)
Definition four_digits (year : string) : Prop :=
  exists d1 d2 d3 d4,
    year = String d1 (String d2 (String d3 (String d4 "")))
    /\ Month.is_digit d1 = true /\ Month.is_digit d2 = true
    /\ Month.is_digit d3 = true /\ Month.is_digit d4 = true.

(** The month token in the words of the design: [tok] is a full English
    month name in any letter case, a space and a four-digit year; [m] is
    the number of the month. *)
Definition is_token (tok : string) (m : nat) (year : string) : Prop :=
  exists name name',
    nth_error Month.names (m - 1) = Some name /\ 1 <= m
    /\ Str.lower name' = Str.lower name
    /\ tok = name' ++ String " " year
    /\ four_digits year.

(** [tok] is the first token of [q]: no token starts before it. *)
Definition first_token (q tok : string) (m : nat) (year : string) : Prop :=
  exists pre post,
    q = pre ++ tok ++ post /\ is_token tok m year
    /\ forall pre' tok' post' m' year',
         q = pre' ++ tok' ++ post' -> is_token tok' m' year' ->
         String.length pre <= String.length pre'.

(** ** Results of calls *)

Inductive exn : Type :=
| KeyError (key : string)
| ValueError (msg : string)
| TypeError (msg : string).

Inductive result (A : Type) : Type :=
| Ok (a : A)
| Raise (e : exn).

Arguments Ok {A} a.
Arguments Raise {A} e.

Definition bind {A B : Type} (r : result A) (k : A -> result B)
    : result B :=
  match r with
  | Ok a => k a
  | Raise e => Raise e
  end.

Notation "x <- r ;; k" := (bind r (fun x => k))
  (at level 61, r at next level, right associativity).

(** ** Data model *)

(** A row of the actuals or of the budget table.  [month], [amount] and
    [currency] may be null: [convert_to_usd] tests them.  [entity] and
    [account_category] are present, as the data model has them; the
    source never tests them for null.  A table with a blank category
    cell is therefore outside the model: there the masks built with
    [.str.startswith] hold a null, and indexing with such a mask is an
    error path of pandas that no definition below has. *)
Record FinancialRecord : Type := {
  month : option string;
  entity : string;
  account_category : string;
  amount : option Q;
  currency : option string
}.

Record FxRate : Type := {
  fx_month : option string;
  fx_currency : option string;
  rate_to_usd : option Q
}.

Record CashRecord : Type := {
  cash_month : option string;
  cash_entity : option string;
  cash_usd : option Q
}.

(** A row after the merge with the rate table: the record's columns and
    [rate_to_usd]. *)
Record MergedRecord : Type := {
  m_record : FinancialRecord;
  m_rate_to_usd : option Q
}.

(** A row of the table [convert_to_usd] returns: the merged row and
    [amount_usd]. *)
Record NormalizedRecord : Type := {
  base : FinancialRecord;
  n_rate_to_usd : option Q;
  amount_usd : option Q
}.

Definition notna {A : Type} (x : option A) : bool :=
  match x with Some _ => true | None => false end.

Definition opt_eqb (a b : option string) : bool :=
  match a, b with
  | Some x, Some y => String.eqb x y
  | None, None => true
  | _, _ => false
  end.

(** [col == value] on a cell that may be null: null equals nothing. *)
Definition cell_is (a : option string) (v : string) : bool :=
  match a with
  | Some x => String.eqb x v
  | None => false
  end.

(** Product of two cells; null when either is. *)
Definition cell_mul (a b : option Q) : option Q :=
  match a, b with
  | Some x, Some y => Some (x * y)%Q
  | _, _ => None
  end.

(** ** Currency normalizer ([tools.py], [convert_to_usd]) *)

(** [df.dropna(subset=["month", "currency", "amount"])]. *)
Definition dropna_records (df : list FinancialRecord)
    : list FinancialRecord :=
  filter (fun r => notna (month r) && notna (currency r) && notna (amount r))
    df.

(** [fx.dropna(subset=["month", "currency", "rate_to_usd"])]. *)
Definition dropna_fx (fx : list FxRate) : list FxRate :=
  filter (fun f => notna (fx_month f) && notna (fx_currency f)
                   && notna (rate_to_usd f)) fx.

Definition same_key (m c : option string) (f : FxRate) : bool :=
  opt_eqb (fx_month f) m && opt_eqb (fx_currency f) c.

(** [drop_duplicates(subset=["month", "currency"], keep="first")]: a row
    stays when no row kept before it has its key. *)
Fixpoint drop_duplicates_from (kept : list FxRate) (fx : list FxRate)
    : list FxRate :=
  match fx with
  | [] => []
  | f :: rest =>
      if existsb (same_key (fx_month f) (fx_currency f)) kept
      then drop_duplicates_from kept rest
      else f :: drop_duplicates_from (f :: kept) rest
  end.

Definition drop_duplicates (fx : list FxRate) : list FxRate :=
  drop_duplicates_from [] fx.

(** [left.merge(right, on=["month", "currency"], how="left")]: each left
    row, in order, once per right row with its key, or once with a null
    rate when there is none. *)
Definition merge_left (left : list FinancialRecord) (right : list FxRate)
    : list MergedRecord :=
  flat_map
    (fun r =>
       match filter (same_key (month r) (currency r)) right with
       | [] => [ {| m_record := r; m_rate_to_usd := None |} ]
       | hits =>
           map (fun f => {| m_record := r;
                            m_rate_to_usd := rate_to_usd f |}) hits
       end)
    left.

(** [merged.dropna(subset=["rate_to_usd"])]. *)
Definition dropna_rate (merged : list MergedRecord) : list MergedRecord :=
  filter (fun r => notna (m_rate_to_usd r)) merged.

(** [merged["amount_usd"] = merged["amount"] * merged["rate_to_usd"]]. *)
Definition with_amount_usd (merged : list MergedRecord)
    : list NormalizedRecord :=
  map (fun r => {| base := m_record r;
                   n_rate_to_usd := m_rate_to_usd r;
                   amount_usd := cell_mul (amount (m_record r))
                                   (m_rate_to_usd r) |}) merged.

Definition convert_to_usd (df : list FinancialRecord) (fx : list FxRate)
    : list NormalizedRecord :=
  let clean_df := dropna_records df in
  let clean_fx := dropna_fx fx in
  let clean_fx := drop_duplicates clean_fx in
  let merged := merge_left clean_df clean_fx in
  let merged := dropna_rate merged in
  with_amount_usd merged.

(** The normalizer in the words of the design: the first rate row, in
    input order, that is complete and has the key. *)
Definition first_rate (fx : list FxRate) (m c : option string)
    : option FxRate :=
  find (fun f => notna (fx_month f) && notna (fx_currency f)
                 && notna (rate_to_usd f) && same_key m c f) fx.

Definition convertible (fx : list FxRate) (r : FinancialRecord) : bool :=
  notna (month r) && notna (currency r) && notna (amount r)
  && notna (first_rate fx (month r) (currency r)).

(** The rate the table gives a month and a currency. *)
Definition rate_of (fx : list FxRate) (m c : option string) : option Q :=
  match first_rate fx m c with
  | Some f => rate_to_usd f
  | None => None
  end.

Definition normalized (fx : list FxRate) (r : FinancialRecord)
    : NormalizedRecord :=
  let rate := rate_of fx (month r) (currency r) in
  {| base := r; n_rate_to_usd := rate;
     amount_usd := cell_mul (amount r) rate |}.

Definition convert_to_usd_spec (df : list FinancialRecord)
    (fx : list FxRate) : list NormalizedRecord :=
  map (normalized fx) (filter (convertible fx) df).

(** ** Numbers in text ([format] with [",.0f"] and [".1f"]) *)

(** A float as the source can hold one at the places that print or plot:
    a number, an infinity, or NaN. *)
Inductive fnum : Type :=
| Num (q : Q)
| PosInf
| NegInf
| NaN.

Definition fnum_of_cell (c : option Q) : fnum :=
  match c with Some q => Num q | None => NaN end.

Module Fmt.

(** Nearest integer, ties to the even one. *)
Definition round_half_even (q : Q) : Z :=
  let n := Qnum q in
  let d := Zpos (Qden q) in
  let fl := (n / d)%Z in
  let twice := (2 * (n mod d))%Z in
  if (twice <? d)%Z then fl
  else if (d <? twice)%Z then (fl + 1)%Z
  else if Z.even fl then fl else (fl + 1)%Z.

Fixpoint uint_chars (u : Decimal.uint) : list ascii :=
  match u with
  | Decimal.Nil => []
  | Decimal.D0 u' => "0"%char :: uint_chars u'
  | Decimal.D1 u' => "1"%char :: uint_chars u'
  | Decimal.D2 u' => "2"%char :: uint_chars u'
  | Decimal.D3 u' => "3"%char :: uint_chars u'
  | Decimal.D4 u' => "4"%char :: uint_chars u'
  | Decimal.D5 u' => "5"%char :: uint_chars u'
  | Decimal.D6 u' => "6"%char :: uint_chars u'
  | Decimal.D7 u' => "7"%char :: uint_chars u'
  | Decimal.D8 u' => "8"%char :: uint_chars u'
  | Decimal.D9 u' => "9"%char :: uint_chars u'
  end.

(** The decimal digits of a natural number, most significant first. *)
Definition digits (n : N) : list ascii := uint_chars (N.to_uint n).

(** A comma after every third digit, on the digits least significant
    first. *)
Fixpoint group3 (rev_digits : list ascii) : list ascii :=
  match rev_digits with
  | a :: b :: c :: ((_ :: _) as rest) =>
      a :: b :: c :: ","%char :: group3 rest
  | _ => rev_digits
  end.

Definition with_commas (n : N) : string :=
  string_of_list_ascii (rev (group3 (rev (digits n)))).

Definition sign (q : Q) : string :=
  if (Qnum q <? 0)%Z then "-" else "".

(** [format(x, ",.0f")]. *)
Definition money (x : fnum) : string :=
  match x with
  | Num q => sign q ++ with_commas (Z.abs_N (round_half_even q))
  | PosInf => "inf"
  | NegInf => "-inf"
  | NaN => "nan"
  end.

(** [format(x, ".1f")]. *)
Definition fixed1 (x : fnum) : string :=
  match x with
  | Num q =>
      let t := Z.abs_N (round_half_even (q * 10)%Q) in
      sign q ++ string_of_list_ascii (digits (t / 10)%N) ++ "."
      ++ string_of_list_ascii (digits (t mod 10)%N)
  | PosInf => "inf"
  | NegInf => "-inf"
  | NaN => "nan"
  end.

End Fmt.

(** ** Frame operations shared by the metric functions *)

(** [Series.sum()] of the [amount_usd] column: nulls are skipped and no
    rows sum to zero. *)
Definition sum_usd (rows : list NormalizedRecord) : Q :=
  fold_left (fun acc r => match amount_usd r with
                          | Some x => (acc + x)%Q
                          | None => acc
                          end) rows 0%Q.

(** [Series.mean()]: NaN ([None]) on no rows. *)
Definition mean (xs : list Q) : option Q :=
  match xs with
  | [] => None
  | _ => Some (fold_left Qplus xs 0%Q / inject_Z (Z.of_nat (length xs)))%Q
  end.

Fixpoint insert_unique (x : string) (l : list string) : list string :=
  match l with
  | [] => [x]
  | y :: l' =>
      if String.eqb x y then l
      else if String.ltb x y then x :: l
      else y :: insert_unique x l'
  end.

(** The distinct values of a column in increasing order: the group keys
    of [groupby] and the axes of [pivot_table]. *)
Definition sorted_unique (l : list string) : list string :=
  fold_right insert_unique [] l.

(** Order of [sort_values] on a column that may hold nulls: nulls last. *)
Definition key_ltb (a b : option string) : bool :=
  match a, b with
  | Some x, Some y => String.ltb x y
  | Some _, None => true
  | None, _ => false
  end.

Fixpoint insert_sorted {A : Type} (key : A -> option string) (x : A)
    (l : list A) : list A :=
  match l with
  | [] => [x]
  | y :: l' =>
      if key_ltb (key x) (key y) then x :: l
      else y :: insert_sorted key x l'
  end.

(** [df.sort_values(col)].  Rows with equal keys are left in their order
    here; pandas does not promise an order for them, and no fact below
    depends on it. *)
Definition sort_values {A : Type} (key : A -> option string) (l : list A)
    : list A :=
  fold_left (fun acc x => insert_sorted key x acc) l [].

(** [a] is not after [b] in the order of [sort_values]. *)
Definition not_after {A : Type} (key : A -> option string) (a b : A)
    : Prop :=
  key_ltb (key b) (key a) = false.

(** [a] is strictly before [b]. *)
Definition before {A : Type} (key : A -> option string) (a b : A) : Prop :=
  key_ltb (key a) (key b) = true.

(** [df.tail(n)]. *)
Definition tail {A : Type} (n : nat) (l : list A) : list A :=
  skipn (length l - n) l.

(** The months of a normalized table that are present. *)
Definition months_of (df : list NormalizedRecord) : list string :=
  flat_map (fun r => match month (base r) with
                     | Some m => [m]
                     | None => []
                     end) df.

Definition is_category (c : string) (r : NormalizedRecord) : bool :=
  String.eqb (account_category (base r)) c.

Definition is_opex (r : NormalizedRecord) : bool :=
  Str.startswith (account_category (base r)) "Opex".

Definition in_month (m : string) (r : NormalizedRecord) : bool :=
  cell_is (month (base r)) m.

Definition of_entity (e : string) (r : NormalizedRecord) : bool :=
  String.eqb (entity (base r)) e.

(** ** Charts *)

Inductive chart_kind : Type := Bar | Line.

Record chart : Type := {
  kind : chart_kind;
  xs : list string;
  ys : list fnum;
  title : string;
  ylabel : string
}.

(** ** Metric engine ([tools.py]) *)

(** The text and the chart of [get_revenue_vs_budget]. *)
Definition revenue_vs_budget_answer (month_ entity_ : string)
    (actual_rev budget_rev : Q) : string * chart :=
  let text := "Revenue in " ++ month_ ++ " for " ++ entity_ ++ ": Actual $"
              ++ Fmt.money (Num actual_rev) ++ " vs Budget $"
              ++ Fmt.money (Num budget_rev) in
  (text,
   {| kind := Bar; xs := ["Actual"; "Budget"];
      ys := [Num actual_rev; Num budget_rev];
      title := "Revenue vs Budget - " ++ month_ ++ " (" ++ entity_ ++ ")";
      ylabel := "USD" |}).

(** The rows [actuals_usd[mask]] keeps in [get_revenue_vs_budget]. *)
Definition revenue_rows (month_ entity_ : string)
    (df : list NormalizedRecord) : list NormalizedRecord :=
  filter (fun r => in_month month_ r && of_entity entity_ r
                   && is_category "Revenue" r) df.

Definition get_revenue_vs_budget (month_ entity_ : string)
    (actuals budget : list FinancialRecord) (fx : list FxRate)
    : result (string * chart) :=
  let actuals_usd := convert_to_usd actuals fx in
  let budget_usd := convert_to_usd budget fx in
  let actual_rev := sum_usd (revenue_rows month_ entity_ actuals_usd) in
  let budget_rev := sum_usd (revenue_rows month_ entity_ budget_usd) in
  Ok (revenue_vs_budget_answer month_ entity_ actual_rev budget_rev).

(** The frame [pivot_table(index="month", columns="account_category",
    values="amount_usd", aggfunc="sum")] builds: the months, and one
    column of sums per category; a cell without rows is null. *)
Record Pivot : Type := {
  pv_month : list string;
  pv_columns : list (string * list (option Q))
}.

Definition pivot_cell (df : list NormalizedRecord) (m c : string)
    : option Q :=
  match filter (fun r => in_month m r && is_category c r) df with
  | [] => None
  | rows => Some (sum_usd rows)
  end.

Definition pivot_table (df : list NormalizedRecord) : Pivot :=
  let months := sorted_unique (months_of df) in
  let cats := sorted_unique (map (fun r => account_category (base r)) df) in
  {| pv_month := months;
     pv_columns :=
       map (fun c => (c, map (fun m => pivot_cell df m c) months)) cats |}.

(** [reset_index()] moves the index into a column named [month], and
    refuses when a column of that name exists. *)
Definition reset_index (p : Pivot) : result Pivot :=
  if existsb (fun c => String.eqb (fst c) "month") (pv_columns p)
  then Raise (ValueError "cannot insert month, already exists")
  else Ok p.

Fixpoint lookup_column (cols : list (string * list (option Q)))
    (c : string) : option (list (option Q)) :=
  match cols with
  | [] => None
  | (name, col) :: rest =>
      if String.eqb name c then Some col else lookup_column rest c
  end.

(** [pivot[c]] for a category column: [KeyError] when there is none. *)
Definition getitem (p : Pivot) (c : string) : result (list (option Q)) :=
  match lookup_column (pv_columns p) c with
  | Some col => Ok col
  | None => Raise (KeyError c)
  end.

(** [(rev - cogs) / rev * 100] on one row, with the float division of
    the column arithmetic: a null operand gives NaN, a zero revenue an
    infinity or NaN. *)
Definition gross_margin_pct (rev cogs : option Q) : fnum :=
  match rev, cogs with
  | Some r, Some c =>
      if Qeq_bool r 0%Q then
        if (0 <? Qnum (r - c)%Q)%Z then PosInf
        else if (Qnum (r - c)%Q <? 0)%Z then NegInf
        else NaN
      else Num ((r - c) / r * 100)%Q
  | _, _ => NaN
  end.

(** [pivot["GrossMarginPct"]] from the two columns. *)
Definition gross_margin_column (revenue cogs : list (option Q))
    : list fnum :=
  map (fun rc => gross_margin_pct (fst rc) (snd rc)) (combine revenue cogs).

Definition gross_margin_answer (entity_ : string) (months : list string)
    (pct : list fnum) : string * chart :=
  let text := "Gross Margin % Trend for " ++ entity_ ++ ":" in
  (text,
   {| kind := Line; xs := months; ys := pct;
      title := "Gross Margin % Trend - " ++ entity_;
      ylabel := "Gross Margin %" |}).

Definition get_gross_margin_trend1 (actuals : list FinancialRecord)
    (fx : list FxRate) (entity_ : string) : result (string * chart) :=
  let df_usd := convert_to_usd actuals fx in
  let df_usd := filter (of_entity entity_) df_usd in
  pivot <- reset_index (pivot_table df_usd) ;;
  revenue <- getitem pivot "Revenue" ;;
  cogs <- getitem pivot "COGS" ;;
  let pct := gross_margin_column revenue cogs in
  Ok (gross_margin_answer entity_ (pv_month pivot) pct).

(** [groupby("account_category")["amount_usd"].sum()]: one sum per
    category, categories in increasing order. *)
Definition sum_by_category (df : list NormalizedRecord)
    : list (string * Q) :=
  map (fun c => (c, sum_usd (filter (is_category c) df)))
      (sorted_unique (map (fun r => account_category (base r)) df)).

Definition opex_breakdown_answer (month_ entity_ : string)
    (opex_summary : list (string * Q)) : string * chart :=
  let text_lines :=
    ("Opex breakdown for " ++ month_ ++ " (" ++ entity_ ++ "):")
    :: map (fun ca => fst ca ++ ": $" ++ Fmt.money (Num (snd ca)))
           opex_summary in
  let text := Str.join (String "010"%char "") text_lines in
  (text,
   {| kind := Bar; xs := map fst opex_summary;
      ys := map (fun ca => Num (snd ca)) opex_summary;
      title := "Opex Breakdown - " ++ month_ ++ " (" ++ entity_ ++ ")";
      ylabel := "USD" |}).

(** The rows [df_usd[mask]] keeps in [get_opex_breakdown1]. *)
Definition opex_rows (month_ entity_ : string)
    (df : list NormalizedRecord) : list NormalizedRecord :=
  filter (fun r => in_month month_ r && of_entity entity_ r && is_opex r) df.

Definition get_opex_breakdown1 (month_ entity_ : string)
    (actuals : list FinancialRecord) (fx : list FxRate)
    : result (string * chart) :=
  let df_usd := convert_to_usd actuals fx in
  let opex_df := opex_rows month_ entity_ df_usd in
  let opex_summary := sum_by_category opex_df in
  Ok (opex_breakdown_answer month_ entity_ opex_summary).

(** [frame.sum(axis=1)] over the given columns, for [n] rows: nulls
    count as zero. *)
Definition row_sums (n : nat) (cols : list (list (option Q))) : list Q :=
  fold_left
    (fun acc col =>
       map (fun ac => match snd ac with
                      | Some x => (fst ac + x)%Q
                      | None => fst ac
                      end) (combine acc col))
    cols (repeat 0%Q n).

(** [rev - cogs - opex] on one row; NaN when revenue or COGS is null. *)
Definition ebitda_row (rev cogs : option Q) (opex : fnum) : fnum :=
  match rev, cogs, opex with
  | Some r, Some c, Num o => Num (r - c - o)%Q
  | _, _, _ => NaN
  end.

(** [pivot["OpexTotal"]]: the row sums of the columns whose name starts
    with [Opex], or the scalar 0 when there is none. *)
Definition opex_total_column (p : Pivot) : list fnum :=
  let opex_cols :=
    filter (fun c => Str.startswith (fst c) "Opex") (pv_columns p) in
  match opex_cols with
  | [] => repeat (Num 0%Q) (length (pv_month p))
  | _ => map Num (row_sums (length (pv_month p)) (map snd opex_cols))
  end.

(** [pivot["EBITDA"]] from the three columns. *)
Definition ebitda_column (revenue cogs : list (option Q))
    (opex_total : list fnum) : list fnum :=
  map (fun rco => ebitda_row (fst (fst rco)) (snd (fst rco)) (snd rco))
      (combine (combine revenue cogs) opex_total).

Definition ebitda_trend_answer (entity_ : string) (months : list string)
    (ebitda : list fnum) : string * chart :=
  let text := "EBITDA trend for " ++ entity_ ++ " over time." in
  (text,
   {| kind := Line; xs := months; ys := ebitda;
      title := "EBITDA Trend - " ++ entity_;
      ylabel := "USD" |}).

(** The [print(pivot)] of the source writes to the standard output and
    is left out. *)
Definition get_ebitda_trend (actuals : list FinancialRecord)
    (fx : list FxRate) (entity_ : string) : result (string * chart) :=
  let df_usd := convert_to_usd actuals fx in
  let df_usd := filter (of_entity entity_) df_usd in
  pivot <- reset_index (pivot_table df_usd) ;;
  let opex_total := opex_total_column pivot in
  revenue <- getitem pivot "Revenue" ;;
  cogs <- getitem pivot "COGS" ;;
  let ebitda := ebitda_column revenue cogs opex_total in
  Ok (ebitda_trend_answer entity_ (pv_month pivot) ebitda).

Definition compute_ebitda (df : list NormalizedRecord) : Q :=
  let revenue := sum_usd (filter (is_category "Revenue") df) in
  let cogs := sum_usd (filter (is_category "COGS") df) in
  let opex := sum_usd (filter is_opex df) in
  (revenue - cogs - opex)%Q.

Definition ebitda_vs_budget_answer (month_ entity_ : string)
    (actual_ebitda budget_ebitda : Q) : string * chart :=
  let text := "EBITDA in " ++ month_ ++ " for " ++ entity_ ++ ": Actual $"
              ++ Fmt.money (Num actual_ebitda) ++ " vs Budget $"
              ++ Fmt.money (Num budget_ebitda) in
  (text,
   {| kind := Bar; xs := ["Actual"; "Budget"];
      ys := [Num actual_ebitda; Num budget_ebitda];
      title := "EBITDA vs Budget - " ++ month_ ++ " (" ++ entity_ ++ ")";
      ylabel := "USD" |}).

(** The rows [df[mask]] keeps for a month and an entity. *)
Definition slice_rows (month_ entity_ : string)
    (df : list NormalizedRecord) : list NormalizedRecord :=
  filter (fun r => in_month month_ r && of_entity entity_ r) df.

Definition get_ebitda_vs_budget (month_ entity_ : string)
    (actuals budget : list FinancialRecord) (fx : list FxRate)
    : result (string * chart) :=
  let actuals_usd := convert_to_usd actuals fx in
  let budget_usd := convert_to_usd budget fx in
  let a := slice_rows month_ entity_ actuals_usd in
  let b := slice_rows month_ entity_ budget_usd in
  let actual_ebitda := compute_ebitda a in
  let budget_ebitda := compute_ebitda b in
  Ok (ebitda_vs_budget_answer month_ entity_ actual_ebitda budget_ebitda).

(** One row of [monthly] in [get_cash_runway]. *)
Record MonthlyRow : Type := {
  mo_month : string;
  mo_revenue : Q;
  mo_cogs : Q;
  mo_opex : Q
}.

(** One cell of [monthly["COGS"] + monthly["Opex"] - monthly["Revenue"]]. *)
Definition net_burn (r : MonthlyRow) : Q :=
  (mo_cogs r + mo_opex r - mo_revenue r)%Q.

(** [monthly["NetBurn"] = ...]: the rows with the new column. *)
Definition with_net_burn (monthly : list MonthlyRow)
    : list (MonthlyRow * Q) :=
  map (fun r => (r, net_burn r)) monthly.

(** [df_usd["is_opex"] = df_usd["account_category"].str.startswith("Opex")]. *)
Definition with_is_opex (df_usd : list NormalizedRecord)
    : list (NormalizedRecord * bool) :=
  map (fun r => (r, is_opex r)) df_usd.

(** The function [apply] runs on the group [g] of month [m]. *)
Definition month_totals (m : string) (g : list (NormalizedRecord * bool))
    : MonthlyRow :=
  {| mo_month := m;
     mo_revenue :=
       sum_usd (map fst (filter (fun rf => is_category "Revenue" (fst rf)) g));
     mo_cogs :=
       sum_usd (map fst (filter (fun rf => is_category "COGS" (fst rf)) g));
     mo_opex := sum_usd (map fst (filter snd g)) |}.

(** [df_usd.groupby("month").apply(...).reset_index()]: one row per
    month, months in increasing order.  On a frame without rows [apply]
    calls the function on no group and returns the columns of the frame
    itself, [month] among them, so that [reset_index] refuses (pandas 1.1
    to 2.2; other versions fail one line later, at [monthly["COGS"]]). *)
Definition monthly_totals (df_usd : list (NormalizedRecord * bool))
    : result (list MonthlyRow) :=
  match sorted_unique (months_of (map fst df_usd)) with
  | [] => Raise (ValueError "cannot insert month, already exists")
  | months =>
      Ok (map (fun m =>
                 month_totals m
                   (filter (fun rf => in_month m (fst rf)) df_usd)) months)
  end.

(** [df.iloc[-1]]. *)
Definition iloc_last {A : Type} (l : list A) : option A :=
  match rev l with
  | x :: _ => Some x
  | [] => None
  end.

(** [cash.dropna(subset=["month", "entity", "cash_usd"])]. *)
Definition dropna_cash (cash : list CashRecord) : list CashRecord :=
  filter (fun r => notna (cash_month r) && notna (cash_entity r)
                   && notna (cash_usd r)) cash.

(** [cash_clean[cash_clean["entity"] == entity]]. *)
Definition cash_of_entity (entity_ : string) (cash_clean : list CashRecord)
    : list CashRecord :=
  filter (fun r => cell_is (cash_entity r) entity_) cash_clean.

(** The block of [get_cash_runway] that picks the latest cash balance. *)
Definition latest_cash_of (cash : list CashRecord) (entity_ : string)
    : option Q :=
  let cash_clean := dropna_cash cash in
  let entity_cash :=
    sort_values cash_month (cash_of_entity entity_ cash_clean) in
  match iloc_last entity_cash with
  | Some r => cash_usd r
  | None =>
      let overall_latest := sort_values cash_month cash_clean in
      match iloc_last overall_latest with
      | None => Some 0%Q
      | Some r => cash_usd r
      end
  end.

(** [latest_cash / avg_burn] when [avg_burn > 0], else [float('inf')];
    a comparison with NaN is false. *)
Definition runway_of (latest_cash avg_burn : option Q) : fnum :=
  match avg_burn with
  | Some b =>
      if (0 <? Qnum b)%Z then
        match latest_cash with
        | Some c => Num (c / b)%Q
        | None => NaN
        end
      else PosInf
  | None => PosInf
  end.

Definition cash_runway_answer (entity_ : string) (runway_months : fnum)
    (latest_cash avg_burn : option Q) (monthly : list (MonthlyRow * Q))
    : string * chart :=
  let text := "Cash Runway for " ++ entity_ ++ ": "
              ++ Fmt.fixed1 runway_months ++ " months (latest cash $"
              ++ Fmt.money (fnum_of_cell latest_cash) ++ ", avg burn $"
              ++ Fmt.money (fnum_of_cell avg_burn) ++ "/month)" in
  (text,
   {| kind := Line; xs := map (fun r => mo_month (fst r)) monthly;
      ys := map (fun r => Num (snd r)) monthly;
      title := "Cash Burn Trend - " ++ entity_;
      ylabel := "USD" |}).

(** [monthly.sort_values("month").tail(3)]. *)
Definition last3_of (monthly : list (MonthlyRow * Q))
    : list (MonthlyRow * Q) :=
  tail 3 (sort_values (fun r => Some (mo_month (fst r))) monthly).

Definition get_cash_runway (cash : list CashRecord)
    (actuals : list FinancialRecord) (fx : list FxRate) (entity_ : string)
    : result (string * chart) :=
  let df_usd := convert_to_usd actuals fx in
  let df_usd := filter (of_entity entity_) df_usd in
  let df_usd := with_is_opex df_usd in
  monthly <- monthly_totals df_usd ;;
  let monthly := with_net_burn monthly in
  let last3 := last3_of monthly in
  let avg_burn := mean (map snd last3) in
  let latest_cash := latest_cash_of cash entity_ in
  let runway_months := runway_of latest_cash avg_burn in
  Ok (cash_runway_answer entity_ runway_months latest_cash avg_burn monthly).

(** ** Query orchestrator ([agent.py], [run_agent]) *)

(** The keys of [INTENT_FUNCTION_MAP]; the function under each key is the
    one the branch of that intent calls. *)
Definition INTENT_FUNCTION_MAP_keys : list string :=
  [ "revenue_vs_budget"; "gross_margin_trend"; "opex_breakdown";
    "ebitda_trend"; "ebitda_vs_budget"; "cash_runway" ].

Definition with_chart (r : result (string * chart))
    : result (string * option chart) :=
  x <- r ;; Ok (fst x, Some (snd x)).

(** [cash] is [None] when the caller passes no cash table. *)
Definition run_agent (question : string)
    (actuals budget : list FinancialRecord) (fx : list FxRate)
    (cash : option (list CashRecord)) (default_entity : string)
    : result (string * option chart) :=
  let intent := classify_intent question in
  if String.eqb intent "unknown" then
    Ok ("Sorry, I could not understand the question.", None)
  else if negb (existsb (String.eqb intent) INTENT_FUNCTION_MAP_keys) then
    Raise (KeyError intent)
  else
    let month_ := extract_month question in
    if String.eqb intent "revenue_vs_budget" then
      match month_ with
      | None =>
          Ok ("Please specify the month (e.g., June 2024) for Revenue vs Budget.",
              None)
      | Some m =>
          with_chart (get_revenue_vs_budget m default_entity actuals budget fx)
      end
    else if String.eqb intent "gross_margin_trend" then
      with_chart (get_gross_margin_trend1 actuals fx default_entity)
    else if String.eqb intent "opex_breakdown" then
      match month_ with
      | None =>
          Ok ("Please specify the month (e.g., June 2024) for Opex breakdown.",
              None)
      | Some m =>
          with_chart (get_opex_breakdown1 m default_entity actuals fx)
      end
    else if String.eqb intent "ebitda_trend" then
      with_chart (get_ebitda_trend actuals fx default_entity)
    else if String.eqb intent "ebitda_vs_budget" then
      match month_ with
      | None =>
          Ok ("Please specify the month (e.g., June 2024) for EBITDA vs Budget.",
              None)
      | Some m =>
          with_chart (get_ebitda_vs_budget m default_entity actuals budget fx)
      end
    else if String.eqb intent "cash_runway" then
      match cash with
      | None => Ok ("Cash data not provided.", None)
      | Some cash_ =>
          with_chart (get_cash_runway cash_ actuals fx default_entity)
      end
    else
      Ok ("Intent not implemented.", None).

(** ** The tables as objects

    The functions above compute on values.  Here the same functions are
    written on a store of frame objects, one statement of the source per
    step: a pandas call that returns a frame allocates a new object, and
    an assignment [frame[col] = ...] updates the object in place.  Series
    and scalars are values. *)

Module Obj.

(** The frames of the source, by their columns: the actuals and budget
    tables; the rate table; the cash table; a merge result; a merge
    result with [amount_usd]; the same with [is_opex]; a pivot table with
    the columns assigned to it; [monthly] before and after its [NetBurn]
    column. *)
Inductive frame : Type :=
| Records (rows : list FinancialRecord)
| Rates (rows : list FxRate)
| CashTable (rows : list CashRecord)
| Merged (rows : list MergedRecord)
| Normalized (rows : list NormalizedRecord)
| Flagged (rows : list (NormalizedRecord * bool))
| PivotFrame (p : Pivot) (assigned : list (string * list fnum))
| Monthly (rows : list MonthlyRow)
| MonthlyBurn (rows : list (MonthlyRow * Q)).

Definition loc : Type := nat.

Definition store : Type := list frame.

(** A computation on the store; the store survives a raise. *)
Definition M (A : Type) : Type := store -> result A * store.

Definition ret {A : Type} (a : A) : M A := fun h => (Ok a, h).

Definition raise {A : Type} (e : exn) : M A := fun h => (Raise e, h).

Definition mbind {A B : Type} (m : M A) (k : A -> M B) : M B :=
  fun h =>
    match m h with
    | (Ok a, h') => k a h'
    | (Raise e, h') => (Raise e, h')
    end.

Notation "x <~ m ;; k" := (mbind m (fun x => k))
  (at level 61, m at next level, right associativity).

Definition lift {A : Type} (r : result A) : M A := fun h => (r, h).

(** A new object, after all the others. *)
Definition alloc (f : frame) : M loc :=
  fun h => (Ok (length h), (h ++ [f])%list).

(** The object a reference points to.  A reference always points to an
    object; the other case only makes the function total. *)
Definition read (l : loc) : M frame :=
  fun h =>
    match nth_error h l with
    | Some f => (Ok f, h)
    | None => (Raise (ValueError "no such object"), h)
    end.

Fixpoint replace (l : loc) (f : frame) (h : store) {struct h} : store :=
  match h, l with
  | [], _ => []
  | _ :: h', O => f :: h'
  | g :: h', S l' => g :: replace l' f h'
  end.

(** In-place update of the object at [l]. *)
Definition update (l : loc) (upd : frame -> result frame) : M unit :=
  fun h =>
    match nth_error h l with
    | Some f =>
        match upd f with
        | Ok f' => (Ok tt, replace l f' h)
        | Raise e => (Raise e, h)
        end
    | None => (Raise (ValueError "no such object"), h)
    end.

(** Reading a frame at the columns a statement names; a frame without
    them is a [KeyError]. *)
Definition read_records (l : loc) : M (list FinancialRecord) :=
  f <~ read l ;;
  match f with
  | Records rows => ret rows
  | _ => raise (KeyError "amount")
  end.

Definition read_rates (l : loc) : M (list FxRate) :=
  f <~ read l ;;
  match f with
  | Rates rows => ret rows
  | _ => raise (KeyError "rate_to_usd")
  end.

Definition read_cash (l : loc) : M (list CashRecord) :=
  f <~ read l ;;
  match f with
  | CashTable rows => ret rows
  | _ => raise (KeyError "cash_usd")
  end.

Definition read_merged (l : loc) : M (list MergedRecord) :=
  f <~ read l ;;
  match f with
  | Merged rows => ret rows
  | _ => raise (KeyError "rate_to_usd")
  end.

Definition read_normalized (l : loc) : M (list NormalizedRecord) :=
  f <~ read l ;;
  match f with
  | Normalized rows => ret rows
  | _ => raise (KeyError "amount_usd")
  end.

Definition read_flagged (l : loc) : M (list (NormalizedRecord * bool)) :=
  f <~ read l ;;
  match f with
  | Flagged rows => ret rows
  | _ => raise (KeyError "is_opex")
  end.

Definition read_pivot (l : loc) : M Pivot :=
  f <~ read l ;;
  match f with
  | PivotFrame p _ => ret p
  | _ => raise (KeyError "month")
  end.

Definition read_monthly (l : loc) : M (list MonthlyRow) :=
  f <~ read l ;;
  match f with
  | Monthly rows => ret rows
  | _ => raise (KeyError "COGS")
  end.

(** [pivot[name]] for a column assigned before. *)
Definition read_assigned (l : loc) (name : string) : M (list fnum) :=
  f <~ read l ;;
  match f with
  | PivotFrame _ assigned =>
      match find (fun c => String.eqb (fst c) name) assigned with
      | Some c => ret (snd c)
      | None => raise (KeyError name)
      end
  | _ => raise (KeyError name)
  end.

Definition read_monthly_burn (l : loc) : M (list (MonthlyRow * Q)) :=
  f <~ read l ;;
  match f with
  | MonthlyBurn rows => ret rows
  | _ => raise (KeyError "NetBurn")
  end.

(** [frame[name] = col] on a pivot frame. *)
Definition assign (l : loc) (name : string) (col : list fnum) : M unit :=
  update l (fun f =>
    match f with
    | PivotFrame p assigned => Ok (PivotFrame p ((name, col) :: assigned))
    | _ => Raise (TypeError "not a pivot frame")
    end).

Definition convert_to_usd (df fx : loc) : M loc :=
  d <~ read_records df ;;
  clean_df <~ alloc (Records (dropna_records d)) ;;
  f <~ read_rates fx ;;
  clean_fx <~ alloc (Rates (dropna_fx f)) ;;
  f <~ read_rates clean_fx ;;
  clean_fx <~ alloc (Rates (drop_duplicates f)) ;;
  d <~ read_records clean_df ;;
  f <~ read_rates clean_fx ;;
  merged <~ alloc (Merged (merge_left d f)) ;;
  m <~ read_merged merged ;;
  merged <~ alloc (Merged (dropna_rate m)) ;;
  _ <~ update merged (fun fr =>
         match fr with
         | Merged rows => Ok (Normalized (with_amount_usd rows))
         | _ => Raise (KeyError "amount")
         end) ;;
  ret merged.

Definition get_revenue_vs_budget (month_ entity_ : string)
    (actuals budget fx : loc) : M (string * chart) :=
  actuals_usd <~ convert_to_usd actuals fx ;;
  budget_usd <~ convert_to_usd budget fx ;;
  a <~ read_normalized actuals_usd ;;
  sel <~ alloc (Normalized (revenue_rows month_ entity_ a)) ;;
  rows <~ read_normalized sel ;;
  let actual_rev := sum_usd rows in
  b <~ read_normalized budget_usd ;;
  sel <~ alloc (Normalized (revenue_rows month_ entity_ b)) ;;
  rows <~ read_normalized sel ;;
  let budget_rev := sum_usd rows in
  ret (revenue_vs_budget_answer month_ entity_ actual_rev budget_rev).

(** [df_usd.pivot_table(...).reset_index()] for the frame at [df_usd]. *)
Definition pivot_reset (df_usd : loc) : M loc :=
  d <~ read_normalized df_usd ;;
  pivot <~ alloc (PivotFrame (pivot_table d) []) ;;
  p <~ read_pivot pivot ;;
  p <~ lift (reset_index p) ;;
  alloc (PivotFrame p []).

Definition get_gross_margin_trend1 (actuals fx : loc) (entity_ : string)
    : M (string * chart) :=
  df_usd <~ convert_to_usd actuals fx ;;
  d <~ read_normalized df_usd ;;
  df_usd <~ alloc (Normalized (filter (of_entity entity_) d)) ;;
  pivot <~ pivot_reset df_usd ;;
  p <~ read_pivot pivot ;;
  revenue <~ lift (getitem p "Revenue") ;;
  cogs <~ lift (getitem p "COGS") ;;
  _ <~ assign pivot "GrossMarginPct" (gross_margin_column revenue cogs) ;;
  p <~ read_pivot pivot ;;
  pct <~ read_assigned pivot "GrossMarginPct" ;;
  ret (gross_margin_answer entity_ (pv_month p) pct).

Definition get_opex_breakdown1 (month_ entity_ : string)
    (actuals fx : loc) : M (string * chart) :=
  df_usd <~ convert_to_usd actuals fx ;;
  d <~ read_normalized df_usd ;;
  opex_df <~ alloc (Normalized (opex_rows month_ entity_ d)) ;;
  o <~ read_normalized opex_df ;;
  let opex_summary := sum_by_category o in
  ret (opex_breakdown_answer month_ entity_ opex_summary).

Definition get_ebitda_trend (actuals fx : loc) (entity_ : string)
    : M (string * chart) :=
  df_usd <~ convert_to_usd actuals fx ;;
  d <~ read_normalized df_usd ;;
  df_usd <~ alloc (Normalized (filter (of_entity entity_) d)) ;;
  pivot <~ pivot_reset df_usd ;;
  p <~ read_pivot pivot ;;
  _ <~ assign pivot "OpexTotal" (opex_total_column p) ;;
  p <~ read_pivot pivot ;;
  revenue <~ lift (getitem p "Revenue") ;;
  cogs <~ lift (getitem p "COGS") ;;
  opex_total <~ read_assigned pivot "OpexTotal" ;;
  _ <~ assign pivot "EBITDA" (ebitda_column revenue cogs opex_total) ;;
  p <~ read_pivot pivot ;;
  ebitda <~ read_assigned pivot "EBITDA" ;;
  ret (ebitda_trend_answer entity_ (pv_month p) ebitda).

(** [df[mask]["amount_usd"].sum()]: the selection is a frame of its own. *)
Definition sum_where (df : loc) (mask : NormalizedRecord -> bool) : M Q :=
  d <~ read_normalized df ;;
  sel <~ alloc (Normalized (filter mask d)) ;;
  rows <~ read_normalized sel ;;
  ret (sum_usd rows).

Definition compute_ebitda (df : loc) : M Q :=
  revenue <~ sum_where df (is_category "Revenue") ;;
  cogs <~ sum_where df (is_category "COGS") ;;
  opex <~ sum_where df is_opex ;;
  ret (revenue - cogs - opex)%Q.

Definition get_ebitda_vs_budget (month_ entity_ : string)
    (actuals budget fx : loc) : M (string * chart) :=
  actuals_usd <~ convert_to_usd actuals fx ;;
  budget_usd <~ convert_to_usd budget fx ;;
  d <~ read_normalized actuals_usd ;;
  a <~ alloc (Normalized (slice_rows month_ entity_ d)) ;;
  d <~ read_normalized budget_usd ;;
  b <~ alloc (Normalized (slice_rows month_ entity_ d)) ;;
  actual_ebitda <~ compute_ebitda a ;;
  budget_ebitda <~ compute_ebitda b ;;
  ret (ebitda_vs_budget_answer month_ entity_ actual_ebitda budget_ebitda).

(** The block of [get_cash_runway] that picks the latest cash balance. *)
Definition latest_cash_of (cash : loc) (entity_ : string) : M (option Q) :=
  c <~ read_cash cash ;;
  dropped <~ alloc (CashTable (dropna_cash c)) ;;
  c <~ read_cash dropped ;;
  cash_clean <~ alloc (CashTable c) ;;
  c <~ read_cash cash_clean ;;
  sel <~ alloc (CashTable (cash_of_entity entity_ c)) ;;
  c <~ read_cash sel ;;
  entity_cash <~ alloc (CashTable (sort_values cash_month c)) ;;
  ec <~ read_cash entity_cash ;;
  match iloc_last ec with
  | Some r => ret (cash_usd r)
  | None =>
      c <~ read_cash cash_clean ;;
      overall_latest <~ alloc (CashTable (sort_values cash_month c)) ;;
      ol <~ read_cash overall_latest ;;
      match iloc_last ol with
      | None => ret (Some 0%Q)
      | Some r => ret (cash_usd r)
      end
  end.

Definition get_cash_runway (cash actuals fx : loc) (entity_ : string)
    : M (string * chart) :=
  df_usd <~ convert_to_usd actuals fx ;;
  d <~ read_normalized df_usd ;;
  df_usd <~ alloc (Normalized (filter (of_entity entity_) d)) ;;
  _ <~ update df_usd (fun fr =>
         match fr with
         | Normalized rows => Ok (Flagged (with_is_opex rows))
         | _ => Raise (KeyError "account_category")
         end) ;;
  g <~ read_flagged df_usd ;;
  rows <~ lift (monthly_totals g) ;;
  monthly <~ alloc (Monthly rows) ;;
  _ <~ update monthly (fun fr =>
         match fr with
         | Monthly rows => Ok (MonthlyBurn (with_net_burn rows))
         | _ => Raise (KeyError "COGS")
         end) ;;
  m <~ read_monthly_burn monthly ;;
  sorted <~ alloc (MonthlyBurn
                     (sort_values (fun r => Some (mo_month (fst r))) m)) ;;
  m <~ read_monthly_burn sorted ;;
  last3 <~ alloc (MonthlyBurn (tail 3 m)) ;;
  m <~ read_monthly_burn last3 ;;
  let avg_burn := mean (map snd m) in
  latest_cash <~ latest_cash_of cash entity_ ;;
  let runway_months := runway_of latest_cash avg_burn in
  m <~ read_monthly_burn monthly ;;
  ret (cash_runway_answer entity_ runway_months latest_cash avg_burn m).

Definition with_chart (m : M (string * chart)) : M (string * option chart) :=
  x <~ m ;; ret (fst x, Some (snd x)).

(** [run_agent] on references to the caller's tables. *)
Definition run_agent (question : string) (actuals budget fx : loc)
    (cash : option loc) (default_entity : string)
    : M (string * option chart) :=
  let intent := classify_intent question in
  if String.eqb intent "unknown" then
    ret ("Sorry, I could not understand the question.", None)
  else if negb (existsb (String.eqb intent) INTENT_FUNCTION_MAP_keys) then
    raise (KeyError intent)
  else
    let month_ := extract_month question in
    if String.eqb intent "revenue_vs_budget" then
      match month_ with
      | None =>
          ret ("Please specify the month (e.g., June 2024) for Revenue vs Budget.",
               None)
      | Some m =>
          with_chart (get_revenue_vs_budget m default_entity actuals budget fx)
      end
    else if String.eqb intent "gross_margin_trend" then
      with_chart (get_gross_margin_trend1 actuals fx default_entity)
    else if String.eqb intent "opex_breakdown" then
      match month_ with
      | None =>
          ret ("Please specify the month (e.g., June 2024) for Opex breakdown.",
               None)
      | Some m =>
          with_chart (get_opex_breakdown1 m default_entity actuals fx)
      end
    else if String.eqb intent "ebitda_trend" then
      with_chart (get_ebitda_trend actuals fx default_entity)
    else if String.eqb intent "ebitda_vs_budget" then
      match month_ with
      | None =>
          ret ("Please specify the month (e.g., June 2024) for EBITDA vs Budget.",
               None)
      | Some m =>
          with_chart (get_ebitda_vs_budget m default_entity actuals budget fx)
      end
    else if String.eqb intent "cash_runway" then
      match cash with
      | None => ret ("Cash data not provided.", None)
      | Some cash_ =>
          with_chart (get_cash_runway cash_ actuals fx default_entity)
      end
    else
      ret ("Intent not implemented.", None).

(** The store a caller holds: its four tables, and nothing else. *)
Definition caller_store (actuals budget : list FinancialRecord)
    (fx : list FxRate) (cash : list CashRecord) : store :=
  [ Records actuals; Records budget; Rates fx; CashTable cash ].

End Obj.

(** ** Cash runway in the words of the design *)

(** Net burn of month [m]: COGS plus Opex minus Revenue, each the sum of
    [amount_usd] over the rows of the month. *)
Definition burn_of (df : list NormalizedRecord) (m : string) : Q :=
  let g := filter (in_month m) df in
  (sum_usd (filter (is_category "COGS") g) + sum_usd (filter is_opex g)
   - sum_usd (filter (is_category "Revenue") g))%Q.

(** [r] is a latest record of [rows]: none of them has a later month. *)
Definition is_latest (rows : list CashRecord) (r : CashRecord) : Prop :=
  In r rows /\ forall r', In r' rows -> not_after cash_month r' r.

(** The latest cash balance: of the entity when it has a complete cash
    record, else of any entity, else zero. *)
Definition latest_cash_spec (cash : list CashRecord) (entity_ : string)
    (c : Q) : Prop :=
  let complete := dropna_cash cash in
  let own := cash_of_entity entity_ complete in
  (exists r, is_latest own r /\ cash_usd r = Some c)
  \/ (own = [] /\ exists r, is_latest complete r /\ cash_usd r = Some c)
  \/ (complete = [] /\ c = 0%Q).

(** ** Tables of the end-to-end scenario *)

Definition june_actuals : list FinancialRecord :=
  [ {| month := Some "2024-06"; entity := "ParentCo";
       account_category := "Revenue"; amount := Some 1000%Q;
       currency := Some "EUR" |} ].

Definition june_budget : list FinancialRecord :=
  [ {| month := Some "2024-06"; entity := "ParentCo";
       account_category := "Revenue"; amount := Some 900%Q;
       currency := Some "USD" |} ].

Definition june_fx : list FxRate :=
  [ {| fx_month := Some "2024-06"; fx_currency := Some "EUR";
       rate_to_usd := Some 1.1%Q |};
    {| fx_month := Some "2024-06"; fx_currency := Some "USD";
       rate_to_usd := Some 1%Q |} ].

(** An actuals table whose only row is a COGS row, one whose only row
    is a Revenue row, and a cash table. *)
Definition cogs_only : list FinancialRecord :=
  [ {| month := Some "2024-06"; entity := "ParentCo";
       account_category := "COGS"; amount := Some 400%Q;
       currency := Some "USD" |} ].

Definition revenue_only : list FinancialRecord :=
  [ {| month := Some "2024-06"; entity := "ParentCo";
       account_category := "Revenue"; amount := Some 1000%Q;
       currency := Some "USD" |} ].

Definition june_cash : list CashRecord :=
  [ {| cash_month := Some "2024-06"; cash_entity := Some "ParentCo";
       cash_usd := Some 5000%Q |} ].

(** No month name starts another, in any letter case. *)
Definition names_apart : bool :=
  forallb (fun a => forallb (fun b =>
    String.eqb a b
    || match Month.strip_prefix_ci a b with Some _ => false | None => true end)
    Month.names) Month.names.

(** A list of strings in strictly increasing order. *)
Definition increasing (l : list string) : Prop :=
  StronglySorted (fun a b => String.ltb a b = true) l.

(** The cash argument of [run_agent] on both sides: no table, or a
    reference to the table. *)
Definition cash_at (h : Obj.store) (lc : option Obj.loc)
    (cash : option (list CashRecord)) : Prop :=
  match lc, cash with
  | None, None => True
  | Some l, Some c => nth_error h l = Some (Obj.CashTable c)
  | _, _ => False
  end.

(** ** The frame condition on stores

    [keeps n m post]: run on a store of at least [n] objects, [m] leaves
    the first [n] objects as they are, and a result of [m] satisfies
    [post]. *)
Definition keeps {A : Type} (n : nat) (m : Obj.M A) (post : A -> Prop)
    : Prop :=
  forall h : Obj.store,
    n <= length h ->
    n <= length (snd (m h))
    /\ firstn n (snd (m h)) = firstn n h
    /\ match fst (m h) with
       | Ok a => post a
       | Raise _ => True
       end.

(** [h'] is [h] with new objects after it: every object of [h] is in
    [h'], at its place and with its content. *)
Definition extends (h h' : Obj.store) : Prop :=
  exists fresh, h' = (h ++ fresh)%list.

(** ** Words for the further facts *)

(** The texts [run_agent] returns without a chart. *)
Definition guidance_texts : list string :=
  [ "Sorry, I could not understand the question.";
    "Please specify the month (e.g., June 2024) for Revenue vs Budget.";
    "Please specify the month (e.g., June 2024) for Opex breakdown.";
    "Please specify the month (e.g., June 2024) for EBITDA vs Budget.";
    "Cash data not provided." ].

(** The intents whose metric function can raise. *)
Definition raising_intents : list string :=
  [ "gross_margin_trend"; "ebitda_trend"; "cash_runway" ].

(** The errors a metric function can raise. *)
Definition trend_error (e : exn) : Prop :=
  e = KeyError "Revenue" \/ e = KeyError "COGS"
  \/ e = ValueError "cannot insert month, already exists".

(** White space only, and at least one character of it. *)
Fixpoint is_blank (ws : string) : bool :=
  match ws with
  | EmptyString => false
  | String c EmptyString => Month.is_space c
  | String c ws' => Month.is_space c && is_blank ws'
  end.

(** The number four digits write. *)
Definition year_value (year : string) : nat :=
  match year with
  | String d1 (String d2 (String d3 (String d4 _))) =>
      Month.digit_val d1 * 1000 + Month.digit_val d2 * 100
      + Month.digit_val d3 * 10 + Month.digit_val d4
  | _ => 0
  end.

(** A month text: four digits, a dash, and two digits that write a
    number from 1 to 12. *)
Definition month_text (s : string) : Prop :=
  exists year m,
    s = year ++ "-" ++ Month.pad2 m
    /\ four_digits year /\ year <> "0000" /\ 1 <= m <= 12.

(** The rows of a table that a question about a month and an entity
    is about. *)
Definition rows_of_entity (e : string) (df : list FinancialRecord)
    : list FinancialRecord :=
  filter (fun r => String.eqb (entity r) e) df.

Definition rows_of_slice (m e : string) (df : list FinancialRecord)
    : list FinancialRecord :=
  filter (fun r => cell_is (month r) m && String.eqb (entity r) e) df.

Definition rows_of_revenue (m e : string) (df : list FinancialRecord)
    : list FinancialRecord :=
  filter (fun r => cell_is (month r) m && String.eqb (entity r) e
                   && String.eqb (account_category r) "Revenue") df.

Definition rows_of_opex (m e : string) (df : list FinancialRecord)
    : list FinancialRecord :=
  filter (fun r => cell_is (month r) m && String.eqb (entity r) e
                   && Str.startswith (account_category r) "Opex") df.

(** The USD amount of a row, zero when it is null. *)
Definition usd (r : NormalizedRecord) : Q :=
  match amount_usd r with
  | Some x => x
  | None => 0%Q
  end.

(** How a row counts in EBITDA: Revenue adds, COGS and every category
    that starts with Opex subtract, any other category is left out. *)
Definition ebitda_sign (r : NormalizedRecord) : Q :=
  if is_category "Revenue" r then 1%Q
  else if is_category "COGS" r || is_opex r then (-1)%Q
  else 0%Q.

(** The sum of a list of amounts. *)
Definition total (xs : list Q) : Q := fold_right Qplus 0%Q xs.

(** Equality of chart values up to the representation of a rational. *)
Definition fnum_eq (a b : fnum) : Prop :=
  match a, b with
  | Num x, Num y => (x == y)%Q
  | PosInf, PosInf => True
  | NegInf, NegInf => True
  | NaN, NaN => True
  | _, _ => False
  end.

(** Two months of actuals: May holds a Revenue row alone, June Revenue,
    COGS and two Opex categories. *)
Definition trend_fx : list FxRate :=
  [ {| fx_month := Some "2024-05"; fx_currency := Some "USD";
       rate_to_usd := Some 1%Q |};
    {| fx_month := Some "2024-06"; fx_currency := Some "USD";
       rate_to_usd := Some 1%Q |};
    {| fx_month := Some "2024-06"; fx_currency := Some "EUR";
       rate_to_usd := Some 1.1%Q |} ].

Definition trend_actuals : list FinancialRecord :=
  [ {| month := Some "2024-06"; entity := "ParentCo";
       account_category := "Revenue"; amount := Some 1000%Q;
       currency := Some "EUR" |};
    {| month := Some "2024-05"; entity := "ParentCo";
       account_category := "Revenue"; amount := Some 800%Q;
       currency := Some "USD" |};
    {| month := Some "2024-06"; entity := "ParentCo";
       account_category := "COGS"; amount := Some 400%Q;
       currency := Some "USD" |};
    {| month := Some "2024-06"; entity := "ParentCo";
       account_category := "Opex:Sales"; amount := Some 100%Q;
       currency := Some "USD" |};
    {| month := Some "2024-06"; entity := "ParentCo";
       account_category := "Opex:Admin"; amount := Some 50%Q;
       currency := Some "USD" |} ].

(** ** The page ([app.py]) *)

(** One run of the script under [if question:].  The calls into
    Streamlit, [tempfile] and FPDF are recorded in order, not
    interpreted; the tables are those [load_data] returns, the
    entity is the default of [run_agent], [export_clicked] is what
    [st.button] returns in this run and [stamp] what
    [pd.Timestamp.now().strftime] returns.  An exception of [run_agent]
    is not caught; [fig.savefig] on [None] raises [AttributeError]. *)
Module App.

Inductive call : Type :=
  | markdown (body : string)
  | pyplot (fig : chart)
  | button (label : string)
  | named_temporary_file (suffix : string)
  | savefig (fig : chart) (format : string)
  | pdf_add_page
  | pdf_set_font (family style : string) (size : Z)
  | pdf_multi_cell (w h : Z) (txt align : string)
  | pdf_image (x y w : Z)
  | pdf_output (name : string)
  | success (body : string)
  | download_button (label file_name : string).

Inductive error : Type :=
  | Uncaught (e : exn)
  | AttributeError (msg : string).

Definition newline : string := String "010"%char "".

Definition export_pdf (question stamp : string) (fig : option chart)
    : list call * option error :=
  match fig with
  | None =>
      ([named_temporary_file ".png"],
       Some (AttributeError "'NoneType' object has no attribute 'savefig'"))
  | Some f =>
      let pdf_output_ := ("CFO_Report_" ++ stamp ++ ".pdf")%string in
      ([named_temporary_file ".png";
        savefig f "png";
        pdf_add_page;
        pdf_set_font "Arial" "B" 16;
        pdf_multi_cell 0 10
          ("CFO Copilot Report" ++ newline ++ "Question: " ++ question
           ++ newline ++ newline)%string "C";
        pdf_image 15 40 180;
        pdf_output pdf_output_;
        success ("PDF exported as " ++ pdf_output_)%string;
        download_button "Download PDF" pdf_output_],
       None)
  end.

Definition script (question : string) (export_clicked : bool)
    (stamp : string) (actuals budget : list FinancialRecord)
    (fx : list FxRate) (cash : list CashRecord)
    : list call * option error :=
  match question with
  | EmptyString => ([], None)
  | _ =>
      match run_agent question actuals budget fx (Some cash) "ParentCo" with
      | Raise e => ([], Some (Uncaught e))
      | Ok (response_text, fig) =>
          let shown :=
            (markdown ("**Answer:** " ++ response_text)%string
             :: match fig with
                | Some f => [pyplot f]
                | None => []
                end
             ++ [button "Export PDF"])%list in
          if export_clicked then
            let exported := export_pdf question stamp fig in
            ((shown ++ fst exported)%list, snd exported)
          else (shown, None)
      end
  end.

End App.

(** The intents whose branch of [run_agent] asks for a month. *)
Definition month_intents : list string :=
  [ "revenue_vs_budget"; "opex_breakdown"; "ebitda_vs_budget" ].

(** The questions [run_agent] answers without a chart when it is given
    a cash table: no intent, or an intent that needs a month and no
    month in the question. *)
Definition chartless (question : string) : bool :=
  String.eqb (classify_intent question) "unknown"
  || (existsb (String.eqb (classify_intent question)) month_intents
      && match extract_month question with
         | None => true
         | Some _ => false
         end).

(** Four months of actuals with a COGS row each, out of order. *)
Definition burn_fx : list FxRate :=
  map (fun m => {| fx_month := Some m; fx_currency := Some "USD";
                   rate_to_usd := Some 1%Q |})
      [ "2024-03"; "2024-04"; "2024-05"; "2024-06" ].

Definition burn_actuals : list FinancialRecord :=
  map (fun ma => {| month := Some (fst ma); entity := "ParentCo";
                    account_category := "COGS"; amount := Some (snd ma);
                    currency := Some "USD" |})
      [ ("2024-06", 300%Q); ("2024-03", 900%Q); ("2024-05", 200%Q);
        ("2024-04", 100%Q) ].

(** * Facts *)

(** ** Strings *)

Lemma prefix_app (p s : string) :
  prefix p s = true <-> exists rest, s = p ++ rest.
Proof.
  revert s; induction p as [|c p IH]; intros s; simpl.
  - destruct s; simpl; split; eauto.
  - destruct s as [|d s]; simpl.
    + split; [discriminate | intros [r H]; discriminate].
    + destruct (ascii_dec c d) as [->|Hne].
      * rewrite IH. split; intros [r H]; exists r; congruence.
      * split; [discriminate | intros [r H]; congruence].
Qed.

(** Containment is exactly "some split of [s] has [sub] in the middle". *)
Lemma contains_spec (sub s : string) :
  Str.contains sub s = true <-> exists a b, s = a ++ sub ++ b.
Proof.
  induction s as [|c s IH].
  - unfold Str.contains. rewrite prefix_app. split.
    + intros [r H]. exists EmptyString, r. exact H.
    + intros [a [b H]]. destruct a; simpl in H; [eauto | discriminate].
  - change (Str.contains sub (String c s))
      with (prefix sub (String c s) || Str.contains sub s).
    rewrite orb_true_iff, IH, prefix_app. split.
    + intros [[r H] | [a [b H]]].
      * exists EmptyString, r. exact H.
      * exists (String c a), b. simpl. now rewrite H.
    + intros [a [b H]]. destruct a as [|d a]; simpl in H.
      * left. eauto.
      * right. exists a, b. congruence.
Qed.


Example extract_month_june :
  extract_month "Revenue vs Budget for June 2024" = Some "2024-06".
Proof. reflexivity. Qed.

Example extract_month_ci :
  extract_month "opex in deCEMBER 1999 and May 2020" = Some "1999-12".
Proof. reflexivity. Qed.

Example extract_month_year0 : extract_month "opex June 0000" = None.
Proof. reflexivity. Qed.

Example extract_month_short : extract_month "opex Jun 2024" = None.
Proof. reflexivity. Qed.

(** ** Currency normalizer *)

Lemma opt_eqb_eq (a b : option string) : opt_eqb a b = true <-> a = b.
Proof.
  destruct a as [x|], b as [y|]; simpl; try (split; congruence).
  rewrite String.eqb_eq. split; congruence.
Qed.

Lemma same_key_eq (m c : option string) (f : FxRate) :
  same_key m c f = true <-> fx_month f = m /\ fx_currency f = c.
Proof.
  unfold same_key. now rewrite andb_true_iff, !opt_eqb_eq.
Qed.

Lemma same_key_row (m c : option string) (f : FxRate) (l : list FxRate) :
  same_key m c f = true ->
  existsb (same_key (fx_month f) (fx_currency f)) l
  = existsb (same_key m c) l.
Proof.
  intros H. apply same_key_eq in H. destruct H as [-> ->]. reflexivity.
Qed.

(** After [drop_duplicates] a key selects its first row and nothing else. *)
Lemma filter_drop_duplicates_from (m c : option string) (fx kept : list FxRate) :
  filter (same_key m c) (drop_duplicates_from kept fx)
  = if existsb (same_key m c) kept then []
    else match find (same_key m c) fx with
         | Some f => [f]
         | None => []
         end.
Proof.
  revert kept. induction fx as [|f fx IH]; intros kept; simpl.
  - now destruct (existsb _ kept).
  - destruct (existsb (same_key (fx_month f) (fx_currency f)) kept) eqn:Hk.
    + rewrite IH. destruct (existsb (same_key m c) kept) eqn:Hm; auto.
      destruct (same_key m c f) eqn:Hf; auto.
      rewrite (same_key_row _ _ _ _ Hf) in Hk. congruence.
    + simpl. rewrite IH. simpl.
      destruct (same_key m c f) eqn:Hf; simpl.
      * rewrite (same_key_row _ _ _ _ Hf) in Hk. now rewrite Hk.
      * reflexivity.
Qed.

Lemma find_filter {A : Type} (p q : A -> bool) (l : list A) :
  find p (filter q l) = find (fun x => q x && p x) l.
Proof.
  induction l as [|x l IH]; simpl; auto.
  destruct (q x); simpl; auto. now destruct (p x).
Qed.

Lemma filter_clean_fx (fx : list FxRate) (m c : option string) :
  filter (same_key m c) (drop_duplicates (dropna_fx fx))
  = match first_rate fx m c with
    | Some f => [f]
    | None => []
    end.
Proof.
  unfold drop_duplicates. rewrite filter_drop_duplicates_from. simpl.
  unfold dropna_fx. now rewrite find_filter.
Qed.

Lemma first_rate_complete (fx : list FxRate) (m c : option string) (f : FxRate) :
  first_rate fx m c = Some f ->
  notna (rate_to_usd f) = true /\ fx_month f = m /\ fx_currency f = c
  /\ In f fx.
Proof.
  intros H. apply find_some in H. destruct H as [Hin H].
  rewrite !andb_true_iff, same_key_eq in H. tauto.
Qed.

Lemma convert_to_usd_refines (df : list FinancialRecord) (fx : list FxRate) :
  convert_to_usd df fx = convert_to_usd_spec df fx.
Proof.
  unfold convert_to_usd, convert_to_usd_spec.
  induction df as [|r df IH]; simpl; auto.
  unfold convertible at 1.
  destruct (notna (month r) && notna (currency r) && notna (amount r))
    eqn:Hr; simpl; auto.
  rewrite filter_clean_fx.
  unfold dropna_rate, with_amount_usd in *.
  destruct (first_rate fx (month r) (currency r)) as [f|] eqn:Hf; simpl.
  - destruct (first_rate_complete _ _ _ _ Hf) as [Hrate _].
    rewrite Hrate. simpl. rewrite IH. unfold normalized at 2.
    unfold rate_of. now rewrite Hf.
  - exact IH.
Qed.

Example money_1100 : Fmt.money (Num (1000 * (11 # 10))%Q) = "1,100".
Proof. reflexivity. Qed.

Example money_big : Fmt.money (Num (1234567.5)%Q) = "1,234,568".
Proof. reflexivity. Qed.

Example money_neg : Fmt.money (Num (- (12345 # 10))%Q) = "-1,234".
Proof. reflexivity. Qed.

Example money_999 : Fmt.money (Num (999 # 1)%Q) = "999".
Proof. reflexivity. Qed.

Example money_zero : Fmt.money (Num 0%Q) = "0".
Proof. reflexivity. Qed.

Example fixed1_ex : Fmt.fixed1 (Num (100 # 3)%Q) = "33.3".
Proof. reflexivity. Qed.

(** ** The end-to-end scenarios of the design, run *)

Example scenario_revenue_vs_budget :
  exists c,
    run_agent "Revenue vs Budget for June 2024" june_actuals june_budget
      june_fx None "ParentCo"
    = Ok ("Revenue in 2024-06 for ParentCo: Actual $1,100 vs Budget $900",
          Some c).
Proof. eexists. vm_compute. reflexivity. Qed.

Example scenario_no_cash :
  run_agent "What is our cash runway?" [] [] [] None "ParentCo"
  = Ok ("Cash data not provided.", None).
Proof. reflexivity. Qed.

Example scenario_unknown :
  run_agent "How are we doing?" [] [] [] None "ParentCo"
  = Ok ("Sorry, I could not understand the question.", None).
Proof. reflexivity. Qed.

(** ** Intent classifier *)

Lemma classify_intent_first_match (q : string) :
  classify_intent q = first_match intent_rules (Str.lower q).
Proof.
  unfold classify_intent, intent_rules, first_match.
  repeat match goal with
         | |- context [if ?b then _ else _] => destruct b
         end; reflexivity.
Qed.

(** A rule decides as soon as every rule above it fails. *)
Lemma first_match_skip (above below : list ((string -> bool) * string))
    (s : string) :
  (forall p tag, In (p, tag) above -> p s = false) ->
  first_match (above ++ below)%list s = first_match below s.
Proof.
  induction above as [|[p tag] above IH]; intros H; simpl; auto.
  rewrite (H p tag) by (left; reflexivity).
  apply IH. intros p' tag' Hin. apply (H p' tag'). now right.
Qed.

(** C1. For every question the classifier returns one of the seven
    intent tags, namely the tag of the first rule of the ordered table
    that matches the lowercased question by substring containment, or
    [unknown] when none does.  A question that contains "ebitda" and
    "budget" and matches none of the four rules above yields
    [ebitda_vs_budget]; a question that contains "budget" never yields
    [ebitda_trend]; equal questions yield equal intents. *)
Theorem classify_intent_ordered_rules (q : string) :
  classify_intent q = first_match intent_rules (Str.lower q)
  /\ In (classify_intent q) intent_tags
  /\ (Str.contains "ebitda" (Str.lower q) = true ->
      Str.contains "budget" (Str.lower q) = true ->
      (forall p tag, In (p, tag) (firstn 4 intent_rules) ->
                     p (Str.lower q) = false) ->
      classify_intent q = "ebitda_vs_budget")
  /\ (Str.contains "budget" (Str.lower q) = true ->
      classify_intent q <> "ebitda_trend")
  /\ (forall q', q' = q -> classify_intent q' = classify_intent q).
Proof.
  split; [apply classify_intent_first_match|].
  split.
  { unfold classify_intent, intent_tags.
    repeat match goal with
           | |- context [if ?b then _ else _] => destruct b
           end; simpl; tauto. }
  split.
  { intros He Hb Habove. rewrite classify_intent_first_match.
    change intent_rules
      with (firstn 4 intent_rules ++ skipn 4 intent_rules)%list.
    rewrite (first_match_skip _ _ _ Habove). simpl.
    now rewrite He, Hb. }
  split.
  { intros Hb. unfold classify_intent. rewrite Hb. simpl.
    rewrite !andb_false_r.
    repeat match goal with
           | |- context [if ?b then _ else _] => destruct b
           end; discriminate. }
  intros q' ->. reflexivity.
Qed.

Lemma classify_intent_ebitda_vs_budget_witness :
  classify_intent "EBITDA vs budget" = "ebitda_vs_budget"
  /\ classify_intent "EBITDA vs budget" <> "ebitda_trend".
Proof.
  pose proof (classify_intent_ordered_rules "EBITDA vs budget")
    as [_ [_ [H3 [H4 _]]]].
  split.
  - apply H3; try reflexivity.
    intros p tag Hin. simpl in Hin.
    repeat (destruct Hin as [Hin | Hin];
            [inversion Hin; subst; reflexivity|]).
    contradiction.
  - apply H4. reflexivity.
Defined.

(** ** Month extraction *)

Lemma strip_prefix_ci_split (p s tl : string) :
  Month.strip_prefix_ci p s = Some tl ->
  exists p', s = p' ++ tl /\ Str.lower p' = Str.lower p
             /\ String.length p' = String.length p.
Proof.
  revert s. induction p as [|a p IH]; intros s H; simpl in H.
  - inversion H; subst. exists "". auto.
  - destruct s as [|b s]; [discriminate|].
    destruct (Ascii.eqb _ _) eqn:E; [|discriminate].
    apply Ascii.eqb_eq in E. destruct (IH _ H) as [p' [-> [Hl Hn]]].
    exists (String b p'). simpl. now rewrite Hl, E, Hn.
Qed.

Lemma strip_prefix_ci_app (p p' tl : string) :
  Str.lower p' = Str.lower p ->
  Month.strip_prefix_ci p (p' ++ tl) = Some tl.
Proof.
  revert p'. induction p as [|a p IH]; intros p' H.
  - destruct p'; [reflexivity | discriminate].
  - destruct p' as [|b p']; [discriminate|]. simpl in *.
    inversion H as [[Hc Hr]]. rewrite Hc, Ascii.eqb_refl. now apply IH.
Qed.

(** Two patterns that both match a text: the shorter matches the longer. *)
Lemma strip_prefix_ci_both (a b s ta tb : string) :
  Month.strip_prefix_ci a s = Some ta ->
  Month.strip_prefix_ci b s = Some tb ->
  Month.strip_prefix_ci a b <> None \/ Month.strip_prefix_ci b a <> None.
Proof.
  revert b s. induction a as [|x a IH]; intros b s Ha Hb.
  - left. simpl. discriminate.
  - destruct b as [|y b]; [right; simpl; discriminate|].
    destruct s as [|c s]; [discriminate|]. simpl in *.
    destruct (Ascii.eqb (Str.lower_char x) (Str.lower_char c)) eqn:E1;
      [|discriminate].
    destruct (Ascii.eqb (Str.lower_char y) (Str.lower_char c)) eqn:E2;
      [|discriminate].
    apply Ascii.eqb_eq in E1, E2. rewrite E1, E2, !Ascii.eqb_refl.
    exact (IH _ _ Ha Hb).
Qed.

Lemma names_unique (a b s ta tb : string) :
  In a Month.names -> In b Month.names ->
  Month.strip_prefix_ci a s = Some ta ->
  Month.strip_prefix_ci b s = Some tb ->
  a = b.
Proof.
  intros Ia Ib Ha Hb.
  assert (Hap : names_apart = true) by (vm_compute; reflexivity).
  unfold names_apart in Hap. rewrite forallb_forall in Hap.
  pose proof (Hap a Ia) as Hab. rewrite forallb_forall in Hab.
  specialize (Hab b Ib).
  pose proof (Hap b Ib) as Hba. rewrite forallb_forall in Hba.
  specialize (Hba a Ia).
  apply orb_true_iff in Hab, Hba.
  destruct Hab as [E | Hab]; [now apply String.eqb_eq in E|].
  destruct Hba as [E | Hba]; [symmetry; now apply String.eqb_eq in E|].
  destruct (strip_prefix_ci_both _ _ _ _ _ Ha Hb) as [N | N].
  - destruct (Month.strip_prefix_ci a b); [discriminate | congruence].
  - destruct (Month.strip_prefix_ci b a); [discriminate | congruence].
Qed.

Lemma append_assoc (a b c : string) : (a ++ b) ++ c = a ++ (b ++ c).
Proof. induction a as [|x a IH]; simpl; congruence. Qed.

Lemma length_append (a b : string) :
  String.length (a ++ b) = String.length a + String.length b.
Proof. induction a as [|x a IH]; simpl; congruence. Qed.

Lemma length_lower (s : string) :
  String.length (Str.lower s) = String.length s.
Proof. induction s as [|c s IH]; simpl; congruence. Qed.

Lemma substring_prefix (a b : string) :
  substring 0 (String.length a) (a ++ b) = a.
Proof.
  induction a as [|x a IH]; simpl.
  - now destruct b.
  - now rewrite IH.
Qed.

Lemma year_tail_split (tl : string) :
  Month.year_tail tl = true <->
  exists d1 d2 d3 d4 rest,
    tl = String " " (String d1 (String d2 (String d3 (String d4 rest))))
    /\ Month.is_digit d1 = true /\ Month.is_digit d2 = true
    /\ Month.is_digit d3 = true /\ Month.is_digit d4 = true.
Proof.
  split.
  - destruct tl as [|sp [|d1 [|d2 [|d3 [|d4 rest]]]]]; simpl;
      try discriminate.
    rewrite !andb_true_iff, Ascii.eqb_eq. intros [[[[-> H1] H2] H3] H4].
    exists d1, d2, d3, d4, rest. auto.
  - intros (d1 & d2 & d3 & d4 & rest & -> & H1 & H2 & H3 & H4).
    simpl. now rewrite H1, H2, H3, H4.
Qed.

Lemma match_here_sound (alts : list string) (s tok : string) :
  Month.match_here alts s = Some tok ->
  exists name tl,
    In name alts /\ Month.strip_prefix_ci name s = Some tl
    /\ Month.year_tail tl = true
    /\ tok = substring 0 (String.length name + 5) s.
Proof.
  induction alts as [|name alts IH]; simpl; [discriminate|].
  destruct (Month.strip_prefix_ci name s) as [tl|] eqn:Hs.
  - destruct (Month.year_tail tl) eqn:Hy.
    + intros H. inversion H. exists name, tl. auto.
    + intros H. destruct (IH H) as (n & t & Hin & R). exists n, t. auto.
  - intros H. destruct (IH H) as (n & t & Hin & R). exists n, t. auto.
Qed.

Lemma match_here_complete (alts : list string) (s name tl : string) :
  In name alts ->
  Month.strip_prefix_ci name s = Some tl ->
  Month.year_tail tl = true ->
  (forall n t, In n alts -> Month.strip_prefix_ci n s = Some t -> n = name) ->
  Month.match_here alts s = Some (substring 0 (String.length name + 5) s).
Proof.
  intros Hin Hs Hy Huniq.
  induction alts as [|n alts IH]; [contradiction|]. simpl.
  destruct (Month.strip_prefix_ci n s) as [t|] eqn:Hn.
  - assert (n = name) by (apply (Huniq n t); [now left | exact Hn]).
    subst n. rewrite Hs in Hn. inversion Hn; subst t. now rewrite Hy.
  - destruct Hin as [-> | Hin]; [congruence|].
    apply IH; auto. intros n' t' Hin'. apply Huniq. now right.
Qed.

(** A match at the start of [s] is a token at the start of [s]. *)
Lemma match_here_token (s tok : string) :
  Month.match_here Month.names s = Some tok ->
  exists m year post, s = tok ++ post /\ is_token tok m year.
Proof.
  intros H. apply match_here_sound in H.
  destruct H as (name & tl & Hin & Hs & Hy & ->).
  apply strip_prefix_ci_split in Hs. destruct Hs as (name' & -> & Hl & Hn).
  apply year_tail_split in Hy.
  destruct Hy as (d1 & d2 & d3 & d4 & rest & -> & H1 & H2 & H3 & H4).
  apply In_nth_error in Hin. destruct Hin as [k Hk].
  set (year := String d1 (String d2 (String d3 (String d4 "")))).
  set (tok := name' ++ String " " year).
  exists (S k), year, rest.
  assert (Hsplit : name' ++ String " " (String d1 (String d2 (String d3
                     (String d4 rest)))) = tok ++ rest).
  { unfold tok. now rewrite append_assoc. }
  assert (Hlen : String.length name + 5 = String.length tok).
  { unfold tok. rewrite length_append, Hn. reflexivity. }
  rewrite Hsplit, Hlen, substring_prefix. split; [reflexivity|].
  exists name, name'. simpl. rewrite Nat.sub_0_r.
  repeat split; auto; try lia.
  exists d1, d2, d3, d4. auto.
Qed.

(** A token at the start of [s] is matched, whole. *)
Lemma token_match_here (tok post : string) (m : nat) (year : string) :
  is_token tok m year ->
  Month.match_here Month.names (tok ++ post) = Some tok.
Proof.
  intros (name & name' & Hk & Hm & Hl & -> & d1 & d2 & d3 & d4 & -> & H1
          & H2 & H3 & H4).
  set (digits := String " " (String d1 (String d2 (String d3 (String d4 ""))))).
  assert (Hin : In name Month.names) by (eapply nth_error_In; eauto).
  assert (Hs : Month.strip_prefix_ci name ((name' ++ digits) ++ post)
               = Some (digits ++ post)).
  { rewrite append_assoc. now apply strip_prefix_ci_app. }
  assert (Hlen : String.length name + 5 = String.length (name' ++ digits)).
  { rewrite length_append. unfold digits. simpl.
    f_equal. rewrite <- (length_lower name), <- Hl. apply length_lower. }
  rewrite <- (substring_prefix (name' ++ digits) post) at 2.
  rewrite <- Hlen.
  apply match_here_complete with (tl := digits ++ post); auto.
  - apply year_tail_split. exists d1, d2, d3, d4, post. auto.
  - intros n t Hn Ht. eapply names_unique; eauto.
Qed.

Lemma search_unfold (s : string) :
  Month.search s
  = match Month.match_here Month.names s with
    | Some m => Some m
    | None =>
        match s with
        | EmptyString => None
        | String _ s' => Month.search s'
        end
    end.
Proof. destruct s; reflexivity. Qed.

Lemma search_first_token (q tok : string) (m : nat) (year : string) :
  first_token q tok m year -> Month.search q = Some tok.
Proof.
  intros (pre & post & Hq & Htok & Hmin). revert q Hq Hmin.
  induction pre as [|c pre IH]; intros q Hq Hmin; rewrite search_unfold.
  - subst q. cbn [append]. now rewrite (token_match_here _ _ _ _ Htok).
  - destruct (Month.match_here Month.names q) as [tok0|] eqn:H0.
    + apply match_here_token in H0. destruct H0 as (m0 & y0 & p0 & Hq0 & Ht0).
      specialize (Hmin "" tok0 p0 m0 y0 Hq0 Ht0). simpl in Hmin. lia.
    + subst q. cbn [append]. apply IH; [reflexivity|].
      intros pre' tok' post' m' y' Hq' Ht'.
      specialize (Hmin (String c pre') tok' post' m' y').
      simpl in Hmin. rewrite Hq' in Hmin. specialize (Hmin eq_refl Ht'). lia.
Qed.

Lemma search_no_token (q : string) :
  (forall pre tok post m year,
     q = pre ++ tok ++ post -> ~ is_token tok m year) ->
  Month.search q = None.
Proof.
  induction q as [|c q IH]; intros Hno; rewrite search_unfold.
  - destruct (Month.match_here Month.names "") as [tok0|] eqn:H0;
      [|reflexivity].
    apply match_here_token in H0. destruct H0 as (m0 & y0 & p0 & Hq0 & Ht0).
    exfalso. exact (Hno "" tok0 p0 m0 y0 Hq0 Ht0).
  - destruct (Month.match_here Month.names (String c q)) as [tok0|] eqn:H0.
    + apply match_here_token in H0. destruct H0 as (m0 & y0 & p0 & Hq0 & Ht0).
      exfalso. exact (Hno "" tok0 p0 m0 y0 Hq0 Ht0).
    + apply IH. intros pre tok post m y Hq Ht.
      apply (Hno (String c pre) tok post m y); [|exact Ht].
      simpl. now rewrite Hq.
Qed.

Lemma is_digit_range (c : ascii) :
  Month.is_digit c = true <-> 48 <= nat_of_ascii c <= 57.
Proof.
  unfold Month.is_digit. cbv zeta.
  rewrite andb_true_iff, !Nat.leb_le. tauto.
Qed.

Lemma is_digit_not_space (c : ascii) :
  Month.is_digit c = true -> Month.is_space c = false.
Proof.
  rewrite is_digit_range. intros H. unfold Month.is_space. cbv zeta.
  assert (E1 : (nat_of_ascii c =? 32)%nat = false)
    by (apply Nat.eqb_neq; lia).
  assert (E2 : (nat_of_ascii c <=? 13)%nat = false)
    by (apply Nat.leb_gt; lia).
  assert (E3 : (nat_of_ascii c <=? 31)%nat = false)
    by (apply Nat.leb_gt; lia).
  now rewrite E1, E2, E3, !andb_false_r.
Qed.

Lemma digit_char_val (c : ascii) :
  Month.is_digit c = true -> Month.digit_char (Month.digit_val c) = c.
Proof.
  rewrite is_digit_range. intros H. unfold Month.digit_char, Month.digit_val.
  replace (48 + (nat_of_ascii c - 48)) with (nat_of_ascii c) by lia.
  apply ascii_nat_embedding.
Qed.

Lemma digit_val_small (c : ascii) :
  Month.is_digit c = true -> Month.digit_val c < 10.
Proof.
  rewrite is_digit_range. unfold Month.digit_val. lia.
Qed.

Lemma digit_val_zero (c : ascii) :
  Month.is_digit c = true -> Month.digit_val c = 0 -> c = "0"%char.
Proof.
  intros H H0. rewrite <- (digit_char_val c H), H0. reflexivity.
Qed.

Lemma pad2_digits (a b : nat) :
  a < 10 -> b < 10 ->
  Month.pad2 (a * 10 + b)
  = String (Month.digit_char a) (String (Month.digit_char b) "").
Proof.
  intros Ha Hb. unfold Month.pad2.
  assert (E1 : (a * 10 + b) / 10 = a)
    by (symmetry; apply Nat.div_unique with b; lia).
  assert (E2 : (a * 10 + b) mod 10 = b)
    by (symmetry; apply Nat.mod_unique with a; lia).
  rewrite E1, E2, (Nat.mod_small a 10) by lia. reflexivity.
Qed.

Lemma pad4_digits (a b c d : nat) :
  a < 10 -> b < 10 -> c < 10 -> d < 10 ->
  Month.pad4 (a * 1000 + b * 100 + c * 10 + d)
  = String (Month.digit_char a) (String (Month.digit_char b)
      (String (Month.digit_char c) (String (Month.digit_char d) ""))).
Proof.
  intros Ha Hb Hc Hd. unfold Month.pad4, Month.pad2.
  set (n := a * 1000 + b * 100 + c * 10 + d).
  assert (E1 : n / 1000 = a)
    by (symmetry; apply Nat.div_unique with (b * 100 + c * 10 + d);
        unfold n; lia).
  assert (E2 : n / 100 = a * 10 + b)
    by (symmetry; apply Nat.div_unique with (c * 10 + d); unfold n; lia).
  assert (E3 : n / 10 = a * 100 + b * 10 + c)
    by (symmetry; apply Nat.div_unique with d; unfold n; lia).
  assert (E4 : n mod 10 = d)
    by (symmetry; apply Nat.mod_unique with (a * 100 + b * 10 + c);
        unfold n; lia).
  assert (E5 : (a * 10 + b) mod 10 = b)
    by (symmetry; apply Nat.mod_unique with a; lia).
  assert (E6 : (a * 100 + b * 10 + c) mod 10 = c)
    by (symmetry; apply Nat.mod_unique with (a * 10 + b); lia).
  rewrite E1, E2, E3, E4, E5, E6, (Nat.mod_small a 10) by lia. reflexivity.
Qed.

Lemma names_NoDup : NoDup Month.names.
Proof.
  unfold Month.names.
  repeat (constructor; [simpl; intuition discriminate|]). constructor.
Qed.

Lemma strptime_BY_index (alts : list string) (idx k : nat)
    (text name tl : string) (y : nat) :
  NoDup alts ->
  nth_error alts k = Some name ->
  (forall n t, In n alts -> Month.strip_prefix_ci n text = Some t -> n = name) ->
  Month.strip_prefix_ci name text = Some tl ->
  Month.spaces_year false tl = Some y ->
  Month.strptime_BY alts idx text = Some (idx + k, y).
Proof.
  revert idx k. induction alts as [|n alts IH]; intros idx k Hnd Hk Huniq Hs Hy.
  - destruct k; discriminate.
  - simpl. destruct (Month.strip_prefix_ci n text) as [t|] eqn:Hn.
    + assert (n = name) by (apply (Huniq n t); [now left | exact Hn]).
      subst n. rewrite Hs in Hn. inversion Hn; subst t. rewrite Hy.
      destruct k as [|k]; [now rewrite Nat.add_0_r|].
      simpl in Hk. apply nth_error_In in Hk. inversion Hnd. contradiction.
    + destruct k as [|k]; simpl in Hk; [congruence|].
      replace (idx + S k) with (S idx + k) by lia.
      apply IH; auto.
      * now inversion Hnd.
      * intros n' t' Hin'. apply Huniq. now right.
Qed.

Lemma search_sound (q tok : string) :
  Month.search q = Some tok -> exists m year, first_token q tok m year.
Proof.
  revert tok. induction q as [|c q IH]; intros tok; rewrite search_unfold.
  - destruct (Month.match_here Month.names "") as [tok0|] eqn:H0;
      [|discriminate].
    intros E. inversion E; subst tok0.
    apply match_here_token in H0. destruct H0 as (m & y & post & Hq & Ht).
    exists m, y, "", post. repeat split; auto. intros. simpl. lia.
  - destruct (Month.match_here Month.names (String c q)) as [tok0|] eqn:H0.
    + intros E. inversion E; subst tok0.
      apply match_here_token in H0. destruct H0 as (m & y & post & Hq & Ht).
      exists m, y, "", post. repeat split; auto. intros. simpl. lia.
    + intros E. destruct (IH _ E) as (m & y & pre & post & Hq & Ht & Hmin).
      exists m, y, (String c pre), post. split; [|split; [exact Ht|]].
      * simpl. now rewrite <- Hq.
      * intros pre' tok' post' m' y' Hq' Ht'.
        destruct pre' as [|c' pre'].
        -- cbn [append] in Hq'. rewrite Hq' in H0.
           rewrite (token_match_here _ _ _ _ Ht') in H0. discriminate.
        -- simpl in Hq'. inversion Hq'; subst c'.
           simpl. apply le_n_S. eapply Hmin; eauto.
Qed.

Lemma parse_month_year_token (tok : string) (m : nat) (year : string) :
  is_token tok m year ->
  parse_month_year tok
  = if String.eqb year "0000" then None
    else Some (Month.year_text (year_value year) ++ "-" ++ Month.pad2 m).
Proof.
  intros (name & name' & Hk & Hm & Hl & -> & d1 & d2 & d3 & d4 & -> & H1
          & H2 & H3 & H4).
  set (y := Month.digit_val d1 * 1000 + Month.digit_val d2 * 100
            + Month.digit_val d3 * 10 + Month.digit_val d4).
  set (year := String d1 (String d2 (String d3 (String d4 "")))).
  assert (Hparse : Month.strptime_BY Month.names 1 (name' ++ String " " year)
                   = Some (1 + (m - 1), y)).
  { apply strptime_BY_index with (name := name) (tl := String " " year).
    - apply names_NoDup.
    - exact Hk.
    - intros n t Hin Ht. eapply names_unique; eauto.
      + eapply nth_error_In; eauto.
      + now apply strip_prefix_ci_app.
    - now apply strip_prefix_ci_app.
    - unfold year. cbn [Month.spaces_year].
      replace (Month.is_space " ") with true by reflexivity.
      rewrite (is_digit_not_space d1 H1), H1, H2, H3, H4. reflexivity. }
  unfold parse_month_year. rewrite Hparse.
  replace (1 + (m - 1)) with m by lia.
  change (year_value year) with y.
  destruct (y =? 0)%nat eqn:Hy.
  - apply Nat.eqb_eq in Hy. unfold y in Hy.
    assert (E1 : Month.digit_val d1 = 0) by lia.
    assert (E2 : Month.digit_val d2 = 0) by lia.
    assert (E3 : Month.digit_val d3 = 0) by lia.
    assert (E4 : Month.digit_val d4 = 0) by lia.
    unfold year.
    rewrite (digit_val_zero d1), (digit_val_zero d2), (digit_val_zero d3),
      (digit_val_zero d4) by assumption.
    reflexivity.
  - destruct (String.eqb year "0000") eqn:E; [|reflexivity].
    apply String.eqb_eq in E. apply Nat.eqb_neq in Hy.
    exfalso. apply Hy. unfold y. unfold year in E.
    inversion E. reflexivity.
Qed.

(** ** The year as [strftime] writes it *)

Lemma year_text_length (n : nat) :
  String.length (Month.year_text n)
  = if (n <? 10)%nat then 1
    else if (n <? 100)%nat then 2
    else if (n <? 1000)%nat then 3 else 4.
Proof.
  unfold Month.year_text.
  destruct (n <? 10)%nat; [reflexivity|].
  destruct (n <? 100)%nat; [reflexivity|].
  destruct (n <? 1000)%nat; reflexivity.
Qed.

Lemma leading_zero (year : string) :
  four_digits year ->
  (Str.startswith year "0" = true <-> year_value year < 1000).
Proof.
  intros (d1 & d2 & d3 & d4 & -> & H1 & H2 & H3 & H4).
  pose proof (digit_val_small _ H1). pose proof (digit_val_small _ H2).
  pose proof (digit_val_small _ H3). pose proof (digit_val_small _ H4).
  unfold Str.startswith, year_value. cbn [prefix].
  destruct (ascii_dec "0" d1) as [<- | Hne].
  - split; [intros _|reflexivity].
    change (Month.digit_val "0") with 0. lia.
  - split; [destruct d2; discriminate|]. intros Hlt. exfalso. apply Hne.
    symmetry. apply digit_val_zero; [exact H1|]. lia.
Qed.

Lemma year_text_full (year : string) :
  four_digits year -> Str.startswith year "0" = false ->
  Month.year_text (year_value year) = year.
Proof.
  intros Hfour Hz.
  assert (Hge : 1000 <= year_value year).
  { destruct (Nat.lt_ge_cases (year_value year) 1000) as [Hlt | Hge];
      [|exact Hge].
    apply (leading_zero _ Hfour) in Hlt. congruence. }
  destruct Hfour as (d1 & d2 & d3 & d4 & -> & H1 & H2 & H3 & H4).
  pose proof (digit_val_small _ H1). pose proof (digit_val_small _ H2).
  pose proof (digit_val_small _ H3). pose proof (digit_val_small _ H4).
  unfold year_value in *. unfold Month.year_text.
  repeat match goal with
         | |- context [(?a <? ?b)%nat] =>
             destruct (Nat.ltb_spec a b); [lia|]
         end.
  rewrite pad4_digits by assumption. now rewrite !digit_char_val.
Qed.

Lemma year_text_short (year : string) :
  four_digits year -> Str.startswith year "0" = true ->
  String.length (Month.year_text (year_value year)) < 4.
Proof.
  intros Hfour Hz. apply (leading_zero _ Hfour) in Hz.
  rewrite year_text_length.
  repeat match goal with
         | |- context [(?a <? ?b)%nat] => destruct (Nat.ltb_spec a b)
         end; lia.
Qed.

Lemma length_month_text (y m : string) :
  String.length (y ++ "-" ++ m) = String.length y + 1 + String.length m.
Proof. rewrite !length_append. simpl. lia. Qed.

(** C6. For a question whose first token (the leftmost full English
    month name in any letter case, a space and four digits) has a year
    written with a leading zero and other than 0000, the month that is
    extracted is not of the form YYYY-MM: it is the year without its
    leading zeros, a dash and the two-digit number of the month, shorter
    than seven characters.  Stated for a question of ASCII characters. *)
Theorem extract_month_year_below_1000 (q tok : string) (m : nat)
    (year : string) :
  Str.is_ascii q = true ->
  first_token q tok m year ->
  Str.startswith year "0" = true -> year <> "0000" ->
  exists s,
    extract_month q = Some s
    /\ s = Month.year_text (year_value year) ++ "-" ++ Month.pad2 m
    /\ String.length s < 7
    /\ s <> year ++ "-" ++ Month.pad2 m.
Proof.
  intros _ Hfirst Hz Hy0. unfold extract_month.
  rewrite (search_first_token _ _ _ _ Hfirst).
  destruct Hfirst as (pre & post & _ & Htok & _).
  rewrite (parse_month_year_token _ _ _ Htok).
  destruct (String.eqb year "0000") eqn:E0;
    [apply String.eqb_eq in E0; contradiction|].
  destruct Htok as (name & name' & _ & _ & _ & _ & Hfour).
  pose proof (year_text_short _ Hfour Hz) as Hshort.
  assert (Hlen : String.length
                   (Month.year_text (year_value year) ++ "-" ++ Month.pad2 m)
                 < 7).
  { rewrite length_month_text.
    change (String.length (Month.pad2 m)) with 2. lia. }
  eexists. split; [reflexivity|]. split; [reflexivity|].
  split; [exact Hlen|].
  intros E. rewrite E in Hlen. rewrite length_month_text in Hlen.
  change (String.length (Month.pad2 m)) with 2 in Hlen.
  destruct Hfour as (d1 & d2 & d3 & d4 & -> & _). simpl in Hlen. lia.
Qed.

Lemma extract_month_year_below_1000_witness :
  exists s, extract_month "June 0999 opex" = Some s /\ s = "999-06".
Proof.
  destruct (extract_month_year_below_1000 "June 0999 opex" "June 0999" 6
              "0999") as (s & Hs & Heq & _).
  - reflexivity.
  - exists "", " opex". split; [reflexivity|]. split.
    + exists "June", "June". repeat split; try reflexivity; try lia.
      exists "0"%char, "9"%char, "9"%char, "9"%char.
      repeat split; reflexivity.
    + intros. simpl. lia.
  - reflexivity.
  - discriminate.
  - exists s. split; [exact Hs|]. rewrite Heq. reflexivity.
Defined.

Example extract_month_0999 :
  extract_month "opex June 0999" = Some "999-06"
  /\ parse_month_year "June 0001" = Some "1-06"
  /\ parse_month_year "June 0999" <> Some "0999-06".
Proof. repeat split; try reflexivity. discriminate. Qed.

(** X15. The month of a question is read from its first token, that is
    the leftmost occurrence of a full English month name in any letter
    case followed by a space and four digits: it is the year as
    [strftime] writes it, a dash and the two-digit number of the month,
    and nothing when the year is 0000, which does not parse as a date.
    For a year from 1000 the month is the four digits, a dash and the
    month number.  A question without a token has no month, and a month
    is never read from anywhere else.  Stated for a question of ASCII
    characters. *)
Theorem extract_month_first_token (q : string) :
  Str.is_ascii q = true ->
  (forall tok m year,
     first_token q tok m year ->
     extract_month q
     = if String.eqb year "0000" then None
       else Some (Month.year_text (year_value year) ++ "-" ++ Month.pad2 m))
  /\ (forall tok m year,
        first_token q tok m year -> Str.startswith year "0" = false ->
        extract_month q = Some (year ++ "-" ++ Month.pad2 m))
  /\ ((forall pre tok post m year,
         q = pre ++ tok ++ post -> ~ is_token tok m year) ->
      extract_month q = None)
  /\ (forall s,
        extract_month q = Some s ->
        exists tok m year,
          first_token q tok m year /\ year <> "0000"
          /\ s = Month.year_text (year_value year) ++ "-" ++ Month.pad2 m).
Proof.
  intros _.
  assert (Hfirst : forall tok m year,
            first_token q tok m year ->
            extract_month q
            = if String.eqb year "0000" then None
              else Some (Month.year_text (year_value year) ++ "-"
                         ++ Month.pad2 m)).
  { intros tok m year Hfirst. unfold extract_month.
    rewrite (search_first_token _ _ _ _ Hfirst).
    destruct Hfirst as (pre & post & _ & Htok & _).
    now apply parse_month_year_token. }
  split; [exact Hfirst|]. split; [|split].
  - intros tok m year Hf Hz. rewrite (Hfirst _ _ _ Hf).
    destruct Hf as (pre & post & _ & Htok & _).
    destruct Htok as (name & name' & _ & _ & _ & _ & Hfour).
    rewrite (year_text_full _ Hfour Hz).
    destruct (String.eqb year "0000") eqn:E0; [|reflexivity].
    apply String.eqb_eq in E0. subst year. discriminate Hz.
  - intros Hno. unfold extract_month. now rewrite search_no_token.
  - intros s. unfold extract_month.
    destruct (Month.search q) as [tok|] eqn:Hs; [|discriminate].
    destruct (search_sound _ _ Hs) as (m & year & Hf).
    pose proof Hf as (pre & post & _ & Htok & _).
    rewrite (parse_month_year_token _ _ _ Htok).
    destruct (String.eqb year "0000") eqn:E0; [discriminate|].
    apply String.eqb_neq in E0.
    intros E. inversion E. exists tok, m, year. auto.
Qed.

Lemma extract_month_mixed_case_witness :
  exists tok m year,
    first_token "Opex in jUNE 2024, not may 2025" tok m year
    /\ "2024-06" = Month.year_text (year_value year) ++ "-" ++ Month.pad2 m.
Proof.
  destruct (extract_month_first_token "Opex in jUNE 2024, not may 2025")
    as (_ & _ & _ & H); [reflexivity|].
  destruct (H "2024-06") as (tok & m & year & Hf & _ & Hs); [reflexivity|].
  exists tok, m, year. split; [exact Hf|exact Hs].
Defined.

(** ** The normalizer, in elementary terms *)

Lemma find_split {A : Type} (p : A -> bool) (l : list A) (x : A) :
  find p l = Some x ->
  exists pre post,
    l = (pre ++ x :: post)%list /\ p x = true
    /\ forall y, In y pre -> p y = false.
Proof.
  induction l as [|a l IH]; simpl; [discriminate|].
  destruct (p a) eqn:Ha.
  - intros E. inversion E; subst a. exists [], l. simpl. tauto.
  - intros E. destruct (IH E) as (pre & post & -> & Hx & Hpre).
    exists (a :: pre), post. simpl. split; [reflexivity|]. split; [exact Hx|].
    intros y [<- | Hy]; auto.
Qed.

Lemma notna_true {A : Type} (x : option A) : notna x = true <-> x <> None.
Proof. destruct x; simpl; split; congruence. Qed.

Lemma convertible_iff (fx : list FxRate) (r : FinancialRecord) :
  convertible fx r = true <->
  month r <> None /\ currency r <> None /\ amount r <> None
  /\ exists f, In f fx /\ fx_month f = month r
               /\ fx_currency f = currency r /\ rate_to_usd f <> None.
Proof.
  unfold convertible. rewrite !andb_true_iff, !notna_true. split.
  - intros [[[Hm Hc] Ha] Hf]. repeat split; auto.
    destruct (first_rate fx (month r) (currency r)) as [f|] eqn:E;
      [|congruence].
    destruct (first_rate_complete _ _ _ _ E) as (Hr & Hfm & Hfc & Hin).
    exists f. apply notna_true in Hr. auto.
  - intros (Hm & Hc & Ha & f & Hin & Hfm & Hfc & Hr). repeat split; auto.
    unfold first_rate. intros Hnone.
    pose proof (find_none _ _ Hnone f Hin) as Hf. cbv beta in Hf.
    assert (Hk : same_key (month r) (currency r) f = true)
      by (apply same_key_eq; auto).
    rewrite Hk, Hfm, Hfc in Hf.
    apply notna_true in Hm. apply notna_true in Hc. apply notna_true in Hr.
    rewrite Hm, Hc, Hr in Hf.
    discriminate.
Qed.

Lemma convertible_first_rate (fx : list FxRate) (r : FinancialRecord) :
  convertible fx r = true ->
  exists pre f post a rate,
    fx = (pre ++ f :: post)%list
    /\ fx_month f = month r /\ fx_currency f = currency r
    /\ (forall g, In g pre -> fx_month g = month r ->
                  fx_currency g = currency r -> rate_to_usd g = None)
    /\ amount r = Some a /\ rate_to_usd f = Some rate
    /\ normalized fx r = {| base := r; n_rate_to_usd := Some rate;
                            amount_usd := Some (a * rate)%Q |}.
Proof.
  unfold convertible. rewrite !andb_true_iff, !notna_true.
  intros [[[Hm Hc] Ha] Hf].
  destruct (first_rate fx (month r) (currency r)) as [f|] eqn:E;
    [|congruence].
  pose proof E as E'. unfold first_rate in E'. apply find_split in E'.
  destruct E' as (pre & post & Hfx & Hpf & Hpre).
  rewrite !andb_true_iff, same_key_eq, !notna_true in Hpf.
  destruct Hpf as [[[Hfm Hfc] Hfr] [Hkm Hkc]].
  destruct (amount r) as [a|] eqn:Ea; [|congruence].
  destruct (rate_to_usd f) as [rate|] eqn:Er; [|congruence].
  exists pre, f, post, a, rate. repeat split; auto.
  - intros g Hg Hgm Hgc. specialize (Hpre g Hg). cbv beta in Hpre.
    assert (Hk : same_key (month r) (currency r) g = true)
      by (apply same_key_eq; auto).
    rewrite Hk, Hgm, Hgc in Hpre.
    apply notna_true in Hm. apply notna_true in Hc.
    rewrite Hm, Hc in Hpre.
    destruct (rate_to_usd g); [discriminate | reflexivity].
  - unfold normalized, rate_of. rewrite E, Er, Ea. reflexivity.
Qed.

(** C2. [convert_to_usd] returns, in input order, exactly the input
    records whose month, currency and amount are present and for which
    the rate table has a row of the same month and currency with a rate;
    the rate used is that of the first such row of the rate table, rows
    before it with the same key having no rate; each returned record
    carries [amount_usd = amount * rate_to_usd]; no returned [amount_usd]
    is null.  The function is total: every other record is dropped and
    nothing is raised. *)
Theorem convert_to_usd_exact (df : list FinancialRecord) (fx : list FxRate) :
  convert_to_usd df fx = map (normalized fx) (filter (convertible fx) df)
  /\ (forall r,
        convertible fx r = true <->
        month r <> None /\ currency r <> None /\ amount r <> None
        /\ exists f, In f fx /\ fx_month f = month r
                     /\ fx_currency f = currency r /\ rate_to_usd f <> None)
  /\ (forall r,
        convertible fx r = true ->
        exists pre f post a rate,
          fx = (pre ++ f :: post)%list
          /\ fx_month f = month r /\ fx_currency f = currency r
          /\ (forall g, In g pre -> fx_month g = month r ->
                        fx_currency g = currency r -> rate_to_usd g = None)
          /\ amount r = Some a /\ rate_to_usd f = Some rate
          /\ normalized fx r = {| base := r; n_rate_to_usd := Some rate;
                                  amount_usd := Some (a * rate)%Q |})
  /\ (forall n, In n (convert_to_usd df fx) -> amount_usd n <> None).
Proof.
  split; [apply convert_to_usd_refines|].
  split; [apply convertible_iff|].
  split; [apply convertible_first_rate|].
  intros n. rewrite convert_to_usd_refines. unfold convert_to_usd_spec.
  rewrite in_map_iff. intros (r & <- & Hin).
  apply filter_In in Hin. destruct Hin as [_ Hc].
  destruct (convertible_first_rate _ _ Hc)
    as (pre & f & post & a & rate & _ & _ & _ & _ & _ & _ & ->).
  simpl. discriminate.
Qed.

Lemma convert_to_usd_june_witness :
  convert_to_usd june_actuals june_fx
  = [ {| base := {| month := Some "2024-06"; entity := "ParentCo";
                    account_category := "Revenue"; amount := Some 1000%Q;
                    currency := Some "EUR" |};
         n_rate_to_usd := Some 1.1%Q;
         amount_usd := Some (1000 * 1.1)%Q |} ].
Proof.
  rewrite (proj1 (convert_to_usd_exact june_actuals june_fx)).
  reflexivity.
Defined.

(** ** Orchestrator *)

(** C7. [run_agent] answers a problem of the question with text and no
    chart, and raises nothing: an unknown intent gives the fixed
    could-not-understand text; an intent that needs a month
    ([revenue_vs_budget], [opex_breakdown], [ebitda_vs_budget]) without a
    month in the question gives the text that asks for one; [cash_runway]
    without a cash table gives "Cash data not provided.". *)
Theorem run_agent_guidance (question : string)
    (actuals budget : list FinancialRecord) (fx : list FxRate)
    (cash : option (list CashRecord)) (default_entity : string) :
  (classify_intent question = "unknown" ->
   run_agent question actuals budget fx cash default_entity
   = Ok ("Sorry, I could not understand the question.", None))
  /\ (classify_intent question = "revenue_vs_budget" ->
      extract_month question = None ->
      run_agent question actuals budget fx cash default_entity
      = Ok ("Please specify the month (e.g., June 2024) for Revenue vs Budget.",
            None))
  /\ (classify_intent question = "opex_breakdown" ->
      extract_month question = None ->
      run_agent question actuals budget fx cash default_entity
      = Ok ("Please specify the month (e.g., June 2024) for Opex breakdown.",
            None))
  /\ (classify_intent question = "ebitda_vs_budget" ->
      extract_month question = None ->
      run_agent question actuals budget fx cash default_entity
      = Ok ("Please specify the month (e.g., June 2024) for EBITDA vs Budget.",
            None))
  /\ (classify_intent question = "cash_runway" ->
      cash = None ->
      run_agent question actuals budget fx cash default_entity
      = Ok ("Cash data not provided.", None)).
Proof.
  unfold run_agent.
  repeat split; intros Hi; rewrite Hi; try intros ->; reflexivity.
Qed.

Lemma run_agent_guidance_witness :
  run_agent "How are we doing?" [] [] [] None "ParentCo"
  = Ok ("Sorry, I could not understand the question.", None)
  /\ run_agent "Revenue vs budget, please" [] [] [] None "ParentCo"
     = Ok ("Please specify the month (e.g., June 2024) for Revenue vs Budget.",
           None)
  /\ run_agent "Opex last month" [] [] [] None "ParentCo"
     = Ok ("Please specify the month (e.g., June 2024) for Opex breakdown.",
           None)
  /\ run_agent "EBITDA against budget" [] [] [] None "ParentCo"
     = Ok ("Please specify the month (e.g., June 2024) for EBITDA vs Budget.",
           None)
  /\ run_agent "What is our cash runway?" [] [] [] None "ParentCo"
     = Ok ("Cash data not provided.", None).
Proof.
  split; [|split; [|split; [|split]]].
  - apply (run_agent_guidance "How are we doing?"). reflexivity.
  - apply (run_agent_guidance "Revenue vs budget, please"); reflexivity.
  - apply (run_agent_guidance "Opex last month"); reflexivity.
  - apply (run_agent_guidance "EBITDA against budget"); reflexivity.
  - apply (run_agent_guidance "What is our cash runway?"); reflexivity.
Defined.

(** C10. On a question classified [unknown] the answer is the fixed
    text with no chart, whatever the tables, the cash argument and the
    default entity are: two calls that differ only in them agree.  On
    references the call reads no object: it returns the same answer on
    any store, for any references, and leaves the store as it is. *)
Theorem run_agent_unknown_ignores_tables (question : string)
    (actuals budget actuals' budget' : list FinancialRecord)
    (fx fx' : list FxRate) (cash cash' : option (list CashRecord))
    (default_entity default_entity' : string)
    (la lb lf : Obj.loc) (lc : option Obj.loc) (h : Obj.store) :
  classify_intent question = "unknown" ->
  run_agent question actuals budget fx cash default_entity
  = Ok ("Sorry, I could not understand the question.", None)
  /\ run_agent question actuals budget fx cash default_entity
     = run_agent question actuals' budget' fx' cash' default_entity'
  /\ Obj.run_agent question la lb lf lc default_entity h
     = (Ok ("Sorry, I could not understand the question.", None), h).
Proof.
  intros Hi. unfold run_agent, Obj.run_agent. rewrite Hi. auto.
Qed.

Lemma run_agent_unknown_witness :
  run_agent "How are we doing?" june_actuals june_budget june_fx None
    "ParentCo"
  = run_agent "How are we doing?" [] [] [] (Some []) "ChildCo".
Proof.
  apply (run_agent_unknown_ignores_tables "How are we doing?"
           june_actuals june_budget [] [] june_fx [] None (Some [])
           "ParentCo" "ChildCo" 0 0 0 None []).
  reflexivity.
Defined.

(** ** Revenue vs Budget *)

Lemma revenue_rows_none (month_ entity_ : string)
    (df : list FinancialRecord) (fx : list FxRate) :
  (forall r, In r df -> convertible fx r = true ->
             ~ (month r = Some month_ /\ entity r = entity_
                /\ account_category r = "Revenue")) ->
  revenue_rows month_ entity_ (convert_to_usd df fx) = [].
Proof.
  intros Hno. rewrite convert_to_usd_refines. unfold convert_to_usd_spec.
  induction df as [|r df IH]; [reflexivity|]. simpl.
  assert (IH' : revenue_rows month_ entity_
                  (map (normalized fx) (filter (convertible fx) df)) = []).
  { apply IH. intros r' Hin. apply Hno. now right. }
  destruct (convertible fx r) eqn:Hc; [|exact IH'].
  simpl. unfold revenue_rows in *. simpl.
  destruct (in_month month_ (normalized fx r) && of_entity entity_ (normalized fx r)
            && is_category "Revenue" (normalized fx r)) eqn:Hsel; [|exact IH'].
  exfalso. apply (Hno r (or_introl eq_refl) Hc).
  rewrite !andb_true_iff in Hsel. destruct Hsel as [[Hm He] Hcat].
  unfold in_month, of_entity, is_category, cell_is in *. simpl in *.
  apply String.eqb_eq in He, Hcat.
  destruct (month r) as [m|]; [|discriminate].
  apply String.eqb_eq in Hm. subst. auto.
Qed.

(** C8. When neither the actuals nor the budget table has a convertible
    Revenue row of the month and the entity, Revenue vs Budget returns
    its text with Actual $0 and Budget $0, and a chart; it does not
    raise. *)
Theorem get_revenue_vs_budget_no_rows (month_ entity_ : string)
    (actuals budget : list FinancialRecord) (fx : list FxRate) :
  (forall r, In r actuals -> convertible fx r = true ->
             ~ (month r = Some month_ /\ entity r = entity_
                /\ account_category r = "Revenue")) ->
  (forall r, In r budget -> convertible fx r = true ->
             ~ (month r = Some month_ /\ entity r = entity_
                /\ account_category r = "Revenue")) ->
  exists c,
    get_revenue_vs_budget month_ entity_ actuals budget fx
    = Ok ("Revenue in " ++ month_ ++ " for " ++ entity_
          ++ ": Actual $0 vs Budget $0", c)
    /\ ys c = [Num 0%Q; Num 0%Q].
Proof.
  intros Ha Hb. unfold get_revenue_vs_budget.
  rewrite (revenue_rows_none _ _ _ _ Ha), (revenue_rows_none _ _ _ _ Hb).
  eexists. split; reflexivity.
Qed.

Lemma get_revenue_vs_budget_no_rows_witness :
  exists c,
    get_revenue_vs_budget "2024-07" "ParentCo" june_actuals june_budget june_fx
    = Ok ("Revenue in 2024-07 for ParentCo: Actual $0 vs Budget $0", c)
    /\ ys c = [Num 0%Q; Num 0%Q].
Proof.
  apply (get_revenue_vs_budget_no_rows "2024-07" "ParentCo"
           june_actuals june_budget june_fx).
  - intros r [<- | []] _ [H _]. discriminate.
  - intros r [<- | []] _ [H _]. discriminate.
Defined.

Lemma convert_one_row (fx : list FxRate) (r : FinancialRecord)
    (m c : string) (a rate : Q) :
  month r = Some m -> currency r = Some c -> amount r = Some a ->
  rate_of fx (Some m) (Some c) = Some rate ->
  convert_to_usd [r] fx
  = [ {| base := r; n_rate_to_usd := Some rate;
         amount_usd := Some (a * rate)%Q |} ].
Proof.
  intros Hm Hc Ha Hr. rewrite convert_to_usd_refines.
  unfold convert_to_usd_spec, convertible, normalized, rate_of in *.
  cbn [filter]. rewrite Hm, Hc, Ha.
  destruct (first_rate fx (Some m) (Some c)) as [f|] eqn:E; [|discriminate].
  cbn [notna andb map]. rewrite Hm, Hc, E, Hr, Ha. reflexivity.
Qed.

(** C3. The end-to-end scenario: the question "Revenue vs Budget for
    June 2024", an actuals table with one Revenue row of 1000 EUR for
    ParentCo in 2024-06, a budget table with one Revenue row of 900 USD
    for ParentCo in 2024-06, and a rate table that gives 2024-06 the
    rates 1.1 for EUR and 1 for USD: [run_agent] returns the text
    "Revenue in 2024-06 for ParentCo: Actual $1,100 vs Budget $900" and a
    chart, whatever else the rate table holds and whatever the cash
    argument is. *)
Theorem run_agent_june_scenario (fx : list FxRate)
    (cash : option (list CashRecord)) :
  rate_of fx (Some "2024-06") (Some "EUR") = Some 1.1%Q ->
  rate_of fx (Some "2024-06") (Some "USD") = Some 1%Q ->
  exists c,
    run_agent "Revenue vs Budget for June 2024" june_actuals june_budget
      fx cash "ParentCo"
    = Ok ("Revenue in 2024-06 for ParentCo: Actual $1,100 vs Budget $900",
          Some c).
Proof.
  intros Heur Husd. unfold run_agent.
  replace (classify_intent "Revenue vs Budget for June 2024")
    with "revenue_vs_budget" by reflexivity.
  replace (extract_month "Revenue vs Budget for June 2024")
    with (Some "2024-06") by reflexivity.
  cbn [String.eqb Ascii.eqb Bool.eqb existsb negb orb
       INTENT_FUNCTION_MAP_keys].
  unfold get_revenue_vs_budget, june_actuals, june_budget.
  rewrite (convert_one_row fx _ "2024-06" "EUR" 1000%Q 1.1%Q)
    by (reflexivity || exact Heur).
  rewrite (convert_one_row fx _ "2024-06" "USD" 900%Q 1%Q)
    by (reflexivity || exact Husd).
  eexists. vm_compute. reflexivity.
Qed.

Lemma run_agent_june_scenario_witness :
  exists c,
    run_agent "Revenue vs Budget for June 2024" june_actuals june_budget
      june_fx None "ParentCo"
    = Ok ("Revenue in 2024-06 for ParentCo: Actual $1,100 vs Budget $900",
          Some c).
Proof.
  apply (run_agent_june_scenario june_fx None); reflexivity.
Defined.

(** Without a USD rate the budget row is dropped and the budget is $0. *)
Example june_scenario_without_usd_rate :
  exists c,
    run_agent "Revenue vs Budget for June 2024" june_actuals june_budget
      (firstn 1 june_fx) None "ParentCo"
    = Ok ("Revenue in 2024-06 for ParentCo: Actual $1,100 vs Budget $0",
          Some c).
Proof. eexists. vm_compute. reflexivity. Qed.

(** ** Objects: what a call leaves alone *)

Section Keeps.

Variable n : nat.

Lemma keeps_ret {A : Type} (a : A) (post : A -> Prop) :
  post a -> keeps n (Obj.ret a) post.
Proof. intros H h Hn. simpl. auto. Qed.

Lemma keeps_raise {A : Type} (e : exn) (post : A -> Prop) :
  keeps n (Obj.raise e) post.
Proof. intros h Hn. simpl. auto. Qed.

Lemma keeps_lift {A : Type} (r : result A) :
  keeps n (Obj.lift r) (fun _ => True).
Proof. intros h Hn. simpl. destruct r; auto. Qed.

Lemma keeps_bind {A B : Type} (m : Obj.M A) (k : A -> Obj.M B)
    (mid : A -> Prop) (post : B -> Prop) :
  keeps n m mid ->
  (forall a, mid a -> keeps n (k a) post) ->
  keeps n (Obj.mbind m k) post.
Proof.
  intros Hm Hk h Hn. unfold Obj.mbind.
  destruct (Hm h Hn) as (Hlen & Hfirst & Hpost).
  destruct (m h) as [[a | e] h']; simpl in *.
  - destruct (Hk a Hpost h' Hlen) as (Hlen' & Hfirst' & Hpost').
    repeat split; auto. congruence.
  - auto.
Qed.

Lemma keeps_weaken {A : Type} (m : Obj.M A) (post post' : A -> Prop) :
  keeps n m post -> (forall a, post a -> post' a) -> keeps n m post'.
Proof.
  intros Hm Himp h Hn. destruct (Hm h Hn) as (Hlen & Hfirst & Hpost).
  repeat split; auto. destruct (fst (m h)); auto.
Qed.

(** A new object lies after the first [n]. *)
Lemma keeps_alloc (f : Obj.frame) :
  keeps n (Obj.alloc f) (fun l => n <= l).
Proof.
  intros h Hn. unfold Obj.alloc. simpl.
  rewrite length_app, firstn_app.
  replace (n - length h) with 0 by lia. simpl.
  rewrite app_nil_r. repeat split; auto. lia.
Qed.

Lemma keeps_read (l : Obj.loc) : keeps n (Obj.read l) (fun _ => True).
Proof.
  intros h Hn. unfold Obj.read. destruct (nth_error h l); simpl; auto.
Qed.

Lemma length_replace (l : Obj.loc) (f : Obj.frame) (h : Obj.store) :
  length (Obj.replace l f h) = length h.
Proof.
  revert l. induction h as [|g h IH]; intros [|l]; simpl; auto.
Qed.

Lemma firstn_replace (l : Obj.loc) (f : Obj.frame) (h : Obj.store) (k : nat) :
  k <= l -> firstn k (Obj.replace l f h) = firstn k h.
Proof.
  revert l k. induction h as [|g h IH]; intros l k Hk; simpl.
  - reflexivity.
  - destruct l as [|l].
    + replace k with 0 by lia. reflexivity.
    + destruct k as [|k]; simpl; [reflexivity|].
      f_equal. apply IH. lia.
Qed.

(** An update in place touches one object, at or after the first [n]. *)
Lemma keeps_update (l : Obj.loc) (upd : Obj.frame -> result Obj.frame) :
  n <= l -> keeps n (Obj.update l upd) (fun _ => True).
Proof.
  intros Hl h Hn. unfold Obj.update.
  destruct (nth_error h l) as [f|]; simpl; auto.
  destruct (upd f) as [f' | e]; simpl; auto.
  rewrite length_replace, firstn_replace by assumption. auto.
Qed.

End Keeps.

Lemma keeps_ret_any {A : Type} (n : nat) (a : A) :
  keeps n (Obj.ret a) (fun _ => True).
Proof. now apply keeps_ret. Qed.

Lemma keeps_raise_any {A : Type} (n : nat) (e : exn) :
  keeps n (@Obj.raise A e) (fun _ => True).
Proof. apply keeps_raise. Qed.

Create HintDb keeps.

#[local] Hint Resolve keeps_ret keeps_ret_any keeps_raise_any keeps_lift
  keeps_alloc keeps_read keeps_update : keeps.

(** One statement after the other: the rule of sequence, until the last. *)
Ltac keeps_seq :=
  repeat (eapply keeps_bind; [solve [eauto with keeps] | intros ? ?]);
  try solve [eauto with keeps].

Ltac keeps_reader :=
  intros; eapply keeps_bind; [apply keeps_read |];
  intros [] _; eauto with keeps.

Lemma keeps_read_records (n : nat) (l : Obj.loc) :
  keeps n (Obj.read_records l) (fun _ => True).
Proof. keeps_reader. Qed.

Lemma keeps_read_rates (n : nat) (l : Obj.loc) :
  keeps n (Obj.read_rates l) (fun _ => True).
Proof. keeps_reader. Qed.

Lemma keeps_read_cash (n : nat) (l : Obj.loc) :
  keeps n (Obj.read_cash l) (fun _ => True).
Proof. keeps_reader. Qed.

Lemma keeps_read_merged (n : nat) (l : Obj.loc) :
  keeps n (Obj.read_merged l) (fun _ => True).
Proof. keeps_reader. Qed.

Lemma keeps_read_normalized (n : nat) (l : Obj.loc) :
  keeps n (Obj.read_normalized l) (fun _ => True).
Proof. keeps_reader. Qed.

Lemma keeps_read_flagged (n : nat) (l : Obj.loc) :
  keeps n (Obj.read_flagged l) (fun _ => True).
Proof. keeps_reader. Qed.

Lemma keeps_read_pivot (n : nat) (l : Obj.loc) :
  keeps n (Obj.read_pivot l) (fun _ => True).
Proof. keeps_reader. Qed.

Lemma keeps_read_monthly (n : nat) (l : Obj.loc) :
  keeps n (Obj.read_monthly l) (fun _ => True).
Proof. keeps_reader. Qed.

Lemma keeps_read_monthly_burn (n : nat) (l : Obj.loc) :
  keeps n (Obj.read_monthly_burn l) (fun _ => True).
Proof. keeps_reader. Qed.

Lemma keeps_read_assigned (n : nat) (l : Obj.loc) (name : string) :
  keeps n (Obj.read_assigned l name) (fun _ => True).
Proof.
  eapply keeps_bind; [apply keeps_read |].
  intros [] _; eauto with keeps.
  destruct (find _ _); eauto with keeps.
Qed.

Lemma keeps_assign (n : nat) (l : Obj.loc) (name : string) (col : list fnum) :
  n <= l -> keeps n (Obj.assign l name col) (fun _ => True).
Proof. intros Hl. now apply keeps_update. Qed.

#[local] Hint Resolve keeps_read_records keeps_read_rates keeps_read_cash
  keeps_read_merged keeps_read_normalized keeps_read_flagged keeps_read_pivot
  keeps_read_monthly keeps_read_monthly_burn keeps_read_assigned keeps_assign
  : keeps.

Lemma keeps_convert_to_usd (n : nat) (df fx : Obj.loc) :
  keeps n (Obj.convert_to_usd df fx) (fun l => n <= l).
Proof. unfold Obj.convert_to_usd. keeps_seq. Qed.

#[local] Hint Resolve keeps_convert_to_usd : keeps.

Lemma keeps_get_revenue_vs_budget (n : nat) (month_ entity_ : string)
    (actuals budget fx : Obj.loc) :
  keeps n (Obj.get_revenue_vs_budget month_ entity_ actuals budget fx)
    (fun _ => True).
Proof. unfold Obj.get_revenue_vs_budget. keeps_seq. Qed.

Lemma keeps_pivot_reset (n : nat) (df_usd : Obj.loc) :
  keeps n (Obj.pivot_reset df_usd) (fun l => n <= l).
Proof. unfold Obj.pivot_reset. keeps_seq. Qed.

#[local] Hint Resolve keeps_pivot_reset : keeps.

Lemma keeps_get_gross_margin_trend1 (n : nat) (actuals fx : Obj.loc)
    (entity_ : string) :
  keeps n (Obj.get_gross_margin_trend1 actuals fx entity_) (fun _ => True).
Proof. unfold Obj.get_gross_margin_trend1. keeps_seq. Qed.

Lemma keeps_get_opex_breakdown1 (n : nat) (month_ entity_ : string)
    (actuals fx : Obj.loc) :
  keeps n (Obj.get_opex_breakdown1 month_ entity_ actuals fx) (fun _ => True).
Proof. unfold Obj.get_opex_breakdown1. keeps_seq. Qed.

Lemma keeps_get_ebitda_trend (n : nat) (actuals fx : Obj.loc)
    (entity_ : string) :
  keeps n (Obj.get_ebitda_trend actuals fx entity_) (fun _ => True).
Proof. unfold Obj.get_ebitda_trend. keeps_seq. Qed.

Lemma keeps_sum_where (n : nat) (df : Obj.loc)
    (mask : NormalizedRecord -> bool) :
  keeps n (Obj.sum_where df mask) (fun _ => True).
Proof. unfold Obj.sum_where. keeps_seq. Qed.

#[local] Hint Resolve keeps_sum_where : keeps.

Lemma keeps_compute_ebitda (n : nat) (df : Obj.loc) :
  keeps n (Obj.compute_ebitda df) (fun _ => True).
Proof. unfold Obj.compute_ebitda. keeps_seq. Qed.

#[local] Hint Resolve keeps_compute_ebitda : keeps.

Lemma keeps_get_ebitda_vs_budget (n : nat) (month_ entity_ : string)
    (actuals budget fx : Obj.loc) :
  keeps n (Obj.get_ebitda_vs_budget month_ entity_ actuals budget fx)
    (fun _ => True).
Proof. unfold Obj.get_ebitda_vs_budget. keeps_seq. Qed.

Lemma keeps_latest_cash_of (n : nat) (cash : Obj.loc) (entity_ : string) :
  keeps n (Obj.latest_cash_of cash entity_) (fun _ => True).
Proof.
  unfold Obj.latest_cash_of. keeps_seq.
  destruct (iloc_last _); keeps_seq.
  destruct (iloc_last _); keeps_seq.
Qed.

#[local] Hint Resolve keeps_latest_cash_of : keeps.

Lemma keeps_get_cash_runway (n : nat) (cash actuals fx : Obj.loc)
    (entity_ : string) :
  keeps n (Obj.get_cash_runway cash actuals fx entity_) (fun _ => True).
Proof. unfold Obj.get_cash_runway. keeps_seq. Qed.

#[local] Hint Resolve keeps_get_revenue_vs_budget
  keeps_get_gross_margin_trend1 keeps_get_opex_breakdown1
  keeps_get_ebitda_trend keeps_get_ebitda_vs_budget keeps_get_cash_runway
  : keeps.

Lemma keeps_with_chart (n : nat) (m : Obj.M (string * chart)) :
  keeps n m (fun _ => True) -> keeps n (Obj.with_chart m) (fun _ => True).
Proof. intros Hm. unfold Obj.with_chart. keeps_seq. Qed.

Lemma keeps_run_agent (n : nat) (question : string)
    (actuals budget fx : Obj.loc) (cash : option Obj.loc)
    (default_entity : string) :
  keeps n (Obj.run_agent question actuals budget fx cash default_entity)
    (fun _ => True).
Proof.
  unfold Obj.run_agent.
  repeat match goal with
         | |- keeps _ (if ?b then _ else _) _ => destruct b
         | |- keeps _ (match ?o with Some _ => _ | None => _ end) _ =>
             destruct o
         end;
    try apply keeps_with_chart; eauto with keeps.
Qed.

Lemma keeps_extends {A : Type} (m : Obj.M A) (post : A -> Prop)
    (h : Obj.store) :
  keeps (length h) m post -> extends h (snd (m h)).
Proof.
  intros Hk. destruct (Hk h (le_n _)) as (_ & Hfirst & _).
  exists (skipn (length h) (snd (m h))).
  rewrite <- (firstn_skipn (length h) (snd (m h))) at 1.
  now rewrite Hfirst, firstn_all.
Qed.

Lemma extends_lookup (h h' : Obj.store) (l : Obj.loc) (f : Obj.frame) :
  extends h h' -> nth_error h l = Some f -> nth_error h' l = Some f.
Proof.
  intros [fresh ->] Hl. rewrite nth_error_app1; auto.
  apply nth_error_Some. congruence.
Qed.

(** C9. A call of [run_agent], of [convert_to_usd] or of a metric
    function, on references to tables in any store, ends (with an answer
    or a raise) in a store that is the one before the call followed by
    the objects the call created: every object that existed before, and
    so each of the caller's actuals, budget, fx and cash tables, is there
    with the content it had.  The assignments of the source
    ([merged["amount_usd"]], [df_usd["is_opex"]], [monthly["NetBurn"]],
    and the columns set on a pivot) all fall on objects created by the
    call. *)
Theorem calls_leave_tables_unchanged (h : Obj.store) :
  (forall question actuals budget fx cash default_entity,
     extends h (snd (Obj.run_agent question actuals budget fx cash
                       default_entity h)))
  /\ (forall df fx, extends h (snd (Obj.convert_to_usd df fx h)))
  /\ (forall m e actuals budget fx,
        extends h (snd (Obj.get_revenue_vs_budget m e actuals budget fx h)))
  /\ (forall actuals fx e,
        extends h (snd (Obj.get_gross_margin_trend1 actuals fx e h)))
  /\ (forall m e actuals fx,
        extends h (snd (Obj.get_opex_breakdown1 m e actuals fx h)))
  /\ (forall actuals fx e,
        extends h (snd (Obj.get_ebitda_trend actuals fx e h)))
  /\ (forall m e actuals budget fx,
        extends h (snd (Obj.get_ebitda_vs_budget m e actuals budget fx h)))
  /\ (forall cash actuals fx e,
        extends h (snd (Obj.get_cash_runway cash actuals fx e h)))
  /\ (forall question actuals budget fx cash default_entity l f,
        nth_error h l = Some f ->
        nth_error (snd (Obj.run_agent question actuals budget fx cash
                          default_entity h)) l = Some f).
Proof.
  repeat match goal with |- _ /\ _ => split end; intros.
  - eapply keeps_extends, keeps_run_agent.
  - eapply keeps_extends, keeps_convert_to_usd.
  - eapply keeps_extends, keeps_get_revenue_vs_budget.
  - eapply keeps_extends, keeps_get_gross_margin_trend1.
  - eapply keeps_extends, keeps_get_opex_breakdown1.
  - eapply keeps_extends, keeps_get_ebitda_trend.
  - eapply keeps_extends, keeps_get_ebitda_vs_budget.
  - eapply keeps_extends, keeps_get_cash_runway.
  - eapply extends_lookup; [|eassumption].
    eapply keeps_extends, keeps_run_agent.
Qed.

(** ** Where the metric functions raise *)

(** C5, at its failing inputs.  With one convertible COGS row and no
    Revenue row for the entity, the pivot has no [Revenue] column and
    both trend functions raise [KeyError]; with one Revenue row and no
    COGS row they raise on [COGS]; on empty tables they raise as well,
    and so does [get_cash_runway] when the entity has no row.  On the
    same COGS-only table [get_ebitda_vs_budget] answers, the missing
    revenue counting as zero. *)
Theorem trend_functions_raise_without_revenue_or_cogs :
  get_gross_margin_trend1 cogs_only june_fx "ParentCo"
  = Raise (KeyError "Revenue")
  /\ get_ebitda_trend cogs_only june_fx "ParentCo"
     = Raise (KeyError "Revenue")
  /\ get_gross_margin_trend1 revenue_only june_fx "ParentCo"
     = Raise (KeyError "COGS")
  /\ get_ebitda_trend revenue_only june_fx "ParentCo"
     = Raise (KeyError "COGS")
  /\ get_gross_margin_trend1 [] [] "ParentCo" = Raise (KeyError "Revenue")
  /\ get_ebitda_trend [] [] "ParentCo" = Raise (KeyError "Revenue")
  /\ run_agent "Show the gross margin" cogs_only [] june_fx None "ParentCo"
     = Raise (KeyError "Revenue")
  /\ (exists c,
        get_ebitda_vs_budget "2024-06" "ParentCo" cogs_only [] june_fx
        = Ok ("EBITDA in 2024-06 for ParentCo: Actual $-400 vs Budget $0", c)).
Proof.
  repeat match goal with |- _ /\ _ => split end;
    try (vm_compute; reflexivity).
  eexists. vm_compute. reflexivity.
Qed.

(** C4, at its failing input.  When the entity has no normalized row
    there is no month to group by and [get_cash_runway] raises, whatever
    the cash table holds: no runway is reported. *)
Theorem get_cash_runway_raises_without_rows :
  (forall cash fx entity_,
     get_cash_runway cash [] fx entity_
     = Raise (ValueError "cannot insert month, already exists"))
  /\ get_cash_runway june_cash june_actuals june_fx "ChildCo"
     = Raise (ValueError "cannot insert month, already exists")
  /\ run_agent "What is our cash runway?" [] [] june_fx (Some june_cash)
       "ParentCo"
     = Raise (ValueError "cannot insert month, already exists").
Proof.
  split; [|split].
  - intros cash fx entity_. reflexivity.
  - vm_compute. reflexivity.
  - vm_compute. reflexivity.
Qed.

Example get_cash_runway_june :
  exists c,
    get_cash_runway june_cash cogs_only june_fx "ParentCo"
    = Ok ("Cash Runway for ParentCo: 12.5 months (latest cash $5,000, avg burn $400/month)",
          c).
Proof. eexists. vm_compute. reflexivity. Qed.

Example get_cash_runway_no_burn :
  exists c,
    get_cash_runway june_cash revenue_only june_fx "ParentCo"
    = Ok ("Cash Runway for ParentCo: inf months (latest cash $5,000, avg burn $-1,000/month)",
          c).
Proof. eexists. vm_compute. reflexivity. Qed.

(** ** The order of month strings *)

Lemma ascii_compare_refl (a : ascii) : Ascii.compare a a = Eq.
Proof. unfold Ascii.compare. apply N.compare_refl. Qed.

Lemma ascii_compare_lt_trans (a b c : ascii) :
  Ascii.compare a b = Lt -> Ascii.compare b c = Lt -> Ascii.compare a c = Lt.
Proof.
  unfold Ascii.compare. rewrite !N.compare_lt_iff. apply N.lt_trans.
Qed.

Lemma string_compare_refl (s : string) : String.compare s s = Eq.
Proof.
  induction s as [|c s IH]; simpl; auto. now rewrite ascii_compare_refl.
Qed.

Lemma string_compare_lt_trans (a b c : string) :
  String.compare a b = Lt -> String.compare b c = Lt ->
  String.compare a c = Lt.
Proof.
  revert b c. induction a as [|x a IH]; intros [|y b] [|z c]; simpl;
    try discriminate; auto.
  destruct (Ascii.compare x y) eqn:Exy; try discriminate;
    destruct (Ascii.compare y z) eqn:Eyz; try discriminate; intros H1 H2.
  - apply Ascii.compare_eq_iff in Exy, Eyz. subst.
    rewrite ascii_compare_refl. eapply IH; eauto.
  - apply Ascii.compare_eq_iff in Exy. subst. now rewrite Eyz.
  - apply Ascii.compare_eq_iff in Eyz. subst. now rewrite Exy.
  - now rewrite (ascii_compare_lt_trans _ _ _ Exy Eyz).
Qed.

Lemma ltb_irrefl (s : string) : String.ltb s s = false.
Proof. unfold String.ltb. now rewrite string_compare_refl. Qed.

Lemma ltb_trans (a b c : string) :
  String.ltb a b = true -> String.ltb b c = true -> String.ltb a c = true.
Proof.
  unfold String.ltb.
  destruct (String.compare a b) eqn:E1; try discriminate.
  destruct (String.compare b c) eqn:E2; try discriminate.
  now rewrite (string_compare_lt_trans _ _ _ E1 E2).
Qed.

Lemma ltb_asym (a b : string) :
  String.ltb a b = true -> String.ltb b a = false.
Proof.
  unfold String.ltb. rewrite (String.compare_antisym b a).
  destruct (String.compare a b); simpl; congruence.
Qed.

Lemma ltb_trichotomy (a b : string) :
  String.ltb a b = false -> a <> b -> String.ltb b a = true.
Proof.
  unfold String.ltb. rewrite (String.compare_antisym b a).
  destruct (String.compare a b) eqn:E; simpl; try congruence.
  intros _ Hne. apply String.compare_eq_iff in E. contradiction.
Qed.

Lemma key_ltb_irrefl (a : option string) : key_ltb a a = false.
Proof. destruct a; simpl; auto. apply ltb_irrefl. Qed.

Lemma key_ltb_trans (a b c : option string) :
  key_ltb a b = true -> key_ltb b c = true -> key_ltb a c = true.
Proof.
  destruct a, b, c; simpl; try congruence. apply ltb_trans.
Qed.

Lemma key_ltb_asym (a b : option string) :
  key_ltb a b = true -> key_ltb b a = false.
Proof. destruct a, b; simpl; try congruence. apply ltb_asym. Qed.

Lemma key_ltb_trichotomy (a b : option string) :
  key_ltb a b = false -> a <> b -> key_ltb b a = true.
Proof.
  destruct a as [x|], b as [y|]; simpl; try congruence.
  intros H Hne. apply ltb_trichotomy; congruence.
Qed.

Lemma key_eq_dec (a b : option string) : {a = b} + {a <> b}.
Proof. decide equality. apply string_dec. Qed.

(** "Not after": the order [sort_values] sorts by. *)
Lemma key_le_trans (a b c : option string) :
  key_ltb b a = false -> key_ltb c b = false -> key_ltb c a = false.
Proof.
  intros Hab Hbc. destruct (key_ltb c a) eqn:Hca; auto.
  destruct (key_eq_dec a b) as [-> | Hne]; [congruence|].
  pose proof (key_ltb_trichotomy _ _ Hab (fun E => Hne (eq_sym E))) as Hlt.
  pose proof (key_ltb_trans _ _ _ Hca Hlt). congruence.
Qed.

(** ** [sort_values] *)

Section SortValues.

Context {A : Type} (key : A -> option string).

Local Abbreviation not_after := (not_after key).
Local Abbreviation before := (before key).

Lemma In_insert_sorted (x y : A) (l : list A) :
  In y (insert_sorted key x l) <-> y = x \/ In y l.
Proof.
  induction l as [|z l IH]; simpl.
  - intuition.
  - destruct (key_ltb (key x) (key z)); simpl; rewrite ?IH; intuition.
Qed.

Lemma In_fold_insert (y : A) (l acc : list A) :
  In y (fold_left (fun acc x => insert_sorted key x acc) l acc)
  <-> In y acc \/ In y l.
Proof.
  revert acc. induction l as [|x l IH]; intros acc; simpl.
  - intuition.
  - rewrite IH, In_insert_sorted. intuition.
Qed.

Lemma In_sort_values (y : A) (l : list A) :
  In y (sort_values key l) <-> In y l.
Proof. unfold sort_values. rewrite In_fold_insert. simpl. intuition. Qed.

Lemma insert_sorted_sorted (x : A) (l : list A) :
  StronglySorted not_after l ->
  StronglySorted not_after (insert_sorted key x l).
Proof.
  induction 1 as [|z l Hl IH Hz]; simpl.
  - repeat constructor.
  - destruct (key_ltb (key x) (key z)) eqn:E.
    + constructor; [constructor; assumption|].
      constructor.
      * unfold not_after. now apply key_ltb_asym.
      * rewrite Forall_forall in *. intros w Hw. unfold not_after in *.
        apply key_le_trans with (b := key z); [|now apply Hz].
        now apply key_ltb_asym.
    + constructor; [exact IH|].
      rewrite Forall_forall in *. intros w Hw.
      apply In_insert_sorted in Hw. destruct Hw as [-> | Hw]; auto.
Qed.

Lemma sort_values_sorted (l : list A) :
  StronglySorted not_after (sort_values key l).
Proof.
  unfold sort_values.
  assert (H : StronglySorted not_after (@nil A)) by constructor.
  revert H. generalize (@nil A) as acc.
  induction l as [|x l IH]; intros acc Hacc; simpl; auto.
  apply IH. now apply insert_sorted_sorted.
Qed.

Lemma iloc_last_app (l : list A) (x : A) : iloc_last (l ++ [x]) = Some x.
Proof. unfold iloc_last. now rewrite rev_app_distr. Qed.

Lemma iloc_last_split (l : list A) (x : A) :
  iloc_last l = Some x -> exists front, l = (front ++ [x])%list.
Proof.
  unfold iloc_last. destruct (rev l) as [|y t] eqn:E; [discriminate|].
  intros H. inversion H; subst y. exists (rev t).
  rewrite <- (rev_involutive l), E. reflexivity.
Qed.

Lemma iloc_last_none (l : list A) : iloc_last l = None -> l = [].
Proof.
  unfold iloc_last. destruct (rev l) eqn:E; [|discriminate].
  intros _. rewrite <- (rev_involutive l), E. reflexivity.
Qed.

Lemma sorted_app_last (front : list A) (x : A) :
  StronglySorted not_after (front ++ [x]) ->
  forall y, In y (front ++ [x]) -> not_after y x.
Proof.
  induction front as [|z front IH]; simpl; intros Hs y Hy.
  - destruct Hy as [<- | []]. apply key_ltb_irrefl.
  - inversion Hs as [|? ? Hs' Hz]; subst.
    destruct Hy as [<- | Hy]; [|now apply IH].
    rewrite Forall_forall in Hz. apply Hz. apply in_or_app. right. now left.
Qed.

(** The last row after sorting is a row of the table, and no row of the
    table is after it. *)
Lemma iloc_last_sort_values (l : list A) (x : A) :
  iloc_last (sort_values key l) = Some x ->
  In x l /\ forall y, In y l -> not_after y x.
Proof.
  intros H. destruct (iloc_last_split _ _ H) as [front E].
  pose proof (sort_values_sorted l) as Hs. rewrite E in Hs. split.
  - apply In_sort_values. rewrite E. apply in_or_app. right. now left.
  - intros y Hy. apply (sorted_app_last _ _ Hs).
    rewrite <- E. now apply In_sort_values.
Qed.

Lemma iloc_last_sort_values_none (l : list A) :
  iloc_last (sort_values key l) = None -> l = [].
Proof.
  intros H. apply iloc_last_none in H.
  destruct l as [|x l]; auto.
  assert (Hin : In x (sort_values key (x :: l)))
    by (apply In_sort_values; now left).
  rewrite H in Hin. contradiction.
Qed.

Lemma insert_sorted_last (x : A) (l : list A) :
  Forall (fun y => before y x) l ->
  insert_sorted key x l = (l ++ [x])%list.
Proof.
  induction 1 as [|y l Hy Hl IH]; simpl; auto.
  unfold before in Hy. rewrite (key_ltb_asym _ _ Hy). now rewrite IH.
Qed.

(** Sorting a table that is in strictly increasing order changes
    nothing. *)
Lemma sort_values_increasing (l : list A) :
  StronglySorted before l -> sort_values key l = l.
Proof.
  unfold sort_values. intros Hs.
  assert (H : forall acc,
             StronglySorted before (acc ++ l) ->
             fold_left (fun acc x => insert_sorted key x acc) l acc
             = (acc ++ l)%list).
  { clear Hs. induction l as [|x l IH]; intros acc Hacc; simpl.
    - now rewrite app_nil_r.
    - rewrite insert_sorted_last.
      + rewrite IH; rewrite <- app_assoc; auto.
      + clear IH. induction acc as [|a acc IHa]; [constructor|].
        simpl in Hacc. inversion Hacc as [|? ? Hs' Ha]; subst.
        constructor; [|now apply IHa].
        rewrite Forall_forall in Ha. apply Ha.
        apply in_or_app. right. now left. }
  now apply (H []).
Qed.

End SortValues.

(** ** [sorted_unique] *)

Lemma In_insert_unique (x y : string) (l : list string) :
  In y (insert_unique x l) <-> y = x \/ In y l.
Proof.
  induction l as [|z l IH]; simpl.
  - intuition.
  - destruct (String.eqb x z) eqn:E.
    + apply String.eqb_eq in E. subst z. simpl. intuition.
    + destruct (String.ltb x z); simpl; rewrite ?IH; intuition.
Qed.

Lemma In_sorted_unique (y : string) (l : list string) :
  In y (sorted_unique l) <-> In y l.
Proof.
  unfold sorted_unique. induction l as [|x l IH]; simpl.
  - reflexivity.
  - rewrite In_insert_unique, IH. intuition.
Qed.

Lemma insert_unique_increasing (x : string) (l : list string) :
  increasing l -> increasing (insert_unique x l).
Proof.
  unfold increasing. induction 1 as [|z l Hl IH Hz]; simpl.
  - repeat constructor.
  - destruct (String.eqb x z) eqn:E; [now constructor|].
    apply String.eqb_neq in E.
    destruct (String.ltb x z) eqn:Hlt.
    + constructor; [now constructor|]. constructor; [exact Hlt|].
      rewrite Forall_forall in *. intros w Hw.
      eapply ltb_trans; eauto.
    + constructor; [exact IH|].
      rewrite Forall_forall in *. intros w Hw.
      apply In_insert_unique in Hw. destruct Hw as [-> | Hw]; auto.
      now apply ltb_trichotomy.
Qed.

Lemma sorted_unique_increasing (l : list string) :
  increasing (sorted_unique l).
Proof.
  unfold sorted_unique. induction l as [|x l IH]; simpl.
  - constructor.
  - now apply insert_unique_increasing.
Qed.

Lemma increasing_map_before {A : Type} (f : string -> A)
    (key : A -> option string) (l : list string) :
  (forall m, key (f m) = Some m) ->
  increasing l -> StronglySorted (before key) (map f l).
Proof.
  intros Hkey. unfold increasing. induction 1 as [|z l Hl IH Hz]; simpl.
  - constructor.
  - constructor; [exact IH|].
    rewrite Forall_forall in *. intros w Hw.
    apply in_map_iff in Hw. destruct Hw as (m & <- & Hm).
    unfold before. rewrite !Hkey. simpl. now apply Hz.
Qed.

(** ** [tail] *)

Lemma tail_map {A B : Type} (f : A -> B) (k : nat) (l : list A) :
  tail k (map f l) = map f (tail k l).
Proof. unfold tail. now rewrite length_map, skipn_map. Qed.

Lemma tail_last (A : Type) (k : nat) (l : list A) :
  (exists front, l = (front ++ tail k l)%list)
  /\ length (tail k l) = Nat.min k (length l).
Proof.
  unfold tail. split.
  - exists (firstn (length l - k) l). now rewrite firstn_skipn.
  - rewrite length_skipn. lia.
Qed.

(** ** Cash runway *)

Lemma with_is_opex_fst (l : list NormalizedRecord) :
  map fst (with_is_opex l) = l.
Proof.
  unfold with_is_opex. rewrite map_map. simpl. apply map_id.
Qed.

Lemma with_is_opex_filter (p : NormalizedRecord -> bool)
    (l : list NormalizedRecord) :
  filter (fun rf => p (fst rf)) (with_is_opex l) = with_is_opex (filter p l).
Proof.
  unfold with_is_opex. induction l as [|r l IH]; simpl; auto.
  destruct (p r); simpl; now rewrite IH.
Qed.

Lemma with_is_opex_flag (l : list NormalizedRecord) :
  map fst (filter snd (with_is_opex l)) = filter is_opex l.
Proof.
  unfold with_is_opex. induction l as [|r l IH]; simpl; auto.
  destruct (is_opex r); simpl; now rewrite IH.
Qed.

Lemma net_burn_month_totals (df : list NormalizedRecord) (m : string) :
  net_burn (month_totals m
              (filter (fun rf => in_month m (fst rf)) (with_is_opex df)))
  = burn_of df m.
Proof.
  unfold net_burn, month_totals, burn_of. simpl.
  rewrite with_is_opex_filter.
  now rewrite !with_is_opex_filter, !with_is_opex_fst, with_is_opex_flag.
Qed.

Lemma normalized_month (df : list FinancialRecord) (fx : list FxRate)
    (n : NormalizedRecord) :
  In n (convert_to_usd df fx) -> month (base n) <> None.
Proof.
  rewrite convert_to_usd_refines. unfold convert_to_usd_spec.
  rewrite in_map_iff. intros (r & <- & Hin).
  apply filter_In in Hin. destruct Hin as [_ Hc].
  apply convertible_iff in Hc. simpl. tauto.
Qed.

Lemma months_of_nonempty (df : list FinancialRecord) (fx : list FxRate)
    (e : string) :
  filter (of_entity e) (convert_to_usd df fx) <> [] ->
  sorted_unique (months_of (filter (of_entity e) (convert_to_usd df fx)))
  <> [].
Proof.
  destruct (filter (of_entity e) (convert_to_usd df fx)) as [|n l] eqn:E;
    [congruence|].
  intros _ Hnil.
  assert (Hin : In n (convert_to_usd df fx)).
  { assert (H : In n (filter (of_entity e) (convert_to_usd df fx)))
      by (rewrite E; now left).
    apply filter_In in H. tauto. }
  apply normalized_month in Hin.
  destruct (month (base n)) as [m|] eqn:Em; [|congruence].
  assert (Hm : In m (sorted_unique (months_of (n :: l)))).
  { apply In_sorted_unique. simpl. rewrite Em. now left. }
  rewrite Hnil in Hm. contradiction.
Qed.

Lemma In_months_of (df : list NormalizedRecord) (m : string) :
  In m (months_of df) <-> exists r, In r df /\ month (base r) = Some m.
Proof.
  unfold months_of. rewrite in_flat_map. split.
  - intros (r & Hr & Hm). exists r. split; auto.
    destruct (month (base r)); simpl in Hm; [|contradiction].
    destruct Hm as [-> | []]. reflexivity.
  - intros (r & Hr & Hm). exists r. split; auto. rewrite Hm. now left.
Qed.

Lemma dropna_cash_usd (cash : list CashRecord) (r : CashRecord) :
  In r (dropna_cash cash) -> exists c, cash_usd r = Some c.
Proof.
  unfold dropna_cash. rewrite filter_In, !andb_true_iff.
  intros [_ [_ H]]. destruct (cash_usd r) as [c|]; [eauto | discriminate].
Qed.

(** The latest cash of the source is the latest cash of the design. *)
Lemma latest_cash_of_spec (cash : list CashRecord) (e : string) :
  exists c, latest_cash_of cash e = Some c /\ latest_cash_spec cash e c.
Proof.
  unfold latest_cash_of, latest_cash_spec.
  set (complete := dropna_cash cash).
  set (own := cash_of_entity e complete).
  destruct (iloc_last (sort_values cash_month own)) as [r|] eqn:Eown.
  - apply iloc_last_sort_values in Eown. destruct Eown as [Hin Hmax].
    assert (Hc : In r complete).
    { unfold own, cash_of_entity in Hin. apply filter_In in Hin. tauto. }
    destruct (dropna_cash_usd _ _ Hc) as [c Hcash].
    exists c. split; [exact Hcash|]. left. exists r. split; [split|]; auto.
  - apply iloc_last_sort_values_none in Eown.
    destruct (iloc_last (sort_values cash_month complete)) as [r|] eqn:Eall.
    + apply iloc_last_sort_values in Eall. destruct Eall as [Hin Hmax].
      destruct (dropna_cash_usd _ _ Hin) as [c Hcash].
      exists c. split; [exact Hcash|]. right. left.
      split; [exact Eown|]. exists r. split; [split|]; auto.
    + apply iloc_last_sort_values_none in Eall.
      exists 0%Q. split; [reflexivity|]. right. right. auto.
Qed.

Lemma monthly_totals_months (df : list NormalizedRecord) :
  sorted_unique (months_of df) <> [] ->
  monthly_totals (with_is_opex df)
  = Ok (map (fun m => month_totals m
                        (filter (fun rf => in_month m (fst rf))
                                (with_is_opex df)))
            (sorted_unique (months_of df))).
Proof.
  intros Hne. unfold monthly_totals. rewrite with_is_opex_fst.
  destruct (sorted_unique (months_of df)); [congruence | reflexivity].
Qed.

Lemma mean_some (xs : list Q) : xs <> [] -> exists avg, mean xs = Some avg.
Proof. destruct xs; [congruence|]. intros _. simpl. eauto. Qed.

Lemma Qpos_num (q : Q) : (0 < q)%Q <-> (0 < Qnum q)%Z.
Proof. unfold Qlt. simpl. lia. Qed.

(** The cash runway of an entity with at least one normalized row. *)
Lemma get_cash_runway_with_rows (cash : list CashRecord)
    (actuals : list FinancialRecord) (fx : list FxRate) (e : string) :
  let df := filter (of_entity e) (convert_to_usd actuals fx) in
  let months := sorted_unique (months_of df) in
  df <> [] ->
  exists latest avg runway c,
    get_cash_runway cash actuals fx e
    = Ok ("Cash Runway for " ++ e ++ ": " ++ Fmt.fixed1 runway
          ++ " months (latest cash $" ++ Fmt.money (Num latest)
          ++ ", avg burn $" ++ Fmt.money (Num avg) ++ "/month)", c)
    /\ xs c = months /\ ys c = map (fun m => Num (burn_of df m)) months
    /\ mean (map (burn_of df) (tail 3 months)) = Some avg
    /\ latest_cash_spec cash e latest
    /\ ((0 < avg)%Q -> runway = Num (latest / avg)%Q)
    /\ ((avg <= 0)%Q -> runway = PosInf)
    /\ increasing months
    /\ (forall m, In m months <->
                  exists r, In r df /\ month (base r) = Some m)
    /\ (exists earlier, months = (earlier ++ tail 3 months)%list)
    /\ length (tail 3 months) = Nat.min 3 (length months).
Proof.
  intros df months Hdf.
  assert (Hmonths : months <> []) by (now apply months_of_nonempty).
  destruct (latest_cash_of_spec cash e) as (latest & Hlatest & Hspec).
  destruct (tail_last _ 3 months) as [Hfront Hlen].
  assert (Htail : map (burn_of df) (tail 3 months) <> []).
  { intros E. apply (f_equal (@length Q)) in E.
    rewrite length_map, Hlen in E. simpl in E.
    destruct months; [congruence | simpl in E; lia]. }
  destruct (mean_some _ Htail) as [avg Havg].
  set (row := fun m => month_totals m
                 (filter (fun rf => in_month m (fst rf)) (with_is_opex df))).
  assert (Hlast3 :
    map snd (last3_of (with_net_burn (map row months)))
    = map (burn_of df) (tail 3 months)).
  { unfold last3_of, with_net_burn. rewrite map_map.
    rewrite sort_values_increasing.
    - rewrite tail_map, map_map. apply map_ext. intros m. simpl.
      apply net_burn_month_totals.
    - apply increasing_map_before; [reflexivity|].
      apply sorted_unique_increasing. }
  exists latest, avg, (runway_of (Some latest) (Some avg)).
  eexists. split; [|split; [|split; [|split; [|split; [|split; [|split;
    [|split; [|split; [|split]]]]]]]]].
  - unfold get_cash_runway. fold df.
    rewrite (monthly_totals_months df Hmonths). fold months. fold row.
    cbn [bind]. rewrite Hlast3, Havg, Hlatest. reflexivity.
  - simpl. unfold with_net_burn. rewrite !map_map. simpl. apply map_id.
  - simpl. unfold with_net_burn. rewrite !map_map. apply map_ext.
    intros m. simpl. f_equal. apply net_burn_month_totals.
  - exact Havg.
  - exact Hspec.
  - intros Hpos. apply Qpos_num in Hpos. apply Z.ltb_lt in Hpos.
    simpl. now rewrite Hpos.
  - intros Hneg. simpl.
    destruct (0 <? Qnum avg)%Z eqn:E; [|reflexivity].
    apply Z.ltb_lt, Qpos_num in E. exfalso.
    exact (Qlt_not_le _ _ E Hneg).
  - apply sorted_unique_increasing.
  - intros m. unfold months. now rewrite In_sorted_unique, In_months_of.
  - exact Hfront.
  - exact Hlen.
Qed.

(** ** Objects: what a call computes

    On a store that holds the tables, the functions on objects return
    what the functions on values return. *)

Local Open Scope list_scope.

Lemma mbind_ok {A B : Type} (m : Obj.M A) (k : A -> Obj.M B)
    (h h' : Obj.store) (a : A) :
  m h = (Ok a, h') -> Obj.mbind m k h = k a h'.
Proof. intros E. unfold Obj.mbind. now rewrite E. Qed.

Lemma mbind_alloc {B : Type} (f : Obj.frame) (k : Obj.loc -> Obj.M B)
    (h : Obj.store) :
  Obj.mbind (Obj.alloc f) k h = k (length h) (h ++ [f])%list.
Proof. reflexivity. Qed.

Lemma mbind_lift {A B : Type} (r : result A) (k : A -> Obj.M B)
    (h : Obj.store) :
  Obj.mbind (Obj.lift r) k h
  = match r with
    | Ok a => k a h
    | Raise e => (Raise e, h)
    end.
Proof. unfold Obj.mbind, Obj.lift. now destruct r. Qed.

Lemma nth_error_new (h : Obj.store) (f : Obj.frame) :
  nth_error (h ++ [f]) (length h) = Some f.
Proof. rewrite nth_error_app2, Nat.sub_diag; auto. Qed.

Lemma nth_error_old (h : Obj.store) (f g : Obj.frame) (l : Obj.loc) :
  nth_error h l = Some f -> nth_error (h ++ [g]) l = Some f.
Proof.
  intros H. rewrite nth_error_app1; auto. apply nth_error_Some. congruence.
Qed.

Lemma replace_new (h : Obj.store) (f g : Obj.frame) :
  Obj.replace (length h) g (h ++ [f]) = (h ++ [g])%list.
Proof. induction h as [|x h IH]; simpl; congruence. Qed.

Lemma extends_refl (h : Obj.store) : extends h h.
Proof. exists []. now rewrite app_nil_r. Qed.

Lemma extends_trans (h1 h2 h3 : Obj.store) :
  extends h1 h2 -> extends h2 h3 -> extends h1 h3.
Proof.
  intros [f1 ->] [f2 ->]. exists (f1 ++ f2)%list. now rewrite app_assoc.
Qed.

Lemma extends_app (h1 h2 : Obj.store) (f : Obj.frame) :
  extends h1 h2 -> extends h1 (h2 ++ [f]).
Proof. intros H. eapply extends_trans; eauto. now exists [f]. Qed.

Lemma read_ok (l : Obj.loc) (h : Obj.store) (f : Obj.frame) :
  nth_error h l = Some f -> Obj.read l h = (Ok f, h).
Proof. intros E. unfold Obj.read. now rewrite E. Qed.

Lemma update_new (h : Obj.store) (f g : Obj.frame)
    (upd : Obj.frame -> result Obj.frame) :
  upd f = Ok g ->
  Obj.update (length h) upd (h ++ [f]) = (Ok tt, (h ++ [g])%list).
Proof.
  intros E. unfold Obj.update. now rewrite nth_error_new, E, replace_new.
Qed.

Section Readers.

Variables (l : Obj.loc) (h : Obj.store).

Lemma read_records_ok (rows : list FinancialRecord) :
  nth_error h l = Some (Obj.Records rows) ->
  Obj.read_records l h = (Ok rows, h).
Proof.
  intros E.
  unfold Obj.read_records. now rewrite (mbind_ok _ _ _ _ _ (read_ok _ _ _ E)).
Qed.

Lemma read_rates_ok (rows : list FxRate) :
  nth_error h l = Some (Obj.Rates rows) ->
  Obj.read_rates l h = (Ok rows, h).
Proof.
  intros E.
  unfold Obj.read_rates. now rewrite (mbind_ok _ _ _ _ _ (read_ok _ _ _ E)).
Qed.

Lemma read_cash_ok (rows : list CashRecord) :
  nth_error h l = Some (Obj.CashTable rows) ->
  Obj.read_cash l h = (Ok rows, h).
Proof.
  intros E.
  unfold Obj.read_cash. now rewrite (mbind_ok _ _ _ _ _ (read_ok _ _ _ E)).
Qed.

Lemma read_merged_ok (rows : list MergedRecord) :
  nth_error h l = Some (Obj.Merged rows) ->
  Obj.read_merged l h = (Ok rows, h).
Proof.
  intros E.
  unfold Obj.read_merged. now rewrite (mbind_ok _ _ _ _ _ (read_ok _ _ _ E)).
Qed.

Lemma read_normalized_ok (rows : list NormalizedRecord) :
  nth_error h l = Some (Obj.Normalized rows) ->
  Obj.read_normalized l h = (Ok rows, h).
Proof.
  intros E. unfold Obj.read_normalized.
  now rewrite (mbind_ok _ _ _ _ _ (read_ok _ _ _ E)).
Qed.

Lemma read_flagged_ok (rows : list (NormalizedRecord * bool)) :
  nth_error h l = Some (Obj.Flagged rows) ->
  Obj.read_flagged l h = (Ok rows, h).
Proof.
  intros E.
  unfold Obj.read_flagged. now rewrite (mbind_ok _ _ _ _ _ (read_ok _ _ _ E)).
Qed.

Lemma read_pivot_ok (p : Pivot) (assigned : list (string * list fnum)) :
  nth_error h l = Some (Obj.PivotFrame p assigned) ->
  Obj.read_pivot l h = (Ok p, h).
Proof.
  intros E.
  unfold Obj.read_pivot. now rewrite (mbind_ok _ _ _ _ _ (read_ok _ _ _ E)).
Qed.

Lemma read_monthly_burn_ok (rows : list (MonthlyRow * Q)) :
  nth_error h l = Some (Obj.MonthlyBurn rows) ->
  Obj.read_monthly_burn l h = (Ok rows, h).
Proof.
  intros E. unfold Obj.read_monthly_burn.
  now rewrite (mbind_ok _ _ _ _ _ (read_ok _ _ _ E)).
Qed.

Lemma read_assigned_ok (p : Pivot) (name : string) (col : list fnum)
    (assigned : list (string * list fnum)) :
  nth_error h l = Some (Obj.PivotFrame p ((name, col) :: assigned)) ->
  Obj.read_assigned l name h = (Ok col, h).
Proof.
  intros E. unfold Obj.read_assigned.
  rewrite (mbind_ok _ _ _ _ _ (read_ok _ _ _ E)). simpl.
  now rewrite String.eqb_refl.
Qed.

End Readers.

Ltac lookup :=
  solve [repeat first [ apply nth_error_new
                      | eassumption
                      | apply nth_error_old
                      | (eapply extends_lookup; [eassumption|]) ]].

Ltac run_read :=
  first [ apply read_records_ok | apply read_rates_ok | apply read_cash_ok
        | apply read_merged_ok | apply read_normalized_ok
        | apply read_flagged_ok | eapply read_pivot_ok
        | apply read_monthly_burn_ok | eapply read_assigned_ok ];
  lookup.

(** One statement of a function on objects, run. *)
Ltac run_step :=
  first [ rewrite mbind_alloc
        | erewrite mbind_ok by run_read
        | erewrite mbind_ok by (apply update_new; reflexivity) ].

Ltac extends_new :=
  solve [repeat first [ eassumption | apply extends_refl | apply extends_app
                      | (eapply extends_trans; [eassumption|]) ]].

Lemma convert_to_usd_run (h : Obj.store) (df fx : Obj.loc)
    (d : list FinancialRecord) (f : list FxRate) :
  nth_error h df = Some (Obj.Records d) ->
  nth_error h fx = Some (Obj.Rates f) ->
  exists h0,
    Obj.convert_to_usd df fx h
    = (Ok (length h0), h0 ++ [Obj.Normalized (convert_to_usd d f)])
    /\ extends h h0.
Proof.
  intros Hd Hf. unfold Obj.convert_to_usd. eexists. split.
  - repeat run_step. reflexivity.
  - extends_new.
Qed.

Lemma mbind_raise {A B : Type} (m : Obj.M A) (k : A -> Obj.M B)
    (h h' : Obj.store) (e : exn) :
  m h = (Raise e, h') -> Obj.mbind m k h = (Raise e, h').
Proof. intros E. unfold Obj.mbind. now rewrite E. Qed.

(** A call of [convert_to_usd] on the current store, run. *)
Ltac run_convert :=
  match goal with
  | |- context [Obj.mbind (Obj.convert_to_usd ?df ?fx) _ ?s] =>
      let h0 := fresh "h" in
      let E := fresh "E" in
      let X := fresh "X" in
      edestruct (convert_to_usd_run s df fx) as (h0 & E & X);
      [lookup | lookup | rewrite (mbind_ok _ _ _ _ _ E); clear E]
  end.

Section Agreement.

Variables (h : Obj.store) (la lb lf : Obj.loc).
Variables (actuals budget : list FinancialRecord) (fx : list FxRate).
Hypothesis Hactuals : nth_error h la = Some (Obj.Records actuals).
Hypothesis Hbudget : nth_error h lb = Some (Obj.Records budget).
Hypothesis Hfx : nth_error h lf = Some (Obj.Rates fx).

Lemma get_revenue_vs_budget_agrees (m e : string) :
  fst (Obj.get_revenue_vs_budget m e la lb lf h)
  = get_revenue_vs_budget m e actuals budget fx.
Proof.
  unfold Obj.get_revenue_vs_budget. run_convert. run_convert.
  repeat run_step. reflexivity.
Qed.

Lemma get_opex_breakdown1_agrees (m e : string) :
  fst (Obj.get_opex_breakdown1 m e la lf h)
  = get_opex_breakdown1 m e actuals fx.
Proof.
  unfold Obj.get_opex_breakdown1. run_convert. repeat run_step. reflexivity.
Qed.

Lemma sum_where_run (s : Obj.store) (l : Obj.loc)
    (d : list NormalizedRecord) (mask : NormalizedRecord -> bool) :
  nth_error s l = Some (Obj.Normalized d) ->
  Obj.sum_where l mask s
  = (Ok (sum_usd (filter mask d)), s ++ [Obj.Normalized (filter mask d)]).
Proof.
  intros Hl. unfold Obj.sum_where. repeat run_step. reflexivity.
Qed.

Lemma compute_ebitda_run (s : Obj.store) (l : Obj.loc)
    (d : list NormalizedRecord) :
  nth_error s l = Some (Obj.Normalized d) ->
  exists s', Obj.compute_ebitda l s = (Ok (compute_ebitda d), s')
             /\ extends s s'.
Proof.
  intros Hl. unfold Obj.compute_ebitda. eexists. split.
  - erewrite mbind_ok by (apply sum_where_run; lookup).
    erewrite mbind_ok by (apply sum_where_run; lookup).
    erewrite mbind_ok by (apply sum_where_run; lookup).
    reflexivity.
  - extends_new.
Qed.

Lemma get_ebitda_vs_budget_agrees (m e : string) :
  fst (Obj.get_ebitda_vs_budget m e la lb lf h)
  = get_ebitda_vs_budget m e actuals budget fx.
Proof.
  unfold Obj.get_ebitda_vs_budget. run_convert. run_convert.
  repeat run_step.
  match goal with
  | |- context [Obj.mbind (Obj.compute_ebitda ?l) _ ?s] =>
      edestruct (compute_ebitda_run s l) as (s1 & E1 & X1);
      [lookup | rewrite (mbind_ok _ _ _ _ _ E1); clear E1]
  end.
  match goal with
  | |- context [Obj.mbind (Obj.compute_ebitda ?l) _ ?s] =>
      edestruct (compute_ebitda_run s l) as (s2 & E2 & X2);
      [lookup | rewrite (mbind_ok _ _ _ _ _ E2); clear E2]
  end.
  reflexivity.
Qed.

Lemma pivot_reset_run (s : Obj.store) (l : Obj.loc)
    (d : list NormalizedRecord) :
  nth_error s l = Some (Obj.Normalized d) ->
  match reset_index (pivot_table d) with
  | Ok p =>
      exists s0,
        Obj.pivot_reset l s = (Ok (length s0), s0 ++ [Obj.PivotFrame p []])
        /\ extends s s0
  | Raise e => exists s', Obj.pivot_reset l s = (Raise e, s')
  end.
Proof.
  intros Hl. unfold Obj.pivot_reset.
  destruct (reset_index (pivot_table d)) as [p | e] eqn:E.
  - eexists. split.
    + repeat run_step. rewrite mbind_lift, E. reflexivity.
    + extends_new.
  - eexists. repeat run_step. rewrite mbind_lift, E. reflexivity.
Qed.

(** The call of [pivot_reset] on the current store, run: two cases. *)
Ltac run_pivot_reset d :=
  match goal with
  | |- context [Obj.mbind (Obj.pivot_reset ?l) _ ?s] =>
      let H := fresh "H" in
      assert (H : nth_error s l = Some (Obj.Normalized d)) by lookup;
      apply pivot_reset_run in H;
      destruct (reset_index (pivot_table d)) as [?p | ?e];
      [ let s0 := fresh "s" in
        let E := fresh "E" in
        let X := fresh "X" in
        destruct H as (s0 & E & X); rewrite (mbind_ok _ _ _ _ _ E); clear E
      | let s' := fresh "s" in
        let E := fresh "E" in
        destruct H as (s' & E); rewrite (mbind_raise _ _ _ _ _ E);
        reflexivity ]
  end.

Lemma get_gross_margin_trend1_agrees (e : string) :
  fst (Obj.get_gross_margin_trend1 la lf e h)
  = get_gross_margin_trend1 actuals fx e.
Proof.
  unfold Obj.get_gross_margin_trend1, get_gross_margin_trend1.
  run_convert. repeat run_step.
  run_pivot_reset (filter (of_entity e) (convert_to_usd actuals fx)).
  cbn [bind]. repeat run_step.
  rewrite mbind_lift. destruct (getitem p "Revenue"); [|reflexivity].
  rewrite mbind_lift. destruct (getitem p "COGS"); [|reflexivity].
  unfold Obj.assign. repeat run_step. reflexivity.
Qed.

Lemma get_ebitda_trend_agrees (e : string) :
  fst (Obj.get_ebitda_trend la lf e h) = get_ebitda_trend actuals fx e.
Proof.
  unfold Obj.get_ebitda_trend, get_ebitda_trend.
  run_convert. repeat run_step.
  run_pivot_reset (filter (of_entity e) (convert_to_usd actuals fx)).
  cbn [bind]. unfold Obj.assign. repeat run_step.
  rewrite mbind_lift. destruct (getitem p "Revenue"); [|reflexivity].
  rewrite mbind_lift. destruct (getitem p "COGS"); [|reflexivity].
  repeat run_step. reflexivity.
Qed.

Lemma latest_cash_of_run (s : Obj.store) (lc : Obj.loc)
    (cash : list CashRecord) (e : string) :
  nth_error s lc = Some (Obj.CashTable cash) ->
  exists s', Obj.latest_cash_of lc e s = (Ok (latest_cash_of cash e), s')
             /\ extends s s'.
Proof.
  intros Hc. unfold Obj.latest_cash_of, latest_cash_of.
  repeat run_step.
  destruct (iloc_last (sort_values cash_month
                         (cash_of_entity e (dropna_cash cash)))).
  - eexists. split; [reflexivity | extends_new].
  - repeat run_step.
    destruct (iloc_last (sort_values cash_month (dropna_cash cash)));
      (eexists; split; [reflexivity | extends_new]).
Qed.

Lemma get_cash_runway_agrees (lc : Obj.loc) (cash : list CashRecord)
    (e : string) :
  nth_error h lc = Some (Obj.CashTable cash) ->
  fst (Obj.get_cash_runway lc la lf e h) = get_cash_runway cash actuals fx e.
Proof.
  intros Hc. unfold Obj.get_cash_runway, get_cash_runway.
  run_convert. repeat run_step.
  rewrite mbind_lift.
  destruct (monthly_totals
              (with_is_opex (filter (of_entity e)
                                    (convert_to_usd actuals fx))));
    [|reflexivity].
  cbn [bind]. repeat run_step.
  match goal with
  | |- context [Obj.mbind (Obj.latest_cash_of ?l ?e') _ ?s] =>
      edestruct (latest_cash_of_run s l cash e') as (s1 & E1 & X1);
      [lookup | rewrite (mbind_ok _ _ _ _ _ E1); clear E1]
  end.
  repeat run_step. reflexivity.
Qed.

Lemma with_chart_fst (m : Obj.M (string * chart)) (s : Obj.store) :
  fst (Obj.with_chart m s) = with_chart (fst (m s)).
Proof.
  unfold Obj.with_chart, with_chart, Obj.mbind, bind.
  destruct (m s) as [[x | e] s']; reflexivity.
Qed.

(** X2. [run_agent] on references to the tables returns what [run_agent]
    on the tables returns, answer or raise. *)
Theorem run_agent_agrees (question : string) (lc : option Obj.loc)
    (cash : option (list CashRecord)) (default_entity : string) :
  cash_at h lc cash ->
  fst (Obj.run_agent question la lb lf lc default_entity h)
  = run_agent question actuals budget fx cash default_entity.
Proof.
  intros Hcash. unfold Obj.run_agent, run_agent.
  repeat match goal with
         | |- context [if ?b then _ else _] => destruct b
         end; try reflexivity.
  - destruct (extract_month question); [|reflexivity].
    rewrite with_chart_fst. f_equal. apply get_revenue_vs_budget_agrees.
  - rewrite with_chart_fst. f_equal. apply get_gross_margin_trend1_agrees.
  - destruct (extract_month question); [|reflexivity].
    rewrite with_chart_fst. f_equal. apply get_opex_breakdown1_agrees.
  - rewrite with_chart_fst. f_equal. apply get_ebitda_trend_agrees.
  - destruct (extract_month question); [|reflexivity].
    rewrite with_chart_fst. f_equal. apply get_ebitda_vs_budget_agrees.
  - destruct lc as [l|], cash as [c|]; simpl in Hcash; try contradiction;
      [|reflexivity].
    rewrite with_chart_fst. f_equal. now apply get_cash_runway_agrees.
Qed.

End Agreement.

Lemma run_agent_agrees_witness :
  fst (Obj.run_agent "Revenue vs Budget for June 2024" 0 1 2 (Some 3)
         "ParentCo"
         (Obj.caller_store june_actuals june_budget june_fx june_cash))
  = run_agent "Revenue vs Budget for June 2024" june_actuals june_budget
      june_fx (Some june_cash) "ParentCo".
Proof.
  apply (run_agent_agrees
           (Obj.caller_store june_actuals june_budget june_fx june_cash)
           0 1 2 june_actuals june_budget june_fx);
    reflexivity.
Defined.

Lemma calls_leave_tables_unchanged_witness :
  let h := Obj.caller_store june_actuals june_budget june_fx june_cash in
  let h' := snd (Obj.run_agent "What is our cash runway?" 0 1 2 (Some 3)
                   "ParentCo" h) in
  nth_error h' 0 = Some (Obj.Records june_actuals)
  /\ nth_error h' 1 = Some (Obj.Records june_budget)
  /\ nth_error h' 2 = Some (Obj.Rates june_fx)
  /\ nth_error h' 3 = Some (Obj.CashTable june_cash).
Proof.
  intros h h'.
  destruct (calls_leave_tables_unchanged h)
    as (_ & _ & _ & _ & _ & _ & _ & _ & H).
  repeat split; apply H; reflexivity.
Defined.

Example run_agent_creates_objects :
  length (snd (Obj.run_agent "What is our cash runway?" 0 1 2 (Some 3)
                 "ParentCo"
                 (Obj.caller_store june_actuals june_budget june_fx
                    june_cash)))
  = 17.
Proof. vm_compute. reflexivity. Qed.

(** ** Where the trend functions answer *)

Lemma lookup_column_map (f : string -> list (option Q)) (cats : list string)
    (c : string) :
  lookup_column (map (fun c => (c, f c)) cats) c
  = if existsb (String.eqb c) cats then Some (f c) else None.
Proof.
  induction cats as [|x cats IH]; simpl; auto.
  rewrite (String.eqb_sym c x).
  destruct (String.eqb x c) eqn:E; simpl; auto.
  apply String.eqb_eq in E. now subst.
Qed.

Lemma existsb_eqb_In (c : string) (l : list string) :
  existsb (String.eqb c) l = true <-> In c l.
Proof.
  rewrite existsb_exists. split.
  - intros (x & Hx & E). apply String.eqb_eq in E. now subst.
  - intros H. exists c. split; auto. apply String.eqb_refl.
Qed.

Lemma getitem_pivot_table (df : list NormalizedRecord) (c : string) :
  (In c (map (fun r => account_category (base r)) df) ->
   exists col, getitem (pivot_table df) c = Ok col)
  /\ (~ In c (map (fun r => account_category (base r)) df) ->
      getitem (pivot_table df) c = Raise (KeyError c)).
Proof.
  unfold getitem, pivot_table. cbn [pv_columns].
  rewrite lookup_column_map.
  destruct (existsb (String.eqb c) _) eqn:E.
  - split; [eauto|]. intros Hn. exfalso. apply Hn.
    apply existsb_eqb_In in E. now rewrite In_sorted_unique in E.
  - split; [|reflexivity]. intros Hin. exfalso.
    rewrite <- In_sorted_unique, <- existsb_eqb_In in Hin. congruence.
Qed.

Lemma reset_index_pivot_table (df : list NormalizedRecord) :
  ~ In "month"%string (map (fun r => account_category (base r)) df) ->
  reset_index (pivot_table df) = Ok (pivot_table df).
Proof.
  intros Hn. unfold reset_index.
  destruct (existsb _ (pv_columns (pivot_table df))) eqn:E; auto.
  exfalso. apply Hn. apply existsb_exists in E.
  destruct E as ([c col] & Hin & Hc). simpl in Hc.
  apply String.eqb_eq in Hc. subst c.
  unfold pivot_table in Hin. cbn [pv_columns] in Hin.
  apply in_map_iff in Hin. destruct Hin as (c & Hc & Hin).
  inversion Hc; subst c. now rewrite In_sorted_unique in Hin.
Qed.

(** X3. Each trend function answers exactly when the rows of the entity
    hold a Revenue row and a COGS row (no category being called
    [month]); without a Revenue row it raises [KeyError "Revenue"], and
    with one but without a COGS row [KeyError "COGS"]. *)
Theorem trend_functions_answer_iff (actuals : list FinancialRecord)
    (fx : list FxRate) (e : string) :
  let cats := map (fun r => account_category (base r))
                  (filter (of_entity e) (convert_to_usd actuals fx)) in
  ~ In "month"%string cats ->
  (In "Revenue"%string cats /\ In "COGS"%string cats ->
   (exists t c, get_gross_margin_trend1 actuals fx e = Ok (t, c))
   /\ (exists t c, get_ebitda_trend actuals fx e = Ok (t, c)))
  /\ (~ In "Revenue"%string cats ->
      get_gross_margin_trend1 actuals fx e = Raise (KeyError "Revenue")
      /\ get_ebitda_trend actuals fx e = Raise (KeyError "Revenue"))
  /\ (In "Revenue"%string cats -> ~ In "COGS"%string cats ->
      get_gross_margin_trend1 actuals fx e = Raise (KeyError "COGS")
      /\ get_ebitda_trend actuals fx e = Raise (KeyError "COGS")).
Proof.
  intros cats Hmonth.
  unfold get_gross_margin_trend1, get_ebitda_trend.
  rewrite (reset_index_pivot_table _ Hmonth). cbn [bind].
  set (df := filter (of_entity e) (convert_to_usd actuals fx)) in *.
  destruct (getitem_pivot_table df "Revenue") as [Hr1 Hr2].
  destruct (getitem_pivot_table df "COGS") as [Hc1 Hc2].
  split; [|split].
  - intros [Hr Hc]. destruct (Hr1 Hr) as [rev ->].
    destruct (Hc1 Hc) as [cogs ->]. cbn [bind].
    split; do 2 eexists; unfold gross_margin_answer, ebitda_trend_answer;
      reflexivity.
  - intros Hr. rewrite (Hr2 Hr). split; reflexivity.
  - intros Hr Hc. destruct (Hr1 Hr) as [rev ->]. rewrite (Hc2 Hc).
    split; reflexivity.
Qed.

Lemma trend_functions_answer_witness :
  get_gross_margin_trend1 cogs_only june_fx "ParentCo"
  = Raise (KeyError "Revenue")
  /\ get_ebitda_trend cogs_only june_fx "ParentCo"
     = Raise (KeyError "Revenue").
Proof.
  apply (trend_functions_answer_iff cogs_only june_fx "ParentCo").
  - vm_compute. intuition discriminate.
  - vm_compute. intuition discriminate.
Defined.

(** * More of the code *)

(** ** The classifier, intent by intent *)

Lemma lower_char_idempotent (c : ascii) :
  Str.lower_char (Str.lower_char c) = Str.lower_char c.
Proof.
  unfold Str.lower_char. cbv zeta.
  destruct (andb (65 <=? nat_of_ascii c)%nat (nat_of_ascii c <=? 90)%nat)
    eqn:E.
  - apply andb_true_iff in E. destruct E as [E1 E2].
    apply Nat.leb_le in E1, E2.
    rewrite nat_ascii_embedding by lia.
    replace (nat_of_ascii c + 32 <=? 90)%nat with false
      by (symmetry; apply Nat.leb_gt; lia).
    now rewrite andb_false_r.
  - now rewrite E.
Qed.

Lemma lower_idempotent (s : string) : Str.lower (Str.lower s) = Str.lower s.
Proof.
  induction s as [|c s IH]; simpl; auto.
  now rewrite lower_char_idempotent, IH.
Qed.

Lemma classify_intent_in_tags (q : string) :
  In (classify_intent q) intent_tags.
Proof.
  unfold classify_intent, intent_tags.
  repeat match goal with
         | |- context [if ?b then _ else _] => destruct b
         end; simpl; tauto.
Qed.

(** X4. Which questions get which intent, as conditions on the keywords
    the lowercased question contains.  The pair revenue and budget wins
    over everything, then "gross margin", then "opex"; an "ebitda"
    question is a trend without "budget" and a comparison with it; a
    question is unknown exactly when it has none of the keywords.  The
    letter case of the question does not matter. *)
Theorem classify_intent_by_keywords (q : string) :
  let has := fun w => Str.contains w (Str.lower q) in
  (classify_intent q = "revenue_vs_budget"%string
   <-> has "revenue"%string && has "budget"%string = true)
  /\ (classify_intent q = "gross_margin_trend"%string
      <-> negb (has "revenue"%string && has "budget"%string)
          && has "gross margin"%string = true)
  /\ (classify_intent q = "opex_breakdown"%string
      <-> negb (has "revenue"%string && has "budget"%string)
          && negb (has "gross margin"%string) && has "opex"%string = true)
  /\ (classify_intent q = "ebitda_trend"%string
      <-> negb (has "gross margin"%string) && negb (has "opex"%string)
          && has "ebitda"%string && negb (has "budget"%string) = true)
  /\ (classify_intent q = "ebitda_vs_budget"%string
      <-> negb (has "revenue"%string) && negb (has "gross margin"%string)
          && negb (has "opex"%string) && has "ebitda"%string
          && has "budget"%string = true)
  /\ (classify_intent q = "cash_runway"%string
      <-> negb (has "revenue"%string && has "budget"%string)
          && negb (has "gross margin"%string) && negb (has "opex"%string)
          && negb (has "ebitda"%string) && has "cash runway"%string = true)
  /\ (classify_intent q = "unknown"%string
      <-> negb (has "revenue"%string && has "budget"%string)
          && negb (has "gross margin"%string) && negb (has "opex"%string)
          && negb (has "ebitda"%string) && negb (has "cash runway"%string)
          = true)
  /\ classify_intent (Str.lower q) = classify_intent q
  /\ (forall q', Str.lower q' = Str.lower q ->
                 classify_intent q' = classify_intent q).
Proof.
  intros has.
  assert (Hcase : forall q', Str.lower q' = Str.lower q ->
                             classify_intent q' = classify_intent q).
  { intros q' E. unfold classify_intent. now rewrite E. }
  assert (Hlower : classify_intent (Str.lower q) = classify_intent q).
  { apply Hcase. apply lower_idempotent. }
  repeat match goal with |- _ /\ _ => split end;
    try exact Hcase; try exact Hlower;
    clear Hcase Hlower; unfold has, classify_intent;
    destruct (Str.contains "revenue" (Str.lower q));
    destruct (Str.contains "budget" (Str.lower q));
    destruct (Str.contains "gross margin" (Str.lower q));
    destruct (Str.contains "opex" (Str.lower q));
    destruct (Str.contains "ebitda" (Str.lower q));
    destruct (Str.contains "cash runway" (Str.lower q));
    cbn [andb negb];
    split; intros H; try discriminate H; reflexivity.
Qed.

(** ** What [run_agent] can return *)

Lemma reset_index_raises (p : Pivot) (e : exn) :
  reset_index p = Raise e ->
  e = ValueError "cannot insert month, already exists".
Proof.
  unfold reset_index. destruct (existsb _ _); congruence.
Qed.

Lemma getitem_raises (p : Pivot) (c : string) (e : exn) :
  getitem p c = Raise e -> e = KeyError c.
Proof.
  unfold getitem. destruct (lookup_column _ _); congruence.
Qed.

Lemma monthly_totals_raises (g : list (NormalizedRecord * bool)) (e : exn) :
  monthly_totals g = Raise e ->
  e = ValueError "cannot insert month, already exists".
Proof.
  unfold monthly_totals. destruct (sorted_unique _); congruence.
Qed.

Lemma get_gross_margin_trend1_outcome (actuals : list FinancialRecord)
    (fx : list FxRate) (e : string) :
  match get_gross_margin_trend1 actuals fx e with
  | Ok _ => True
  | Raise err => trend_error err
  end.
Proof.
  unfold get_gross_margin_trend1, trend_error.
  destruct (reset_index _) as [p | err] eqn:Er; cbn [bind].
  - destruct (getitem p "Revenue") as [rev | err] eqn:E1; cbn [bind].
    + destruct (getitem p "COGS") as [cogs | err] eqn:E2; cbn [bind]; auto.
      apply getitem_raises in E2. auto.
    + apply getitem_raises in E1. auto.
  - apply reset_index_raises in Er. auto.
Qed.

Lemma get_ebitda_trend_outcome (actuals : list FinancialRecord)
    (fx : list FxRate) (e : string) :
  match get_ebitda_trend actuals fx e with
  | Ok _ => True
  | Raise err => trend_error err
  end.
Proof.
  unfold get_ebitda_trend, trend_error.
  destruct (reset_index _) as [p | err] eqn:Er; cbn [bind].
  - destruct (getitem p "Revenue") as [rev | err] eqn:E1; cbn [bind].
    + destruct (getitem p "COGS") as [cogs | err] eqn:E2; cbn [bind]; auto.
      apply getitem_raises in E2. auto.
    + apply getitem_raises in E1. auto.
  - apply reset_index_raises in Er. auto.
Qed.

Lemma get_cash_runway_outcome (cash : list CashRecord)
    (actuals : list FinancialRecord) (fx : list FxRate) (e : string) :
  match get_cash_runway cash actuals fx e with
  | Ok _ => True
  | Raise err => trend_error err
  end.
Proof.
  unfold get_cash_runway, trend_error.
  destruct (monthly_totals _) as [m | err] eqn:Em; cbn [bind]; auto.
  apply monthly_totals_raises in Em. auto.
Qed.

(** X5. Every outcome of [run_agent].  Either it is one of the five
    guidance texts without a chart, or it is the outcome of the metric
    function of the intent, called with the month of the question where
    the intent needs one: its text with its chart, or the exception it
    raises, passed on unchanged.  [run_agent] raises nothing of its own
    and catches nothing.  The text of the last branch, "Intent not
    implemented.", is never returned, and every intent but [unknown] is
    a key of [INTENT_FUNCTION_MAP], so that the lookup never fails. *)
Theorem run_agent_outcomes (question : string)
    (actuals budget : list FinancialRecord) (fx : list FxRate)
    (cash : option (list CashRecord)) (default_entity : string) :
  let intent := classify_intent question in
  let r := run_agent question actuals budget fx cash default_entity in
  ((exists t, r = Ok (t, None) /\ In t guidance_texts)
   \/ (intent = "revenue_vs_budget"%string
       /\ exists m, extract_month question = Some m
            /\ r = with_chart (get_revenue_vs_budget m default_entity
                                 actuals budget fx))
   \/ (intent = "gross_margin_trend"%string
       /\ r = with_chart (get_gross_margin_trend1 actuals fx default_entity))
   \/ (intent = "opex_breakdown"%string
       /\ exists m, extract_month question = Some m
            /\ r = with_chart (get_opex_breakdown1 m default_entity
                                 actuals fx))
   \/ (intent = "ebitda_trend"%string
       /\ r = with_chart (get_ebitda_trend actuals fx default_entity))
   \/ (intent = "ebitda_vs_budget"%string
       /\ exists m, extract_month question = Some m
            /\ r = with_chart (get_ebitda_vs_budget m default_entity
                                 actuals budget fx))
   \/ (intent = "cash_runway"%string
       /\ exists cash_, cash = Some cash_
            /\ r = with_chart (get_cash_runway cash_ actuals fx
                                 default_entity)))
  /\ (forall x,
        (forall t, with_chart x <> Ok (t, None))
        /\ (forall t c, with_chart x = Ok (t, Some c) <-> x = Ok (t, c))
        /\ (forall err, with_chart x = Raise err <-> x = Raise err))
  /\ r <> Ok ("Intent not implemented."%string, None)
  /\ (intent <> "unknown"%string -> In intent INTENT_FUNCTION_MAP_keys).
Proof.
  intros intent r.
  assert (Hwith : forall x,
            (forall t, with_chart x <> Ok (t, None))
            /\ (forall t c, with_chart x = Ok (t, Some c) <-> x = Ok (t, c))
            /\ (forall err, with_chart x = Raise err <-> x = Raise err)).
  { intros [[t0 c0]|err0]; unfold with_chart; cbn [bind fst snd].
    - split; [discriminate|]. split; [|split; discriminate].
      intros t c. split; congruence.
    - split; [discriminate|]. split; [split; discriminate|].
      intros err. split; congruence. }
  assert (Hmain :
    (exists t, r = Ok (t, None) /\ In t guidance_texts)
    \/ (intent = "revenue_vs_budget"%string
        /\ exists m, extract_month question = Some m
             /\ r = with_chart (get_revenue_vs_budget m default_entity
                                  actuals budget fx))
    \/ (intent = "gross_margin_trend"%string
        /\ r = with_chart (get_gross_margin_trend1 actuals fx default_entity))
    \/ (intent = "opex_breakdown"%string
        /\ exists m, extract_month question = Some m
             /\ r = with_chart (get_opex_breakdown1 m default_entity
                                  actuals fx))
    \/ (intent = "ebitda_trend"%string
        /\ r = with_chart (get_ebitda_trend actuals fx default_entity))
    \/ (intent = "ebitda_vs_budget"%string
        /\ exists m, extract_month question = Some m
             /\ r = with_chart (get_ebitda_vs_budget m default_entity
                                  actuals budget fx))
    \/ (intent = "cash_runway"%string
        /\ exists cash_, cash = Some cash_
             /\ r = with_chart (get_cash_runway cash_ actuals fx
                                  default_entity))).
  { pose proof (classify_intent_in_tags question) as Htag.
    unfold intent_tags in Htag. unfold r, intent, run_agent.
    repeat (destruct Htag as [Htag | Htag]; [| ]); try contradiction;
      rewrite <- Htag;
      cbn [String.eqb Ascii.eqb Bool.eqb existsb negb orb
           INTENT_FUNCTION_MAP_keys].
    - destruct (extract_month question) as [m|].
      + right. left. split; [reflexivity|]. exists m. split; reflexivity.
      + left. eexists. split; [reflexivity|]. simpl. tauto.
    - right. right. left. split; reflexivity.
    - destruct (extract_month question) as [m|].
      + do 3 right. left. split; [reflexivity|]. exists m.
        split; reflexivity.
      + left. eexists. split; [reflexivity|]. simpl. tauto.
    - do 4 right. left. split; reflexivity.
    - destruct (extract_month question) as [m|].
      + do 5 right. left. split; [reflexivity|]. exists m.
        split; reflexivity.
      + left. eexists. split; [reflexivity|]. simpl. tauto.
    - destruct cash as [cash_|].
      + do 6 right. split; [reflexivity|]. exists cash_. split; reflexivity.
      + left. eexists. split; [reflexivity|]. simpl. tauto.
    - left. eexists. split; [reflexivity|]. simpl. tauto. }
  split; [exact Hmain|]. split; [exact Hwith|]. split.
  - intros E.
    destruct Hmain as [(t & Ht & Hin) | Hmain].
    + rewrite E in Ht. inversion Ht; subst t. simpl in Hin.
      repeat (destruct Hin as [Hin | Hin]; [discriminate Hin|]).
      exact Hin.
    + repeat (destruct Hmain as [Hmain | Hmain]; [| ]);
        repeat match goal with
               | H : _ /\ _ |- _ => destruct H
               | H : exists _, _ |- _ => destruct H
               end;
        match goal with
        | H : r = with_chart ?x |- _ =>
            rewrite E in H; symmetry in H;
            exact (proj1 (Hwith x) _ H)
        end.
  - intros Hne. pose proof (classify_intent_in_tags question) as Htag.
    fold intent in Htag. unfold intent_tags in Htag.
    unfold INTENT_FUNCTION_MAP_keys. simpl in *.
    repeat (destruct Htag as [Htag | Htag]; [tauto|]).
    destruct Htag as [Htag | []]. congruence.
Qed.

(** ** [parse_month_year] on any text *)

Lemma is_blank_cons (c : ascii) (ws : string) :
  is_blank (String c ws)
  = Month.is_space c && match ws with
                        | EmptyString => true
                        | _ => is_blank ws
                        end.
Proof. destruct ws; simpl; now rewrite ?andb_true_r. Qed.

Lemma spaces_year_complete (ws year : string) (seen : bool) :
  is_blank ws = true -> four_digits year ->
  Month.spaces_year seen (ws ++ year)%string = Some (year_value year).
Proof.
  intros Hws (d1 & d2 & d3 & d4 & -> & H1 & H2 & H3 & H4).
  revert seen. induction ws as [|c ws IH]; intros seen; [discriminate|].
  rewrite is_blank_cons in Hws. apply andb_true_iff in Hws.
  destruct Hws as [Hc Hrest]. cbn [append Month.spaces_year]. rewrite Hc.
  destruct ws as [|c' ws].
  - cbn [append Month.spaces_year].
    rewrite (is_digit_not_space d1 H1), H1, H2, H3, H4. reflexivity.
  - now apply IH.
Qed.

Lemma spaces_year_sound (tl : string) (seen : bool) (y : nat) :
  Month.spaces_year seen tl = Some y ->
  exists ws year,
    tl = (ws ++ year)%string /\ four_digits year /\ y = year_value year
    /\ (is_blank ws = true \/ (ws = EmptyString /\ seen = true)).
Proof.
  revert seen. induction tl as [|c tl IH]; intros seen; [discriminate|].
  cbn [Month.spaces_year]. destruct (Month.is_space c) eqn:Hc.
  - intros H. destruct (IH true H) as (ws & year & -> & Hy & -> & Hws).
    exists (String c ws), year. repeat split; auto. left.
    rewrite is_blank_cons, Hc. destruct Hws as [Hb | [-> _]]; [|reflexivity].
    destruct ws; [discriminate | exact Hb].
  - destruct seen; [|discriminate].
    destruct tl as [|d2 [|d3 [|d4 [|x tl]]]]; try discriminate.
    destruct (Month.is_digit c && Month.is_digit d2 && Month.is_digit d3
              && Month.is_digit d4) eqn:Hd; [|discriminate].
    rewrite !andb_true_iff in Hd. destruct Hd as [[[H1 H2] H3] H4].
    intros H. inversion H; subst y.
    exists EmptyString, (String c (String d2 (String d3 (String d4 "")))).
    repeat split; auto. exists c, d2, d3, d4. auto.
Qed.

Lemma strptime_BY_sound (alts : list string) (idx i y : nat) (text : string) :
  Month.strptime_BY alts idx text = Some (i, y) ->
  exists k name tl,
    nth_error alts k = Some name /\ i = idx + k
    /\ Month.strip_prefix_ci name text = Some tl
    /\ Month.spaces_year false tl = Some y.
Proof.
  revert idx. induction alts as [|n alts IH]; intros idx; [discriminate|].
  cbn [Month.strptime_BY].
  assert (Hrest : Month.strptime_BY alts (S idx) text = Some (i, y) ->
                  exists k name tl,
                    nth_error (n :: alts) k = Some name /\ i = idx + k
                    /\ Month.strip_prefix_ci name text = Some tl
                    /\ Month.spaces_year false tl = Some y).
  { intros H. destruct (IH _ H) as (k & name & tl & Hk & -> & Hs & Hy).
    exists (S k), name, tl. repeat split; auto; lia. }
  destruct (Month.strip_prefix_ci n text) as [tl|] eqn:Hs; [|exact Hrest].
  destruct (Month.spaces_year false tl) as [y'|] eqn:Hy; [|exact Hrest].
  intros H. inversion H; subst. exists 0, n, tl. repeat split; auto.
Qed.

Lemma year_value_pad4 (year : string) :
  four_digits year -> Month.pad4 (year_value year) = year.
Proof.
  intros (d1 & d2 & d3 & d4 & -> & H1 & H2 & H3 & H4). unfold year_value.
  rewrite pad4_digits by (now apply digit_val_small).
  now rewrite !digit_char_val.
Qed.

Lemma year_value_zero (year : string) :
  four_digits year -> (year_value year = 0 <-> year = "0000"%string).
Proof.
  intros (d1 & d2 & d3 & d4 & -> & H1 & H2 & H3 & H4). unfold year_value.
  split.
  - intros H.
    rewrite (digit_val_zero d1), (digit_val_zero d2), (digit_val_zero d3),
      (digit_val_zero d4); auto; lia.
  - intros H. inversion H. reflexivity.
Qed.

Lemma names_index (m : nat) (name : string) :
  nth_error Month.names (m - 1) = Some name -> m - 1 < 12.
Proof.
  intros H. change 12 with (length Month.names).
  apply nth_error_Some. congruence.
Qed.

(** X6. On a text of ASCII characters [parse_month_year] accepts
    exactly the texts made of a full English month name in any letter
    case, one or more white-space characters and four digits that are
    not all zero, with nothing before or after; it returns the year as
    [strftime] writes it (no leading zeros), a dash and the two-digit
    number of the month, and [None] on every other text. *)
Theorem parse_month_year_accepts (text s : string) :
  Str.is_ascii text = true ->
  (parse_month_year text = Some s <->
   exists m name name' ws year,
     nth_error Month.names (m - 1) = Some name /\ 1 <= m <= 12
     /\ Str.lower name' = Str.lower name
     /\ is_blank ws = true
     /\ four_digits year /\ year <> "0000"%string
     /\ text = (name' ++ ws ++ year)%string
     /\ s = (Month.year_text (year_value year) ++ "-" ++ Month.pad2 m)%string).
Proof.
  intros _. unfold parse_month_year. split.
  - destruct (Month.strptime_BY Month.names 1 text) as [[i y]|] eqn:E;
      [|discriminate].
    destruct (y =? 0)%nat eqn:Hy; [discriminate|].
    intros H.
    assert (Hs : s = (Month.year_text y ++ "-" ++ Month.pad2 i)%string)
      by congruence.
    clear H. subst s. apply Nat.eqb_neq in Hy.
    apply strptime_BY_sound in E.
    destruct E as (k & name & tl & Hk & -> & Hs & Hsy).
    apply strip_prefix_ci_split in Hs. destruct Hs as (name' & -> & Hl & _).
    apply spaces_year_sound in Hsy.
    destruct Hsy as (ws & year & -> & Hfour & -> & Hws).
    destruct Hws as [Hws | [_ Hf]]; [|discriminate].
    exists (1 + k), name, name', ws, year.
    replace (1 + k - 1) with k by lia.
    assert (k < 12).
    { change 12 with (length Month.names). apply nth_error_Some. congruence. }
    repeat split; auto; try lia.
    intros E0. apply Hy. now apply year_value_zero.
  - intros (m & name & name' & ws & year & Hk & Hm & Hl & Hws & Hfour & Hy0
            & -> & ->).
    rewrite (strptime_BY_index Month.names 1 (m - 1) _ name
               (ws ++ year)%string (year_value year)).
    + replace (1 + (m - 1)) with m by lia.
      destruct (year_value year =? 0)%nat eqn:E; [|reflexivity].
      apply Nat.eqb_eq in E. apply year_value_zero in E; auto.
      contradiction.
    + apply names_NoDup.
    + exact Hk.
    + intros n t Hin Ht. eapply names_unique; eauto.
      * eapply nth_error_In; eauto.
      * now apply strip_prefix_ci_app.
    + now apply strip_prefix_ci_app.
    + now apply spaces_year_complete.
Qed.

Lemma parse_month_year_accepts_witness :
  parse_month_year "jUNE   2024" = Some "2024-06"%string
  /\ parse_month_year "June 0999" = Some "999-06"%string.
Proof.
  split.
  - apply (proj2 (parse_month_year_accepts "jUNE   2024" "2024-06" eq_refl)).
    exists 6, "June"%string, "jUNE"%string, "   "%string, "2024"%string.
    repeat split; try reflexivity; try lia; try discriminate.
    exists "2"%char, "0"%char, "2"%char, "4"%char. repeat split; reflexivity.
  - apply (proj2 (parse_month_year_accepts "June 0999" "999-06" eq_refl)).
    exists 6, "June"%string, "June"%string, " "%string, "0999"%string.
    repeat split; try reflexivity; try lia; try discriminate.
    exists "0"%char, "9"%char, "9"%char, "9"%char. repeat split; reflexivity.
Defined.

Lemma year_value_bound (year : string) :
  four_digits year -> year_value year < 10 * 1000.
Proof.
  intros (d1 & d2 & d3 & d4 & -> & H1 & H2 & H3 & H4).
  pose proof (digit_val_small _ H1). pose proof (digit_val_small _ H2).
  pose proof (digit_val_small _ H3). pose proof (digit_val_small _ H4).
  unfold year_value. lia.
Qed.

(** X7. A month that [run_agent] extracts from a question of ASCII
    characters is a year from 1 to 9999 written without leading zeros,
    a dash and a month number from 01 to 12: between four and seven
    characters, seven exactly when the year is 1000 or later, and only
    then a month text of the form YYYY-MM.  It is what [parse_month_year]
    makes of the first token of the question. *)
Theorem extract_month_well_formed (q s : string) :
  Str.is_ascii q = true ->
  extract_month q = Some s ->
  exists y m,
    1 <= y < 10 * 1000 /\ 1 <= m <= 12
    /\ s = (Month.year_text y ++ "-" ++ Month.pad2 m)%string
    /\ 4 <= String.length s <= 7
    /\ (String.length s = 7 <-> 1000 <= y)
    /\ (month_text s <-> 1000 <= y)
    /\ exists tok year,
         first_token q tok m year /\ y = year_value year
         /\ parse_month_year tok = Some s.
Proof.
  intros _. unfold extract_month.
  destruct (Month.search q) as [tok|] eqn:Hs; [|discriminate].
  intros Hp. destruct (search_sound _ _ Hs) as (m & year & Hfirst).
  pose proof Hfirst as (pre & post & _ & Htok & _).
  pose proof Hp as Hp'. rewrite (parse_month_year_token _ _ _ Htok) in Hp'.
  destruct (String.eqb year "0000") eqn:E0; [discriminate|].
  apply String.eqb_neq in E0.
  assert (Hs' : s = (Month.year_text (year_value year) ++ "-"
                     ++ Month.pad2 m)%string) by congruence.
  clear Hp'.
  destruct Htok as (name & name' & Hk & Hm & _ & _ & Hfour).
  pose proof (names_index _ _ Hk) as Hidx.
  pose proof (year_value_bound _ Hfour) as Hub.
  assert (Hlb : 1 <= year_value year).
  { destruct (year_value year) eqn:E; [|lia].
    apply (year_value_zero _ Hfour) in E. contradiction. }
  assert (Hlen : String.length s
                 = String.length (Month.year_text (year_value year)) + 3).
  { rewrite Hs', length_month_text.
    change (String.length (Month.pad2 m)) with 2. lia. }
  assert (Hseven : String.length s = 7 <-> 1000 <= year_value year).
  { rewrite Hlen, year_text_length.
    repeat match goal with
           | |- context [(?a <? ?b)%nat] => destruct (Nat.ltb_spec a b)
           end; lia. }
  exists (year_value year), m.
  split; [lia|]. split; [lia|]. split; [exact Hs'|].
  split; [|split; [exact Hseven|split]].
  - rewrite Hlen, year_text_length.
    repeat match goal with
           | |- context [(?a <? ?b)%nat] => destruct (Nat.ltb_spec a b)
           end; lia.
  - split.
    + intros (year' & m' & Hs'' & (d1 & d2 & d3 & d4 & -> & _) & _ & _).
      apply Hseven. rewrite Hs'', length_month_text. reflexivity.
    + intros Hge. exists year, m.
      rewrite Hs', year_text_full; auto; [repeat split; auto; lia|].
      destruct (Str.startswith year "0") eqn:Ez; [|reflexivity].
      apply (leading_zero _ Hfour) in Ez. lia.
  - exists tok, year. auto.
Qed.

Lemma extract_month_well_formed_witness :
  exists y m,
    "999-06"%string = (Month.year_text y ++ "-" ++ Month.pad2 m)%string
    /\ String.length "999-06" <> 7.
Proof.
  destruct (extract_month_well_formed "Opex in jUNE 0999" "999-06")
    as (y & m & _ & _ & Hs & _ & Hseven & _); [reflexivity|reflexivity|].
  exists y, m. split; [exact Hs|]. discriminate.
Defined.

(** ** The normalizer, row by row *)

Lemma convert_to_usd_app (a b : list FinancialRecord) (fx : list FxRate) :
  convert_to_usd (a ++ b) fx = convert_to_usd a fx ++ convert_to_usd b fx.
Proof.
  rewrite !convert_to_usd_refines. unfold convert_to_usd_spec.
  now rewrite filter_app, map_app.
Qed.

Lemma filter_filter_comm {A : Type} (p q : A -> bool) (l : list A) :
  filter p (filter q l) = filter q (filter p l).
Proof.
  induction l as [|x l IH]; simpl; auto.
  destruct (p x) eqn:Hp, (q x) eqn:Hq; simpl; rewrite ?Hp, ?Hq, IH; auto.
Qed.

Lemma filter_idempotent {A : Type} (p : A -> bool) (l : list A) :
  filter p (filter p l) = filter p l.
Proof.
  induction l as [|x l IH]; simpl; auto.
  destruct (p x) eqn:Hp; simpl; rewrite ?Hp, IH; auto.
Qed.

Lemma filter_map_base (fx : list FxRate) (P' : NormalizedRecord -> bool)
    (P : FinancialRecord -> bool) (l : list FinancialRecord) :
  (forall n, P' n = P (base n)) ->
  filter P' (map (normalized fx) l) = map (normalized fx) (filter P l).
Proof.
  intros HP. induction l as [|r l IH]; simpl; auto.
  rewrite HP. simpl. destruct (P r); simpl; now rewrite IH.
Qed.

(** Selecting normalized rows by their record is selecting the records
    first. *)
Lemma filter_convert_to_usd (P' : NormalizedRecord -> bool)
    (P : FinancialRecord -> bool) (df : list FinancialRecord)
    (fx : list FxRate) :
  (forall n, P' n = P (base n)) ->
  filter P' (convert_to_usd df fx) = convert_to_usd (filter P df) fx.
Proof.
  intros HP. rewrite !convert_to_usd_refines. unfold convert_to_usd_spec.
  rewrite (filter_map_base fx P' P _ HP). f_equal.
  apply filter_filter_comm.
Qed.

Lemma filter_convert_filter (P' : NormalizedRecord -> bool)
    (P : FinancialRecord -> bool) (df : list FinancialRecord)
    (fx : list FxRate) :
  (forall n, P' n = P (base n)) ->
  filter P' (convert_to_usd (filter P df) fx)
  = filter P' (convert_to_usd df fx).
Proof.
  intros HP. rewrite !(filter_convert_to_usd P' P _ _ HP).
  now rewrite filter_idempotent.
Qed.

Lemma find_app {A : Type} (p : A -> bool) (l l' : list A) :
  find p (l ++ l') = match find p l with
                     | Some x => Some x
                     | None => find p l'
                     end.
Proof.
  induction l as [|x l IH]; simpl; auto. now destruct (p x).
Qed.

Lemma convertible_more_rates (fx extra : list FxRate) (r : FinancialRecord) :
  convertible fx r = true ->
  convertible (fx ++ extra) r = true
  /\ normalized (fx ++ extra) r = normalized fx r.
Proof.
  unfold convertible, normalized, rate_of, first_rate.
  rewrite find_app. rewrite !andb_true_iff. intros [H Hf].
  destruct (find _ fx) as [f|]; [|discriminate]. auto.
Qed.

Lemma filter_implied {A : Type} (p q : A -> bool) (l : list A) :
  (forall x, p x = true -> q x = true) ->
  filter p (filter q l) = filter p l.
Proof.
  intros H. induction l as [|x l IH]; simpl; auto.
  destruct (q x) eqn:Hq; simpl.
  - destruct (p x); now rewrite IH.
  - destruct (p x) eqn:Hp; [|exact IH].
    apply H in Hp. congruence.
Qed.

(** X8. The normalizer works record by record and a rate is never
    overridden by a later row.  The normalized table of two tables one
    after the other is the two normalized tables one after the other; a
    record is never duplicated, whatever duplicates the rate table
    holds, and every normalized row carries a record of the input.
    Rate rows added after the others only add converted records: the
    records converted before keep their rate and their amount. *)
Theorem convert_to_usd_rowwise (df df' : list FinancialRecord)
    (fx extra : list FxRate) :
  convert_to_usd (df ++ df') fx
  = convert_to_usd df fx ++ convert_to_usd df' fx
  /\ length (convert_to_usd df fx) <= length df
  /\ (forall n, In n (convert_to_usd df fx) -> In (base n) df)
  /\ map base (convert_to_usd df fx) = filter (convertible fx) df
  /\ convert_to_usd df fx
     = filter (fun n => convertible fx (base n))
              (convert_to_usd df (fx ++ extra)).
Proof.
  split; [apply convert_to_usd_app|].
  assert (Hbase : map base (convert_to_usd df fx) = filter (convertible fx) df).
  { rewrite convert_to_usd_refines. unfold convert_to_usd_spec.
    rewrite map_map. simpl. apply map_id. }
  split; [|split; [|split; [exact Hbase|]]].
  - rewrite <- (length_map base), Hbase. apply filter_length_le.
  - intros n Hn. apply (in_map base) in Hn. rewrite Hbase in Hn.
    apply filter_In in Hn. tauto.
  - rewrite !convert_to_usd_refines. unfold convert_to_usd_spec.
    rewrite (filter_map_base (fx ++ extra) _ (convertible fx))
      by reflexivity.
    rewrite filter_implied
      by (intros r Hr; now apply convertible_more_rates).
    apply map_ext_in. intros r Hr. apply filter_In in Hr.
    symmetry. now apply convertible_more_rates.
Qed.

(** ** Which rows an answer depends on *)

(** X9. Each metric function reads only the rows its question is about:
    on the table cut down to those rows it returns what it returns on
    the whole table.  Revenue vs Budget reads the Revenue rows of the
    month and the entity, Opex Breakdown the rows of the month and the
    entity whose category starts with Opex, EBITDA vs Budget the rows of
    the month and the entity, and the two trends and Cash Runway the
    rows of the entity; rows of other entities never change an answer
    (the cash table apart, which Cash Runway reads whole). *)
Theorem metric_functions_read_their_rows (m e : string)
    (actuals budget : list FinancialRecord) (fx : list FxRate)
    (cash : list CashRecord) :
  get_revenue_vs_budget m e (rows_of_revenue m e actuals)
    (rows_of_revenue m e budget) fx
  = get_revenue_vs_budget m e actuals budget fx
  /\ get_opex_breakdown1 m e (rows_of_opex m e actuals) fx
     = get_opex_breakdown1 m e actuals fx
  /\ get_ebitda_vs_budget m e (rows_of_slice m e actuals)
       (rows_of_slice m e budget) fx
     = get_ebitda_vs_budget m e actuals budget fx
  /\ get_gross_margin_trend1 (rows_of_entity e actuals) fx e
     = get_gross_margin_trend1 actuals fx e
  /\ get_ebitda_trend (rows_of_entity e actuals) fx e
     = get_ebitda_trend actuals fx e
  /\ get_cash_runway cash (rows_of_entity e actuals) fx e
     = get_cash_runway cash actuals fx e.
Proof.
  repeat match goal with |- _ /\ _ => split end.
  - unfold get_revenue_vs_budget, revenue_rows, rows_of_revenue.
    now rewrite !(fun df =>
      filter_convert_filter
        (fun r => in_month m r && of_entity e r && is_category "Revenue" r)
        (fun r => cell_is (month r) m && String.eqb (entity r) e
                  && String.eqb (account_category r) "Revenue")
        df fx (fun n => eq_refl)).
  - unfold get_opex_breakdown1, opex_rows, rows_of_opex.
    now rewrite (filter_convert_filter
                   (fun r => in_month m r && of_entity e r && is_opex r)
                   (fun r => cell_is (month r) m && String.eqb (entity r) e
                             && Str.startswith (account_category r) "Opex")
                   actuals fx (fun n => eq_refl)).
  - unfold get_ebitda_vs_budget, slice_rows, rows_of_slice.
    now rewrite !(fun df =>
      filter_convert_filter
        (fun r => in_month m r && of_entity e r)
        (fun r => cell_is (month r) m && String.eqb (entity r) e)
        df fx (fun n => eq_refl)).
  - unfold get_gross_margin_trend1, rows_of_entity.
    now rewrite (filter_convert_filter (of_entity e)
                   (fun r => String.eqb (entity r) e) actuals fx
                   (fun n => eq_refl)).
  - unfold get_ebitda_trend, rows_of_entity.
    now rewrite (filter_convert_filter (of_entity e)
                   (fun r => String.eqb (entity r) e) actuals fx
                   (fun n => eq_refl)).
  - unfold get_cash_runway, rows_of_entity.
    now rewrite (filter_convert_filter (of_entity e)
                   (fun r => String.eqb (entity r) e) actuals fx
                   (fun n => eq_refl)).
Qed.

(** ** Sums *)

Lemma sum_usd_from (l : list NormalizedRecord) (a : Q) :
  (fold_left (fun acc r => match amount_usd r with
                           | Some x => (acc + x)%Q
                           | None => acc
                           end) l a
   == a + sum_usd l)%Q.
Proof.
  unfold sum_usd. revert a. induction l as [|r l IH]; intros a; simpl.
  - ring.
  - rewrite IH. rewrite (IH (match amount_usd r with
                             | Some x => (0 + x)%Q
                             | None => 0%Q
                             end)).
    destruct (amount_usd r); ring.
Qed.

Lemma sum_usd_cons (r : NormalizedRecord) (l : list NormalizedRecord) :
  (sum_usd (r :: l) == usd r + sum_usd l)%Q.
Proof.
  unfold sum_usd at 1. simpl. rewrite sum_usd_from. unfold usd.
  destruct (amount_usd r); ring.
Qed.

Lemma sum_usd_app (a b : list NormalizedRecord) :
  (sum_usd (a ++ b) == sum_usd a + sum_usd b)%Q.
Proof.
  induction a as [|r a IH].
  - simpl. change (sum_usd []) with 0%Q. ring.
  - change ((r :: a) ++ b) with (r :: (a ++ b)).
    rewrite !sum_usd_cons, IH. ring.
Qed.

Lemma sum_usd_filter_cons (p : NormalizedRecord -> bool)
    (r : NormalizedRecord) (l : list NormalizedRecord) :
  (sum_usd (filter p (r :: l))
   == (if p r then usd r else 0) + sum_usd (filter p l))%Q.
Proof.
  simpl. destruct (p r); [apply sum_usd_cons | ring].
Qed.

(** Two selections that share no row: their sums add. *)
Lemma sum_usd_filter_or (p q : NormalizedRecord -> bool)
    (l : list NormalizedRecord) :
  (forall r, p r = true -> q r = false) ->
  (sum_usd (filter (fun r => p r || q r) l)
   == sum_usd (filter p l) + sum_usd (filter q l))%Q.
Proof.
  intros Hpq. induction l as [|r l IH].
  - simpl. change (sum_usd []) with 0%Q. ring.
  - rewrite !sum_usd_filter_cons, IH.
    destruct (p r) eqn:Hp; [rewrite (Hpq r Hp)|]; simpl;
      [|destruct (q r)]; ring.
Qed.

Lemma filter_filter_and {A : Type} (p q : A -> bool) (l : list A) :
  filter p (filter q l) = filter (fun x => q x && p x) l.
Proof.
  induction l as [|x l IH]; simpl; auto.
  destruct (q x); simpl; [destruct (p x)|]; now rewrite IH.
Qed.

(** ** EBITDA, row by row *)

Lemma category_exclusive (r : NormalizedRecord) :
  (is_category "Revenue" r = true ->
   is_category "COGS" r = false /\ is_opex r = false)
  /\ (is_category "COGS" r = true -> is_opex r = false).
Proof.
  unfold is_category, is_opex. split; intros H; apply String.eqb_eq in H;
    rewrite H; auto.
Qed.

Lemma compute_ebitda_cons (r : NormalizedRecord)
    (df : list NormalizedRecord) :
  (compute_ebitda (r :: df) == ebitda_sign r * usd r + compute_ebitda df)%Q.
Proof.
  unfold compute_ebitda. rewrite !sum_usd_filter_cons. unfold ebitda_sign.
  destruct (category_exclusive r) as [Hrev Hcogs].
  destruct (is_category "Revenue" r) eqn:E1.
  - destruct (Hrev eq_refl) as [-> ->]. ring.
  - destruct (is_category "COGS" r) eqn:E2.
    + rewrite (Hcogs eq_refl). simpl. ring.
    + destruct (is_opex r); simpl; ring.
Qed.

(** X10. EBITDA counts every row exactly once: a Revenue row adds its
    USD amount, a COGS row and a row whose category starts with Opex
    subtract it, a row of any other category is ignored.  So the EBITDA
    of two tables together is the sum of their EBITDAs, and of no rows
    it is zero.  In EBITDA vs Budget the revenue is the figure of
    Revenue vs Budget and the Opex is the sum over the rows of Opex
    Breakdown; the net burn of a month in Cash Runway is minus the
    EBITDA of the rows of that month. *)
Theorem compute_ebitda_rowwise (r : NormalizedRecord)
    (df df' : list NormalizedRecord) (m e : string) :
  compute_ebitda [] = 0%Q
  /\ (compute_ebitda (r :: df) == ebitda_sign r * usd r + compute_ebitda df)%Q
  /\ (compute_ebitda (df ++ df') == compute_ebitda df + compute_ebitda df')%Q
  /\ compute_ebitda (slice_rows m e df)
     = (sum_usd (revenue_rows m e df)
        - sum_usd (filter (is_category "COGS") (slice_rows m e df))
        - sum_usd (opex_rows m e df))%Q
  /\ (burn_of df m == - compute_ebitda (filter (in_month m) df))%Q.
Proof.
  split; [reflexivity|]. split; [apply compute_ebitda_cons|].
  split; [|split].
  - induction df as [|x df IH].
    + simpl. change (compute_ebitda []) with 0%Q. ring.
    + change ((x :: df) ++ df') with (x :: (df ++ df')).
      rewrite !compute_ebitda_cons, IH. ring.
  - unfold compute_ebitda, slice_rows, revenue_rows, opex_rows.
    now rewrite !filter_filter_and.
  - unfold burn_of, compute_ebitda. ring.
Qed.

(** ** Sums by category *)

Lemma increasing_NoDup (l : list string) : increasing l -> NoDup l.
Proof.
  unfold increasing. induction 1 as [|x l Hl IH Hx]; constructor; auto.
  intros Hin. rewrite Forall_forall in Hx. specialize (Hx x Hin).
  rewrite ltb_irrefl in Hx. discriminate.
Qed.

Lemma filter_all {A : Type} (p : A -> bool) (l : list A) :
  (forall x, In x l -> p x = true) -> filter p l = l.
Proof.
  induction l as [|x l IH]; intros H; simpl; auto.
  rewrite (H x) by now left. f_equal. apply IH. intros y Hy. apply H.
  now right.
Qed.

(** The sums of the groups of distinct categories add up to the sum of
    the rows that belong to one of them. *)
Lemma total_by_category (cats : list string) (l : list NormalizedRecord) :
  NoDup cats ->
  (total (map (fun c => sum_usd (filter (is_category c) l)) cats)
   == sum_usd (filter (fun r => existsb (String.eqb (account_category (base r)))
                                        cats) l))%Q.
Proof.
  induction 1 as [|c cats Hc Hnd IH]; simpl.
  - assert (E : filter (fun _ : NormalizedRecord => false) l = [])
      by (induction l; auto).
    rewrite E. reflexivity.
  - rewrite IH.
    rewrite <- (sum_usd_filter_or (is_category c)
                  (fun r => existsb (String.eqb (account_category (base r)))
                                    cats)).
    + reflexivity.
    + intros r Hr. unfold is_category in Hr. apply String.eqb_eq in Hr.
      rewrite Hr. destruct (existsb (String.eqb c) cats) eqn:E; auto.
      apply existsb_eqb_In in E. contradiction.
Qed.

Lemma total_sum_by_category (l : list NormalizedRecord) :
  (total (map snd (sum_by_category l)) == sum_usd l)%Q.
Proof.
  unfold sum_by_category. rewrite map_map. cbn [snd].
  rewrite total_by_category
    by (apply increasing_NoDup, sorted_unique_increasing).
  rewrite filter_all; [reflexivity|].
  intros r Hr. apply existsb_eqb_In, In_sorted_unique.
  now apply (in_map (fun r => account_category (base r))).
Qed.

Lemma sum_by_category_keys (l : list NormalizedRecord) :
  map fst (sum_by_category l)
  = sorted_unique (map (fun r => account_category (base r)) l).
Proof. unfold sum_by_category. rewrite map_map. apply map_id. Qed.

(** X11. Opex Breakdown has one line and one bar per distinct category
    among the rows of the month and the entity whose category starts
    with Opex (a prefix: "Opex" alone or "Opex:Sales" alike), in
    increasing order of the category, each with the sum of its own rows;
    the amounts of the lines add up to the Opex that EBITDA vs Budget
    subtracts for the same month and entity.  With no such row the text
    is the heading alone and the chart has no bar. *)
Theorem get_opex_breakdown1_lines (m e : string)
    (actuals : list FinancialRecord) (fx : list FxRate) :
  let rows := opex_rows m e (convert_to_usd actuals fx) in
  exists summary c,
    get_opex_breakdown1 m e actuals fx
    = Ok (Str.join (String "010"%char "")
            (("Opex breakdown for " ++ m ++ " (" ++ e ++ "):")%string
             :: map (fun ca => (fst ca ++ ": $"
                                ++ Fmt.money (Num (snd ca)))%string)
                    summary), c)
    /\ xs c = map fst summary
    /\ ys c = map (fun ca => Num (snd ca)) summary
    /\ increasing (map fst summary)
    /\ (forall cat, In cat (map fst summary) <->
                    exists r, In r rows /\ account_category (base r) = cat)
    /\ (forall cat, In cat (map fst summary) ->
                    Str.startswith cat "Opex" = true)
    /\ (forall cat v, In (cat, v) summary ->
                      v = sum_usd (filter (is_category cat) rows))
    /\ (total (map snd summary)
        == sum_usd (filter is_opex
                      (slice_rows m e (convert_to_usd actuals fx))))%Q
    /\ (rows = [] -> summary = []).
Proof.
  intros rows. exists (sum_by_category rows). eexists.
  split; [reflexivity|]. split; [reflexivity|]. split; [reflexivity|].
  assert (Hkeys : forall cat,
            In cat (map fst (sum_by_category rows)) <->
            exists r, In r rows /\ account_category (base r) = cat).
  { intros cat. rewrite sum_by_category_keys, In_sorted_unique, in_map_iff.
    split; intros (r & H1 & H2); exists r; auto. }
  split; [|split; [exact Hkeys|split; [|split; [|split]]]].
  - rewrite sum_by_category_keys. apply sorted_unique_increasing.
  - intros cat Hcat. apply Hkeys in Hcat. destruct Hcat as (r & Hr & <-).
    unfold rows, opex_rows in Hr. apply filter_In in Hr.
    destruct Hr as [_ Hr]. rewrite !andb_true_iff in Hr. apply Hr.
  - intros cat v Hin. unfold sum_by_category in Hin.
    apply in_map_iff in Hin. destruct Hin as (c' & Hc & _).
    inversion Hc; subst. reflexivity.
  - rewrite total_sum_by_category. unfold rows, opex_rows, slice_rows.
    rewrite filter_filter_and. reflexivity.
  - intros ->. reflexivity.
Qed.

(** ** The points of the trend charts *)

Lemma reset_index_Ok (p p' : Pivot) : reset_index p = Ok p' -> p' = p.
Proof.
  unfold reset_index. destruct (existsb _ _); intros H; [discriminate|].
  now inversion H.
Qed.

Lemma getitem_pivot_table_Ok (df : list NormalizedRecord) (c : string)
    (col : list (option Q)) :
  getitem (pivot_table df) c = Ok col ->
  col = map (fun m => pivot_cell df m c) (sorted_unique (months_of df)).
Proof.
  unfold getitem, pivot_table. cbn [pv_columns].
  rewrite lookup_column_map.
  destruct (existsb _ _); intros H; [|discriminate]. now inversion H.
Qed.

Lemma combine_map_map {A B C : Type} (f : A -> B) (g : A -> C)
    (l : list A) :
  combine (map f l) (map g l) = map (fun x => (f x, g x)) l.
Proof. induction l as [|x l IH]; simpl; [|rewrite IH]; reflexivity. Qed.

Lemma pivot_cell_None (df : list NormalizedRecord) (m cat : string) :
  pivot_cell df m cat = None <->
  forall r, In r df -> in_month m r = true -> is_category cat r = false.
Proof.
  unfold pivot_cell.
  destruct (filter _ df) as [|r0 rows] eqn:E.
  - split; [|reflexivity]. intros _ r Hin Hm.
    destruct (is_category cat r) eqn:Hc; [|reflexivity].
    assert (Hr : In r (filter (fun r => in_month m r && is_category cat r)
                          df)).
    { apply filter_In. split; [exact Hin|]. now rewrite Hm, Hc. }
    rewrite E in Hr. destruct Hr.
  - split; [discriminate|]. intros H.
    assert (Hr : In r0 (filter (fun r => in_month m r && is_category cat r)
                           df)) by (rewrite E; now left).
    apply filter_In in Hr. destruct Hr as [Hin Hr].
    apply andb_true_iff in Hr. destruct Hr as [Hm Hc].
    rewrite (H r0 Hin Hm) in Hc. discriminate.
Qed.

Lemma pivot_cell_Some (df : list NormalizedRecord) (m cat : string) (v : Q) :
  pivot_cell df m cat = Some v ->
  v = sum_usd (filter (is_category cat) (filter (in_month m) df)).
Proof.
  unfold pivot_cell. rewrite filter_filter_and.
  destruct (filter _ df); intros H; [discriminate|]. now inversion H.
Qed.

(** X12. When Gross Margin Trend answers, its line has one point per
    distinct month of the entity's converted rows, months increasing;
    the value of a month is (R - C) / R * 100 on the month's Revenue and
    COGS sums, and a month whose rows lack Revenue or lack COGS is drawn
    as NaN (a gap), never left out and never counted as zero. *)
Theorem get_gross_margin_trend1_points (actuals : list FinancialRecord)
    (fx : list FxRate) (e t : string) (c : chart) :
  get_gross_margin_trend1 actuals fx e = Ok (t, c) ->
  let df := filter (of_entity e) (convert_to_usd actuals fx) in
  let point m := gross_margin_pct (pivot_cell df m "Revenue")
                                  (pivot_cell df m "COGS") in
  t = ("Gross Margin % Trend for " ++ e ++ ":")%string
  /\ xs c = sorted_unique (months_of df)
  /\ increasing (xs c)
  /\ (forall m, In m (xs c) <->
                exists r, In r df /\ month (base r) = Some m)
  /\ ys c = map point (xs c)
  /\ (forall m cat, pivot_cell df m cat = None <->
        forall r, In r df -> in_month m r = true ->
                  is_category cat r = false)
  /\ (forall m cat v, pivot_cell df m cat = Some v ->
        v = sum_usd (filter (is_category cat) (filter (in_month m) df)))
  /\ (forall m, In m (xs c) ->
        pivot_cell df m "Revenue" = None \/ pivot_cell df m "COGS" = None ->
        In (m, NaN) (combine (xs c) (ys c))).
Proof.
  intros H df point. unfold get_gross_margin_trend1 in H. fold df in H.
  destruct (reset_index (pivot_table df)) as [p|err] eqn:Ep;
    [|discriminate H].
  apply reset_index_Ok in Ep. subst p. cbn [bind] in H.
  destruct (getitem (pivot_table df) "Revenue") as [rev|err] eqn:Er;
    [|discriminate H].
  cbn [bind] in H.
  destruct (getitem (pivot_table df) "COGS") as [cogs|err] eqn:Ec;
    [|discriminate H].
  cbn [bind] in H.
  apply getitem_pivot_table_Ok in Er, Ec. subst rev cogs.
  unfold gross_margin_answer in H.
  assert (Ht : t = ("Gross Margin % Trend for " ++ e ++ ":")%string)
    by congruence.
  assert (Hc : c = {| kind := Line; xs := pv_month (pivot_table df);
                      ys := gross_margin_column
                              (map (fun m => pivot_cell df m "Revenue")
                                   (sorted_unique (months_of df)))
                              (map (fun m => pivot_cell df m "COGS")
                                   (sorted_unique (months_of df)));
                      title := ("Gross Margin % Trend - " ++ e)%string;
                      ylabel := "Gross Margin %" |}) by congruence.
  clear H. subst c. cbn [xs ys pivot_table pv_month].
  assert (Hys : gross_margin_column
                  (map (fun m => pivot_cell df m "Revenue")
                       (sorted_unique (months_of df)))
                  (map (fun m => pivot_cell df m "COGS")
                       (sorted_unique (months_of df)))
                = map point (sorted_unique (months_of df))).
  { unfold gross_margin_column. rewrite combine_map_map, map_map.
    reflexivity. }
  rewrite Hys.
  split; [exact Ht|]. split; [reflexivity|].
  split; [apply sorted_unique_increasing|].
  split; [intros m; rewrite In_sorted_unique; apply In_months_of|].
  split; [reflexivity|].
  split; [intros m cat; apply pivot_cell_None|].
  split; [intros m cat v; apply pivot_cell_Some|].
  intros m Hm Hnone.
  rewrite <- (map_id (sorted_unique (months_of df))) at 1.
  rewrite combine_map_map. apply in_map_iff. exists m. split; [|exact Hm].
  f_equal. unfold point.
  destruct Hnone as [-> | ->]; [reflexivity|].
  now destruct (pivot_cell df m "Revenue").
Qed.

Lemma get_gross_margin_trend1_points_witness :
  exists t c,
    get_gross_margin_trend1 trend_actuals trend_fx "ParentCo" = Ok (t, c)
    /\ xs c = ["2024-05"; "2024-06"]%string
    /\ Forall2 fnum_eq (ys c) [NaN; Num (700 / 11)%Q].
Proof.
  destruct (get_gross_margin_trend1 trend_actuals trend_fx "ParentCo")
    as [[t c]|err] eqn:E; [|vm_compute in E; discriminate E].
  exists t, c. split; [reflexivity|].
  destruct (get_gross_margin_trend1_points _ _ _ _ _ E)
    as (_ & Hx & _ & _ & Hy & _).
  rewrite Hy, Hx. split; [vm_compute; reflexivity|].
  repeat constructor; vm_compute; reflexivity.
Defined.

Lemma fnum_eq_refl (a : fnum) : fnum_eq a a.
Proof. destruct a; simpl; auto. reflexivity. Qed.

Lemma fnum_eq_trans (a b c : fnum) :
  fnum_eq a b -> fnum_eq b c -> fnum_eq a c.
Proof.
  destruct a, b, c; simpl; auto; try contradiction.
  intros H1 H2. now rewrite H1.
Qed.

Lemma Forall2_fnum_eq_trans (l1 l2 l3 : list fnum) :
  Forall2 fnum_eq l1 l2 -> Forall2 fnum_eq l2 l3 -> Forall2 fnum_eq l1 l3.
Proof.
  intros H. revert l3. induction H as [|a b l1 l2 Hab _ IH]; intros l3 H3.
  - inversion H3. constructor.
  - inversion H3 as [|b' c l2' l3' Hbc H3']; subst. constructor.
    + exact (fnum_eq_trans _ _ _ Hab Hbc).
    + apply IH, H3'.
Qed.

Lemma Forall2_map_same {A B : Type} (R : B -> B -> Prop) (f g : A -> B)
    (l : list A) :
  (forall x, In x l -> R (f x) (g x)) -> Forall2 R (map f l) (map g l).
Proof.
  induction l as [|x l IH]; intros H; simpl; constructor.
  - apply H. now left.
  - apply IH. intros y Hy. apply H. now right.
Qed.

Lemma filter_map_comm {A B : Type} (p : B -> bool) (f : A -> B)
    (l : list A) :
  filter p (map f l) = map f (filter (fun x => p (f x)) l).
Proof.
  induction l as [|x l IH]; simpl; auto.
  destruct (p (f x)); simpl; now rewrite IH.
Qed.

Lemma repeat_map {A B : Type} (b : B) (l : list A) :
  repeat b (length l) = map (fun _ => b) l.
Proof. induction l as [|x l IH]; simpl; [|rewrite IH]; reflexivity. Qed.

Lemma row_sums_pointwise (cell : string -> string -> option Q)
    (months cs : list string) (g : string -> Q) :
  fold_left
    (fun acc col =>
       map (fun ac => match snd ac with
                      | Some x => (fst ac + x)%Q
                      | None => fst ac
                      end) (combine acc col))
    (map (fun c => map (fun m => cell m c) months) cs) (map g months)
  = map (fun m => fold_left (fun a c => match cell m c with
                                        | Some x => (a + x)%Q
                                        | None => a
                                        end) cs (g m)) months.
Proof.
  revert g. induction cs as [|c cs IH]; intros g; simpl; [reflexivity|].
  rewrite combine_map_map, map_map. cbn [fst snd].
  apply (IH (fun m => match cell m c with
                      | Some x => (g m + x)%Q
                      | None => g m
                      end)).
Qed.

Lemma opex_total_column_pivot_table (df : list NormalizedRecord) :
  opex_total_column (pivot_table df)
  = map (fun m =>
           Num (fold_left
                  (fun a c => match pivot_cell df m c with
                              | Some x => (a + x)%Q
                              | None => a
                              end)
                  (filter (fun c => Str.startswith c "Opex")
                     (sorted_unique
                        (map (fun r => account_category (base r)) df)))
                  0%Q))
        (sorted_unique (months_of df)).
Proof.
  unfold opex_total_column, pivot_table. cbn [pv_columns pv_month].
  rewrite filter_map_comm. cbn [fst].
  set (months := sorted_unique (months_of df)).
  generalize (filter (fun c => Str.startswith c "Opex")
                (sorted_unique
                   (map (fun r => account_category (base r)) df))).
  intros cs.
  assert (Hsum : map Num (row_sums (length months)
                   (map snd (map (fun c => (c, map (fun m => pivot_cell df m c)
                                                  months)) cs)))
                 = map (fun m =>
                          Num (fold_left
                                 (fun a c => match pivot_cell df m c with
                                             | Some x => (a + x)%Q
                                             | None => a
                                             end) cs 0%Q)) months).
  { unfold row_sums. rewrite !map_map. cbn [snd]. rewrite repeat_map.
    rewrite (row_sums_pointwise (pivot_cell df) months cs (fun _ => 0%Q)).
    rewrite map_map. reflexivity. }
  destruct cs as [|c0 cs'].
  - simpl. rewrite repeat_map. reflexivity.
  - exact Hsum.
Qed.

Lemma opex_cells_sum (df : list NormalizedRecord) (m : string)
    (cs : list string) (a : Q) :
  (fold_left (fun a c => match pivot_cell df m c with
                         | Some x => (a + x)%Q
                         | None => a
                         end) cs a
   == a + total (map (fun c => sum_usd (filter (is_category c)
                                          (filter (in_month m) df))) cs))%Q.
Proof.
  revert a. induction cs as [|c cs IH]; intros a; simpl.
  - ring.
  - rewrite IH. destruct (pivot_cell df m c) as [v|] eqn:E.
    + apply pivot_cell_Some in E. subst v. ring.
    + assert (Hnil : filter (is_category c) (filter (in_month m) df) = []).
      { rewrite filter_filter_and. unfold pivot_cell in E.
        destruct (filter (fun r => in_month m r && is_category c r) df);
          [reflexivity|discriminate E]. }
      rewrite Hnil. unfold sum_usd. simpl. ring.
Qed.

Lemma opex_cells_total (df : list NormalizedRecord) (m : string) :
  (fold_left (fun a c => match pivot_cell df m c with
                         | Some x => (a + x)%Q
                         | None => a
                         end)
     (filter (fun c => Str.startswith c "Opex")
        (sorted_unique (map (fun r => account_category (base r)) df)))
     0
   == sum_usd (filter is_opex (filter (in_month m) df)))%Q.
Proof.
  rewrite opex_cells_sum, total_by_category.
  - rewrite Qplus_0_l.
    rewrite (filter_ext_in
               (fun r => existsb (String.eqb (account_category (base r)))
                           (filter (fun c => Str.startswith c "Opex")
                              (sorted_unique
                                 (map (fun r => account_category (base r))
                                      df))))
               is_opex); [reflexivity|].
    intros r Hr. apply filter_In in Hr. destruct Hr as [Hr _].
    unfold is_opex.
    destruct (Str.startswith (account_category (base r)) "Opex") eqn:Eo.
    + apply existsb_eqb_In. apply filter_In. split; [|exact Eo].
      apply In_sorted_unique. apply in_map_iff. exists r.
      split; [reflexivity|exact Hr].
    + destruct (existsb _ _) eqn:Ex; [|reflexivity].
      apply existsb_eqb_In in Ex. apply filter_In in Ex.
      destruct Ex as [_ Ex]. congruence.
  - apply NoDup_filter, increasing_NoDup, sorted_unique_increasing.
Qed.

Lemma slice_rows_entity_month (m e : string) (df : list NormalizedRecord) :
  slice_rows m e df = filter (in_month m) (filter (of_entity e) df).
Proof.
  unfold slice_rows. rewrite filter_filter_and. apply filter_ext.
  intros r. apply andb_comm.
Qed.

(** X13. When EBITDA Trend answers, its line has one point per distinct
    month of the entity's converted rows.  In a month that holds a
    Revenue row and a COGS row the point is the amount EBITDA vs Budget
    reports as actual for that month and entity (Revenue - COGS - the sum
    over every category that starts with Opex, whatever the number of
    such categories, none included); in a month that lacks Revenue or
    lacks COGS the point is NaN, where EBITDA vs Budget counts the
    missing part as zero. *)
Theorem get_ebitda_trend_points (actuals : list FinancialRecord)
    (fx : list FxRate) (e t : string) (c : chart) :
  get_ebitda_trend actuals fx e = Ok (t, c) ->
  let usd_rows := convert_to_usd actuals fx in
  let df := filter (of_entity e) usd_rows in
  t = ("EBITDA trend for " ++ e ++ " over time.")%string
  /\ xs c = sorted_unique (months_of df)
  /\ length (ys c) = length (xs c)
  /\ Forall2 fnum_eq (ys c)
       (map (fun m =>
               match pivot_cell df m "Revenue", pivot_cell df m "COGS" with
               | Some _, Some _ => Num (compute_ebitda (slice_rows m e usd_rows))
               | _, _ => NaN
               end) (xs c))
  /\ (forall y, In y (ys c) -> y <> PosInf /\ y <> NegInf).
Proof.
  intros H usd_rows df. unfold get_ebitda_trend in H.
  fold usd_rows in H. fold df in H.
  destruct (reset_index (pivot_table df)) as [p|err] eqn:Ep;
    [|discriminate H].
  apply reset_index_Ok in Ep. subst p. cbn [bind] in H.
  destruct (getitem (pivot_table df) "Revenue") as [rev|err] eqn:Er;
    [|discriminate H].
  cbn [bind] in H.
  destruct (getitem (pivot_table df) "COGS") as [cogs|err] eqn:Ec;
    [|discriminate H].
  cbn [bind] in H.
  apply getitem_pivot_table_Ok in Er, Ec. subst rev cogs.
  rewrite opex_total_column_pivot_table in H.
  unfold ebitda_column, ebitda_trend_answer in H.
  rewrite !combine_map_map, map_map in H. cbn [fst snd] in H.
  assert (Ht : t = ("EBITDA trend for " ++ e ++ " over time.")%string)
    by congruence.
  set (months := sorted_unique (months_of df)) in *.
  set (point := fun m : string => ebitda_row _ _ _) in H.
  assert (Hc : c = {| kind := Line; xs := pv_month (pivot_table df);
                      ys := map point months;
                      title := ("EBITDA Trend - " ++ e)%string;
                      ylabel := "USD" |}) by congruence.
  clear H. subst c. cbn [xs ys pivot_table pv_month]. fold months.
  split; [exact Ht|]. split; [reflexivity|].
  split; [apply length_map|]. split.
  - apply Forall2_map_same. intros m _. unfold point.
    destruct (pivot_cell df m "Revenue") as [r|] eqn:Er; [|exact I].
    destruct (pivot_cell df m "COGS") as [cg|] eqn:Ec; [|exact I].
    cbn [ebitda_row fnum_eq]. apply pivot_cell_Some in Er, Ec. subst r cg.
    rewrite opex_cells_total. unfold compute_ebitda.
    rewrite slice_rows_entity_month. fold usd_rows. fold df. reflexivity.
  - intros y Hy. apply in_map_iff in Hy. destruct Hy as (m & <- & _).
    unfold point, ebitda_row.
    destruct (pivot_cell df m "Revenue"), (pivot_cell df m "COGS");
      split; discriminate.
Qed.

Lemma get_ebitda_trend_points_witness :
  exists t c,
    get_ebitda_trend trend_actuals trend_fx "ParentCo" = Ok (t, c)
    /\ xs c = ["2024-05"; "2024-06"]%string
    /\ Forall2 fnum_eq (ys c) [NaN; Num 550%Q].
Proof.
  destruct (get_ebitda_trend trend_actuals trend_fx "ParentCo")
    as [[t c]|err] eqn:E; [|vm_compute in E; discriminate E].
  exists t, c. split; [reflexivity|].
  destruct (get_ebitda_trend_points _ _ _ _ _ E) as (_ & Hx & _ & Hy & _).
  split; [rewrite Hx; vm_compute; reflexivity|].
  rewrite Hx in Hy.
  assert (Hm : sorted_unique
                 (months_of (filter (of_entity "ParentCo")
                               (convert_to_usd trend_actuals trend_fx)))
               = ["2024-05"; "2024-06"]%string) by (vm_compute; reflexivity).
  rewrite Hm in Hy. cbn [map] in Hy.
  apply (Forall2_fnum_eq_trans _ _ _ Hy).
  constructor; [vm_compute; exact I|].
  constructor; [vm_compute; reflexivity|constructor].
Defined.

(** ** The page *)

Lemma concat_starts (sep h : string) (rest : list string) :
  exists tl, String.concat sep (h :: rest) = (h ++ tl)%string.
Proof.
  destruct rest as [|x rest]; simpl.
  - exists ""%string. induction h as [|a h IH]; simpl; [|rewrite <- IH];
      reflexivity.
  - eexists. reflexivity.
Qed.

(** The text of a metric function is none of the guidance texts. *)
Lemma metric_texts_not_guidance (m e : string)
    (actuals budget : list FinancialRecord) (fx : list FxRate)
    (cash : list CashRecord) :
  (exists t c, get_revenue_vs_budget m e actuals budget fx = Ok (t, c)
               /\ ~ In t guidance_texts)
  /\ (exists t c, get_opex_breakdown1 m e actuals fx = Ok (t, c)
                  /\ ~ In t guidance_texts)
  /\ (exists t c, get_ebitda_vs_budget m e actuals budget fx = Ok (t, c)
                  /\ ~ In t guidance_texts)
  /\ (forall t c, get_gross_margin_trend1 actuals fx e = Ok (t, c) ->
                  ~ In t guidance_texts)
  /\ (forall t c, get_ebitda_trend actuals fx e = Ok (t, c) ->
                  ~ In t guidance_texts)
  /\ (forall t c, get_cash_runway cash actuals fx e = Ok (t, c) ->
                  ~ In t guidance_texts).
Proof.
  assert (Hng : forall t : string,
            (exists a rest, t = String a rest
                            /\ (a = "R" \/ a = "G" \/ a = "O" \/ a = "E")%char)
            \/ (exists rest, t = ("Cash R" ++ rest)%string) ->
            ~ In t guidance_texts).
  { intros t [(a & rest & -> & Ha) | (rest & ->)];
      unfold guidance_texts; cbn [In append]; intros H.
    - destruct Ha as [-> | [-> | [-> | ->]]];
        repeat (destruct H as [H|H]; [discriminate H|]); exact H.
    - repeat (destruct H as [H|H]; [discriminate H|]). exact H. }
  split; [|split; [|split; [|split; [|split]]]].
  - do 2 eexists. split; [reflexivity|]. cbn [append].
    apply Hng. left. do 2 eexists. split; [reflexivity|]. auto 6.
  - unfold get_opex_breakdown1, opex_breakdown_answer, Str.join.
    destruct (concat_starts (String "010"%char "")
                ("Opex breakdown for " ++ m ++ " (" ++ e ++ "):")%string
                (map (fun ca => (fst ca ++ ": $"
                                 ++ Fmt.money (Num (snd ca)))%string)
                     (sum_by_category
                        (opex_rows m e (convert_to_usd actuals fx)))))
      as [tl Htl].
    do 2 eexists. split; [reflexivity|]. rewrite Htl. cbn [append].
    apply Hng. left. do 2 eexists. split; [reflexivity|]. auto 6.
  - do 2 eexists. split; [reflexivity|]. cbn [append].
    apply Hng. left. do 2 eexists. split; [reflexivity|]. auto 6.
  - intros t c H. unfold get_gross_margin_trend1 in H.
    destruct (reset_index _); [|discriminate H]. cbn [bind] in H.
    destruct (getitem _ "Revenue"); [|discriminate H]. cbn [bind] in H.
    destruct (getitem _ "COGS"); [|discriminate H]. cbn [bind] in H.
    unfold gross_margin_answer in H.
    assert (Ht : t = ("Gross Margin % Trend for " ++ e ++ ":")%string)
      by congruence.
    subst t. cbn [append]. apply Hng. left.
    do 2 eexists. split; [reflexivity|]. auto 6.
  - intros t c H. unfold get_ebitda_trend in H.
    destruct (reset_index _); [|discriminate H]. cbn [bind] in H.
    destruct (getitem _ "Revenue"); [|discriminate H]. cbn [bind] in H.
    destruct (getitem _ "COGS"); [|discriminate H]. cbn [bind] in H.
    unfold ebitda_trend_answer in H.
    assert (Ht : t = ("EBITDA trend for " ++ e ++ " over time.")%string)
      by congruence.
    subst t. cbn [append]. apply Hng. left.
    do 2 eexists. split; [reflexivity|]. auto 6.
  - intros t c H. unfold get_cash_runway in H.
    destruct (monthly_totals _); [|discriminate H]. cbn [bind] in H.
    unfold cash_runway_answer in H.
    inversion H as [[Ht Hc]]. clear H Hc.
    apply Hng. right. eexists. cbn [append]. reflexivity.
Qed.

Lemma run_agent_with_cash (question : string)
    (actuals budget : list FinancialRecord) (fx : list FxRate)
    (cash : list CashRecord) (e : string) :
  match run_agent question actuals budget fx (Some cash) e with
  | Ok (t, None) =>
      chartless question = true /\ In t guidance_texts
      /\ t <> "Cash data not provided."%string
  | Ok (t, Some c) => chartless question = false /\ ~ In t guidance_texts
  | Raise err =>
      chartless question = false /\ trend_error err
      /\ In (classify_intent question) raising_intents
  end.
Proof.
  pose proof (classify_intent_in_tags question) as Htag.
  unfold intent_tags in Htag. unfold run_agent, chartless.
  repeat (destruct Htag as [Htag | Htag]; [| ]); try contradiction;
    rewrite <- Htag;
    cbn [String.eqb Ascii.eqb Bool.eqb existsb negb orb andb
         INTENT_FUNCTION_MAP_keys month_intents].
  - destruct (extract_month question) as [m|].
    + destruct (metric_texts_not_guidance m e actuals budget fx cash)
        as ((t & c & -> & Hng) & _).
      simpl. split; [reflexivity|exact Hng].
    + simpl. split; [reflexivity|]. split; [tauto|discriminate].
  - pose proof (get_gross_margin_trend1_outcome actuals fx e) as H.
    destruct (metric_texts_not_guidance "" e actuals budget fx cash)
      as (_ & _ & _ & Hng & _).
    destruct (get_gross_margin_trend1 _ _ _) as [[t c] | err]; simpl;
      [split; [reflexivity | exact (Hng _ _ eq_refl)]
      | split; [reflexivity | split; [exact H | tauto]]].
  - destruct (extract_month question) as [m|].
    + destruct (metric_texts_not_guidance m e actuals budget fx cash)
        as (_ & (t & c & -> & Hng) & _).
      simpl. split; [reflexivity|exact Hng].
    + simpl. split; [reflexivity|]. split; [tauto|discriminate].
  - pose proof (get_ebitda_trend_outcome actuals fx e) as H.
    destruct (metric_texts_not_guidance "" e actuals budget fx cash)
      as (_ & _ & _ & _ & Hng & _).
    destruct (get_ebitda_trend _ _ _) as [[t c] | err]; simpl;
      [split; [reflexivity | exact (Hng _ _ eq_refl)]
      | split; [reflexivity | split; [exact H | tauto]]].
  - destruct (extract_month question) as [m|].
    + destruct (metric_texts_not_guidance m e actuals budget fx cash)
        as (_ & _ & (t & c & -> & Hng) & _).
      simpl. split; [reflexivity|exact Hng].
    + simpl. split; [reflexivity|]. split; [tauto|discriminate].
  - pose proof (get_cash_runway_outcome cash actuals fx e) as H.
    destruct (metric_texts_not_guidance "" e actuals budget fx cash)
      as (_ & _ & _ & _ & _ & Hng).
    destruct (get_cash_runway _ _ _ _) as [[t c] | err]; simpl;
      [split; [reflexivity | exact (Hng _ _ eq_refl)]
      | split; [reflexivity | split; [exact H | tauto]]].
  - simpl. split; [reflexivity|]. split; [tauto|discriminate].
Qed.

Lemma markdown_answer_inj (t u : string) :
  App.markdown ("**Answer:** " ++ t) = App.markdown ("**Answer:** " ++ u) ->
  t = u.
Proof. cbn [append]. intros H. now inversion H. Qed.

(** X14. One run of the page on a question that is not empty.  Export
    PDF fails with [AttributeError] exactly when the button is pressed on
    an answer without a chart, that is when the question has no intent,
    or an intent that needs a month and no month: the answer and the
    button are shown first, and the temporary file is already created.
    The answer is a guidance text exactly when no chart is shown, and
    it is never "Cash data not provided.", since the page always passes
    the cash table.  An error of [run_agent] is not caught: nothing is
    shown, and the intent is a trend or the cash runway.  A run without
    error that exports writes the file it then offers for download, from
    the chart it shows. *)
Theorem page_outcomes (question stamp : string) (export_clicked : bool)
    (actuals budget : list FinancialRecord) (fx : list FxRate)
    (cash : list CashRecord) :
  question <> ""%string ->
  let out := App.script question export_clicked stamp actuals budget fx
               cash in
  (snd out
   = Some (App.AttributeError "'NoneType' object has no attribute 'savefig'")
   <-> export_clicked = true /\ chartless question = true)
  /\ (forall msg, snd out = Some (App.AttributeError msg) ->
        exists t,
          In t guidance_texts
          /\ fst out = [App.markdown ("**Answer:** " ++ t)%string;
                        App.button "Export PDF";
                        App.named_temporary_file ".png"])
  /\ (forall t, In (App.markdown ("**Answer:** " ++ t)%string) (fst out) ->
        t <> "Cash data not provided."%string
        /\ (In t guidance_texts <->
            forall f, ~ In (App.pyplot f) (fst out)))
  /\ (forall e, snd out = Some (App.Uncaught e) ->
        fst out = []
        /\ trend_error e
        /\ In (classify_intent question) raising_intents
        /\ run_agent question actuals budget fx (Some cash) "ParentCo"
           = Raise e)
  /\ (snd out = None -> export_clicked = true ->
        exists t f,
          run_agent question actuals budget fx (Some cash) "ParentCo"
          = Ok (t, Some f)
          /\ firstn 5 (fst out)
             = [App.markdown ("**Answer:** " ++ t)%string; App.pyplot f;
                App.button "Export PDF"; App.named_temporary_file ".png";
                App.savefig f "png"]
          /\ skipn 9 (fst out)
             = [App.pdf_output ("CFO_Report_" ++ stamp ++ ".pdf")%string;
                App.success
                  ("PDF exported as CFO_Report_" ++ stamp ++ ".pdf")%string;
                App.download_button "Download PDF"
                  ("CFO_Report_" ++ stamp ++ ".pdf")%string])
  /\ (export_clicked = false ->
        snd out = None \/ exists e, snd out = Some (App.Uncaught e)).
Proof.
  intros Hq out.
  assert (Hout : out
    = match run_agent question actuals budget fx (Some cash) "ParentCo" with
      | Raise e => ([], Some (App.Uncaught e))
      | Ok (response_text, fig) =>
          let shown :=
            (App.markdown ("**Answer:** " ++ response_text)%string
             :: match fig with
                | Some f => [App.pyplot f]
                | None => []
                end
             ++ [App.button "Export PDF"])%list in
          if export_clicked then
            ((shown ++ fst (App.export_pdf question stamp fig))%list,
             snd (App.export_pdf question stamp fig))
          else (shown, None)
      end).
  { unfold out, App.script. destruct question; [congruence|reflexivity]. }
  clearbody out. subst out.
  pose proof (run_agent_with_cash question actuals budget fx cash "ParentCo")
    as Hrun.
  destruct (run_agent question actuals budget fx (Some cash) "ParentCo")
    as [[t [f|]] | err].
  - (* an answer with a chart *)
    destruct Hrun as [Hc Hng].
    assert (Hcash : t <> "Cash data not provided."%string).
    { intros ->. apply Hng. unfold guidance_texts. simpl. tauto. }
    assert (Hthird : forall l : list App.call,
              (forall x, In x l -> forall u,
                           x <> App.markdown ("**Answer:** " ++ u)%string) ->
              forall u,
                In (App.markdown ("**Answer:** " ++ u)%string)
                   (App.markdown ("**Answer:** " ++ t)%string
                    :: App.pyplot f :: l) ->
                u <> "Cash data not provided."%string
                /\ (In u guidance_texts <->
                    forall g, ~ In (App.pyplot g)
                                (App.markdown ("**Answer:** " ++ t)%string
                                 :: App.pyplot f :: l))).
    { intros l Hl u [H|[H|H]].
      - apply markdown_answer_inj in H. subst u. split; [exact Hcash|].
        split; [intros H; contradiction|].
        intros H. exfalso. apply (H f). right. now left.
      - discriminate H.
      - exfalso. exact (Hl _ H u eq_refl). }
    destruct export_clicked; cbn [fst snd App.export_pdf app firstn skipn].
    + split; [split; [discriminate|intros [_ H]; congruence]|].
      split; [discriminate|].
      split.
      { apply Hthird. intros x Hx u. cbn [In] in Hx.
        repeat (destruct Hx as [<-|Hx]; [cbn [append]; discriminate|]).
        destruct Hx. }
      split; [discriminate|].
      split; [|discriminate].
      intros _ _. exists t, f. split; [reflexivity|].
      split; reflexivity.
    + split; [split; [discriminate|intros [H _]; discriminate H]|].
      split; [discriminate|].
      split.
      { apply Hthird. intros x Hx u. cbn [In] in Hx.
        repeat (destruct Hx as [<-|Hx]; [cbn [append]; discriminate|]).
        destruct Hx. }
      split; [discriminate|].
      split; [discriminate|]. intros _. now left.
  - (* an answer without a chart *)
    destruct Hrun as (Hc & Hin & Hcash).
    assert (Hthird : forall l : list App.call,
              (forall x, In x l ->
                 (forall u, x <> App.markdown ("**Answer:** " ++ u)%string)
                 /\ forall g, x <> App.pyplot g) ->
              forall u,
                In (App.markdown ("**Answer:** " ++ u)%string)
                   (App.markdown ("**Answer:** " ++ t)%string :: l) ->
                u <> "Cash data not provided."%string
                /\ (In u guidance_texts <->
                    forall g, ~ In (App.pyplot g)
                                (App.markdown ("**Answer:** " ++ t)%string
                                 :: l))).
    { intros l Hl u [H|H].
      - apply markdown_answer_inj in H. subst u. split; [exact Hcash|].
        split; [|intros _; exact Hin].
        intros _ g [H|H]; [cbn [append] in H; discriminate H|].
        exact (proj2 (Hl _ H) g eq_refl).
      - exfalso. exact (proj1 (Hl _ H) u eq_refl). }
    destruct export_clicked; cbn [fst snd App.export_pdf app firstn skipn].
    + split; [split; [intros _; split; [reflexivity|exact Hc]|reflexivity]|].
      split; [intros msg _; exists t; split; [exact Hin|reflexivity]|].
      split.
      { apply Hthird. intros x Hx. cbn [In] in Hx.
        repeat (destruct Hx as [<-|Hx];
                [split; intros; cbn [append]; discriminate|]).
        destruct Hx. }
      split; [discriminate|].
      split; [discriminate|discriminate].
    + split; [split; [discriminate|intros [H _]; discriminate H]|].
      split; [discriminate|].
      split.
      { apply Hthird. intros x Hx. cbn [In] in Hx.
        repeat (destruct Hx as [<-|Hx];
                [split; intros; cbn [append]; discriminate|]).
        destruct Hx. }
      split; [discriminate|].
      split; [discriminate|]. intros _. now left.
  - (* an error of the metric function *)
    destruct Hrun as (Hc & Herr & Hin). cbn [fst snd].
    split; [split; [discriminate|intros [_ H]; congruence]|].
    split; [discriminate|].
    split; [intros u []|].
    split.
    { intros e He. assert (e = err) by congruence. subst e.
      repeat split; assumption. }
    split; [discriminate|]. intros _. right. now exists err.
Qed.

Lemma page_outcomes_witness :
  snd (App.script "hello" true "20240601_120000" june_actuals june_budget
         june_fx june_cash)
  = Some (App.AttributeError "'NoneType' object has no attribute 'savefig'").
Proof.
  apply (page_outcomes "hello" "20240601_120000" true june_actuals
           june_budget june_fx june_cash).
  - discriminate.
  - split; vm_compute; reflexivity.
Defined.

(** ** The cash runway, when there is an answer *)

Lemma fold_left_Qplus_total (l : list Q) (a : Q) :
  (fold_left Qplus l a == a + total l)%Q.
Proof.
  revert a. induction l as [|x l IH]; intros a; simpl.
  - ring.
  - rewrite IH. ring.
Qed.

(** The mean times the number of values is their sum. *)
Lemma mean_total (l : list Q) (avg : Q) :
  mean l = Some avg ->
  (avg * inject_Z (Z.of_nat (length l)) == total l)%Q.
Proof.
  destruct l as [|x l]; [discriminate|]. unfold mean. intros H.
  assert (Havg : avg = (fold_left Qplus (x :: l) 0
                        / inject_Z (Z.of_nat (length (x :: l))))%Q)
    by congruence.
  rewrite Havg, Qmult_comm, Qmult_div_r.
  - rewrite fold_left_Qplus_total. ring.
  - unfold Qeq. simpl. lia.
Qed.


